(** * PJ-1203A zigbee2mqtt converters: shallow embedding and properties

    The repository holds several generations of one external converter for
    the TuYa PJ-1203A bidirectional energy meter.  Three of them are embedded
    here, each in a module of its own:

    - [V5]: the current converter (the ES-module file with the
      [pj1203a...] functions: signed buffer, [late_energy_flow_X],
      [signed_power_X], [single_zero_remove]);
    - [V3]: [PJ-1203A-v3.js] ([energy_flow_qwirk_X], [signed_power_X]);
    - [V1]: the first converter of [PJ-1203A.js] ([publishing_mode],
      [missing_message_detection], [missing_data_behavior], counters).

    JavaScript numbers are IEEE-754 binary64 values: they are modelled by
    Rocq's primitive floats.  Objects used as dictionaries ([result],
    [options]) are [gmap string jsval]; the private state object, whose set
    of keys is fixed, is a record with the source's key names.  Mutation of
    [priv] and [result] is explicit state passing. *)

From Stdlib Require Import ZArith Lia Bool List Floats.
From stdpp Require Import base option gmap strings.

Set Warnings "-inexact-float".

Local Open Scope Z_scope.

(** ** JavaScript values and the operators the converters use *)

Module JS.

(** The part of a Tuya datapoint message the converters read:
    [msg.data.seq] and [msg.data.dpValues] (datapoint id and decoded
    numeric value). *)
Record message : Type := mkMessage {
  seq : Z;
  dpValues : list (Z * float)
}.

(** The values stored in [result] and [options].  [JMessage] is a reference
    to the message object, which the first converter copies into its result
    for debugging. *)
Inductive jsval : Type :=
  | JNull
  | JUndefined
  | JBool (b : bool)
  | JNum (f : float)
  | JStr (s : string)
  | JMessage (m : message).

(** An object used as a dictionary: [result] and [options]. *)
Abbreviation jsobject := (gmap string jsval).

(** [ToBoolean]. *)
Definition truthy (v : jsval) : bool :=
  match v with
  | JNull | JUndefined => false
  | JBool b => b
  | JNum f => negb (PrimFloat.is_zero f || PrimFloat.is_nan f)
  | JStr s => negb (String.eqb s "")
  | JMessage _ => true
  end.

(** [o[key]]: a missing key reads as [undefined]. *)
Definition js_get (o : jsobject) (key : string) : jsval :=
  default JUndefined (o !! key).

(** [key in o]. *)
Definition js_in (key : string) (o : jsobject) : bool :=
  bool_decide (is_Some (o !! key)).

(** [Object.assign(target, source)]: the keys of [source] win. *)
Definition object_assign (target source : jsobject) : jsobject :=
  source ∪ target.

(** A nullable number or string stored in a typed field, seen as a value. *)
Definition of_num (o : option float) : jsval :=
  match o with Some f => JNum f | None => JNull end.

Definition of_str (o : option string) : jsval :=
  match o with Some s => JStr s | None => JNull end.

(** [v === "literal"] for a string literal. *)
Definition str_eq (v : jsval) (lit : string) : bool :=
  match v with JStr s => String.eqb s lit | _ => false end.

(** [ToNumber] on the values a numeric field of [result] can hold.  Strings
    are not parsed: the converters never store a string under a numeric
    key. *)
Definition to_number (v : jsval) : float :=
  match v with
  | JNum f => f
  | JNull => 0%float
  | JBool b => if b then 1%float else 0%float
  | JUndefined | JStr _ | JMessage _ => PrimFloat.nan
  end.

(** An integer of absolute value below 2^63 as a number (exact below 2^53). *)
Definition float_of_Z (z : Z) : float :=
  let m := PrimFloat.of_uint63 (Uint63.of_Z (Z.abs z)) in
  if z <? 0 then PrimFloat.opp m else m.

(** [Math.round]: the integral number closest to [x], ties towards
    +infinity; NaN, the infinities and the zeros are returned unchanged, and
    a negative argument that rounds to zero gives -0. *)
Definition math_round (x : float) : float :=
  match Prim2SF x with
  | S754_finite s m e =>
      if 0 <=? e then x
      else
        let k := - e in
        let num := if s then - Z.pos m else Z.pos m in
        let n := (2 * num + 2 ^ k) / 2 ^ (k + 1) in
        if n =? 0 then (if s then (-0)%float else 0%float) else float_of_Z n
  | _ => x
  end.

(** [a || b] *)
Definition js_or (a b : jsval) : jsval :=
  if truthy a then a else b.

(** [ToInt32], on an integral number. *)
Definition to_int32 (z : Z) : Z :=
  (z + 2 ^ 31) mod 2 ^ 32 - 2 ^ 31.

(** [a & b] on integral numbers. *)
Definition bit_and (a b : Z) : Z :=
  Z.land (to_int32 a) (to_int32 b).

End JS.

Import JS.

(** ** Channels, messages and the datapoint dispatcher *)

(** The converters are closures over a channel name [x]; the datapoint
    tables instantiate them with ["a"] and ["b"] only. *)
Inductive channel : Type := ChA | ChB.

(** [x] *)
Definition chan_name (x : channel) : string :=
  match x with ChA => "a" | ChB => "b" end.

(** [x.toUpperCase()] *)
Definition chan_upper (x : channel) : string :=
  match x with ChA => "A" | ChB => "B" end.

(** A template key such as [`power_${x}`]. *)
Definition key (prefix : string) (x : channel) : string :=
  prefix +:+ chan_name x.

(** [tuya.valueConverter.divideBy10], [divideBy100], [divideBy1000] and
    [raw] (the [from] direction). *)
Definition divideBy10 (v : float) : float := (v / 10)%float.
Definition divideBy100 (v : float) : float := (v / 100)%float.
Definition divideBy1000 (v : float) : float := (v / 1000)%float.
Definition raw (v : float) : float := v.

Section Dispatch.

(** The private state type of the variant, and the time of processing
    ([new Date().toISOString()]). *)
Context {state : Type}.

(** An entry [[dp, name, converter]] of [meta.tuyaDatapoints]: with a name
    the converter gives a value stored under that name, with [null] it
    gives an object merged into the result. *)
Inductive dp_entry : Type :=
  | Named (name : string) (from : float -> float)
  | Merged (from : float -> state -> jsobject -> string -> jsobject * state).

Definition find_dp (table : list (Z * dp_entry)) (dp : Z) : option dp_entry :=
  snd <$> List.find (fun d => fst d =? dp) table.

(** Modelled from the spec: the Dispatch Adapter of section 4.2, which is
    [tuya.fz.datapoints.convert] of zigbee-herdsman-converters (not part
    of this repository).  For each datapoint of the message it looks the
    identifier up in the table; an unmapped identifier is ignored;
    otherwise the converter is run and its output stored or merged. *)
Fixpoint datapoints_convert (table : list (Z * dp_entry))
    (dps : list (Z * float)) (options : jsobject) (now : string)
    (result : jsobject) (priv : state) : jsobject * state :=
  match dps with
  | [] => (result, priv)
  | (dp, v) :: rest =>
      let '(result, priv) :=
        match find_dp table dp with
        | Some (Named name from) => (<[name := JNum (from v)]> result, priv)
        | Some (Merged from) =>
            let '(converted, priv) := from v priv options now in
            (object_assign result converted, priv)
        | None => (result, priv)
        end in
      datapoints_convert table rest options now result priv
  end.

End Dispatch.

Arguments dp_entry : clear implicits.

(** ** The current converter (v5) *)

Module V5.

(** The object built by [pj1203aGetPrivateState]; [null] is [None]. *)
Record private_state : Type := mkPriv {
  sign_a : option float;
  sign_b : option float;
  power_a : option float;
  power_b : option float;
  current_a : option float;
  current_b : option float;
  power_factor_a : option float;
  power_factor_b : option float;
  timestamp_a : option string;
  timestamp_b : option string;
  last_seq : Z;
  seq_inc : Z;
  pub_power_a : option float;
  pub_power_b : option float;
  zero_power_a : option bool;
  zero_power_b : option bool;
  zero_current_a : option bool;
  zero_current_b : option bool
}.

Definition initial_state : private_state :=
  {| sign_a := None; sign_b := None;
     power_a := None; power_b := None;
     current_a := None; current_b := None;
     power_factor_a := None; power_factor_b := None;
     timestamp_a := None; timestamp_b := None;
     last_seq := -99999; seq_inc := 256;
     pub_power_a := None; pub_power_b := None;
     zero_power_a := None; zero_power_b := None;
     zero_current_a := None; zero_current_b := None |}.

(** [getValue(meta.device, "private_state")] is [undefined] ([None]) for a
    device seen for the first time; the object is then created and stored.
    The converters of one message all receive this same object. *)
Definition pj1203aGetPrivateState (store : option private_state) : private_state :=
  match store with
  | Some priv => priv
  | None => initial_state
  end.

(** Reads [priv[`field_${x}`]]. *)
Definition get_sign (x : channel) (p : private_state) : option float :=
  match x with ChA => sign_a p | ChB => sign_b p end.
Definition get_power (x : channel) (p : private_state) : option float :=
  match x with ChA => power_a p | ChB => power_b p end.
Definition get_current (x : channel) (p : private_state) : option float :=
  match x with ChA => current_a p | ChB => current_b p end.
Definition get_power_factor (x : channel) (p : private_state) : option float :=
  match x with ChA => power_factor_a p | ChB => power_factor_b p end.
Definition get_timestamp (x : channel) (p : private_state) : option string :=
  match x with ChA => timestamp_a p | ChB => timestamp_b p end.
Definition get_pub_power (x : channel) (p : private_state) : option float :=
  match x with ChA => pub_power_a p | ChB => pub_power_b p end.
Definition get_zero_power (x : channel) (p : private_state) : option bool :=
  match x with ChA => zero_power_a p | ChB => zero_power_b p end.
Definition get_zero_current (x : channel) (p : private_state) : option bool :=
  match x with ChA => zero_current_a p | ChB => zero_current_b p end.

(** Writes [priv[`field_${x}`] = v]. *)
Definition set_sign (x : channel) (v : option float) (p : private_state) : private_state :=
  let 'mkPriv sa sb pa pb ca cb fa fb ta tb ls si ua ub zpa zpb zca zcb := p in
  match x with
  | ChA => mkPriv v sb pa pb ca cb fa fb ta tb ls si ua ub zpa zpb zca zcb
  | ChB => mkPriv sa v pa pb ca cb fa fb ta tb ls si ua ub zpa zpb zca zcb
  end.
Definition set_power (x : channel) (v : option float) (p : private_state) : private_state :=
  let 'mkPriv sa sb pa pb ca cb fa fb ta tb ls si ua ub zpa zpb zca zcb := p in
  match x with
  | ChA => mkPriv sa sb v pb ca cb fa fb ta tb ls si ua ub zpa zpb zca zcb
  | ChB => mkPriv sa sb pa v ca cb fa fb ta tb ls si ua ub zpa zpb zca zcb
  end.
Definition set_current (x : channel) (v : option float) (p : private_state) : private_state :=
  let 'mkPriv sa sb pa pb ca cb fa fb ta tb ls si ua ub zpa zpb zca zcb := p in
  match x with
  | ChA => mkPriv sa sb pa pb v cb fa fb ta tb ls si ua ub zpa zpb zca zcb
  | ChB => mkPriv sa sb pa pb ca v fa fb ta tb ls si ua ub zpa zpb zca zcb
  end.
Definition set_power_factor (x : channel) (v : option float) (p : private_state) : private_state :=
  let 'mkPriv sa sb pa pb ca cb fa fb ta tb ls si ua ub zpa zpb zca zcb := p in
  match x with
  | ChA => mkPriv sa sb pa pb ca cb v fb ta tb ls si ua ub zpa zpb zca zcb
  | ChB => mkPriv sa sb pa pb ca cb fa v ta tb ls si ua ub zpa zpb zca zcb
  end.
Definition set_timestamp (x : channel) (v : option string) (p : private_state) : private_state :=
  let 'mkPriv sa sb pa pb ca cb fa fb ta tb ls si ua ub zpa zpb zca zcb := p in
  match x with
  | ChA => mkPriv sa sb pa pb ca cb fa fb v tb ls si ua ub zpa zpb zca zcb
  | ChB => mkPriv sa sb pa pb ca cb fa fb ta v ls si ua ub zpa zpb zca zcb
  end.
Definition set_last_seq (v : Z) (p : private_state) : private_state :=
  let 'mkPriv sa sb pa pb ca cb fa fb ta tb ls si ua ub zpa zpb zca zcb := p in
  mkPriv sa sb pa pb ca cb fa fb ta tb v si ua ub zpa zpb zca zcb.
Definition set_pub_power (x : channel) (v : option float) (p : private_state) : private_state :=
  let 'mkPriv sa sb pa pb ca cb fa fb ta tb ls si ua ub zpa zpb zca zcb := p in
  match x with
  | ChA => mkPriv sa sb pa pb ca cb fa fb ta tb ls si v ub zpa zpb zca zcb
  | ChB => mkPriv sa sb pa pb ca cb fa fb ta tb ls si ua v zpa zpb zca zcb
  end.
Definition set_zero_power (x : channel) (v : option bool) (p : private_state) : private_state :=
  let 'mkPriv sa sb pa pb ca cb fa fb ta tb ls si ua ub zpa zpb zca zcb := p in
  match x with
  | ChA => mkPriv sa sb pa pb ca cb fa fb ta tb ls si ua ub v zpb zca zcb
  | ChB => mkPriv sa sb pa pb ca cb fa fb ta tb ls si ua ub zpa v zca zcb
  end.
Definition set_zero_current (x : channel) (v : option bool) (p : private_state) : private_state :=
  let 'mkPriv sa sb pa pb ca cb fa fb ta tb ls si ua ub zpa zpb zca zcb := p in
  match x with
  | ChA => mkPriv sa sb pa pb ca cb fa fb ta tb ls si ua ub zpa zpb v zcb
  | ChB => mkPriv sa sb pa pb ca cb fa fb ta tb ls si ua ub zpa zpb zca v
  end.

(** The option getters: [if (key in options) return options[key]; false;]
    returns [undefined] when the key is absent. *)
Definition pj1203aGetLateEnergyFlow (options : jsobject) (x : channel) : jsval :=
  let key := "late_energy_flow_" +:+ chan_upper x in
  if js_in key options then js_get options key else JUndefined.

Definition pj1203aGetSignedPower (options : jsobject) (x : channel) : jsval :=
  let key := "signed_power_" +:+ chan_upper x in
  if js_in key options then js_get options key else JUndefined.

Definition pj1203aGetSingleZeroRemove (options : jsobject) : jsval :=
  let key := "single_zero_remove" in
  if js_in key options then js_get options key else JUndefined.

(** [result.power_x * (result.energy_flow_x === "producing" ? -1 : 1)] *)
Definition published_signed_power (result : jsobject) (x : channel) : float :=
  (to_number (js_get result (key "power_" x))
   * (if str_eq (js_get result (key "energy_flow_" x)) "producing" then -1 else 1))%float.

(** [Math.round(10 * a + 10 * b) / 10] *)
Definition rounded_sum (a b : float) : float :=
  (math_round (10 * a + 10 * b) / 10)%float.

Definition pj1203aRecomputePowerAb (result : jsobject) (priv : private_state)
    : jsobject * private_state :=
  let modified := false in
  let '(priv, modified) :=
    if js_in "power_a" result
    then (set_pub_power ChA (Some (published_signed_power result ChA)) priv, true)
    else (priv, modified) in
  let '(priv, modified) :=
    if js_in "power_b" result
    then (set_pub_power ChB (Some (published_signed_power result ChB)) priv, true)
    else (priv, modified) in
  if modified then
    match pub_power_a priv, pub_power_b priv with
    | Some a, Some b => (<["power_ab" := JNum (rounded_sum a b)]> result, priv)
    | _, _ => (result, priv)
    end
  else (result, priv).

(** [priv[sign] = priv[power] = priv[current] = priv[power_factor] = null] *)
Definition clear_fields (x : channel) (priv : private_state) : private_state :=
  set_sign x None (set_power x None (set_current x None (set_power_factor x None priv))).

Definition pj1203aFlushAll (result : jsobject) (x : channel)
    (priv : private_state) (options : jsobject)
    : bool * jsobject * private_state :=
  let sign := get_sign x priv in
  let power := get_power x priv in
  let current := get_current x priv in
  let power_factor := get_power_factor x priv in
  let priv := clear_fields x priv in
  match sign, power, current, power_factor with
  | Some sign, Some power, Some current, Some power_factor =>
      let result :=
        if truthy (pj1203aGetSignedPower options x)
        then <[key "energy_flow_" x := JStr "sign"]>
               (<[key "power_" x := JNum (sign * power)%float]> result)
        else <[key "energy_flow_" x :=
                 JStr (if (0 <? sign)%float then "consuming" else "producing")]>
               (<[key "power_" x := JNum power]> result) in
      let result := <[key "timestamp_" x := of_str (get_timestamp x priv)]> result in
      let result := <[key "current_" x := JNum current]> result in
      let result := <[key "power_factor_" x := JNum power_factor]> result in
      let '(result, priv) := pj1203aRecomputePowerAb result priv in
      (true, result, priv)
  | _, _, _, _ => (false, result, priv)
  end.

Definition pj1203aFlushZero (result : jsobject) (x : channel)
    (priv : private_state) (options : jsobject) (now : string)
    : jsobject * private_state :=
  let priv := set_sign x (Some 1%float) priv in
  let priv := set_power x (Some 0%float) priv in
  let priv := set_timestamp x (Some now) priv in
  let priv := set_current x (Some 0%float) priv in
  let priv := set_power_factor x (Some 100%float) priv in
  let '(_, result, priv) := pj1203aFlushAll result x priv options in
  (result, priv).

Definition pj1203aFlushNull (result : jsobject) (x : channel)
    (priv : private_state) (options : jsobject) (now : string)
    : jsobject * private_state :=
  let priv := clear_fields x priv in
  let priv := set_timestamp x (Some now) priv in
  let '(_, result, priv) := pj1203aFlushAll result x priv options in
  (result, priv).

(** [!priv[`zero_..._${x}`]] for a flag that is [null], [true] or [false]. *)
Definition flag_unset (flag : option bool) : bool :=
  match flag with Some b => negb b | None => true end.

Module valueConverters.

Definition energy_flow (x : channel) (v : float) (priv : private_state)
    (options : jsobject) (now : string) : jsobject * private_state :=
  let result : jsobject := ∅ in
  let priv := set_sign x (Some (if (v =? 1)%float then (-1)%float else 1%float)) priv in
  let late_energy_flow := pj1203aGetLateEnergyFlow options x in
  if truthy late_energy_flow then
    let '(_, result, priv) := pj1203aFlushAll result x priv options in
    (result, priv)
  else (result, priv).

Definition power (x : channel) (v : float) (priv : private_state)
    (options : jsobject) (now : string) : jsobject * private_state :=
  let result : jsobject := ∅ in
  let power_x := (v / 10)%float in
  let priv := set_power x (Some power_x) priv in
  let priv := set_timestamp x (Some now) priv in
  if (v =? 0)%float then
    let single_zero_remove := pj1203aGetSingleZeroRemove options in
    let '(result, priv) :=
      if truthy single_zero_remove && flag_unset (get_zero_power x priv)
      then pj1203aFlushNull result x priv options now
      else pj1203aFlushZero result x priv options now in
    (result, set_zero_power x (Some true) priv)
  else (result, set_zero_power x (Some false) priv).

Definition current (x : channel) (v : float) (priv : private_state)
    (options : jsobject) (now : string) : jsobject * private_state :=
  let result : jsobject := ∅ in
  let current_x := (v / 1000)%float in
  let priv := set_current x (Some current_x) priv in
  if (v =? 0)%float then
    let single_zero_remove := pj1203aGetSingleZeroRemove options in
    let '(result, priv) :=
      if truthy single_zero_remove && flag_unset (get_zero_current x priv)
      then pj1203aFlushNull result x priv options now
      else pj1203aFlushZero result x priv options now in
    (result, set_zero_current x (Some true) priv)
  else (result, set_zero_current x (Some false) priv).

Definition power_factor (x : channel) (v : float) (priv : private_state)
    (options : jsobject) (now : string) : jsobject * private_state :=
  let result : jsobject := ∅ in
  let priv := set_power_factor x (Some v) priv in
  let late_energy_flow := pj1203aGetLateEnergyFlow options x in
  if negb (truthy late_energy_flow) then
    let '(_, result, priv) := pj1203aFlushAll result x priv options in
    (result, priv)
  else (result, priv).

(** The device's own total is discarded. *)
Definition power_ab (v : float) (priv : private_state)
    (options : jsobject) (now : string) : jsobject * private_state :=
  (∅, priv).

End valueConverters.

(** [definition.meta.tuyaDatapoints] *)
Definition tuyaDatapoints : list (Z * dp_entry private_state) :=
  [ (111, Named "ac_frequency" divideBy100);
    (112, Named "voltage" divideBy10);
    (101, Merged (valueConverters.power ChA));
    (105, Merged (valueConverters.power ChB));
    (113, Merged (valueConverters.current ChA));
    (114, Merged (valueConverters.current ChB));
    (110, Merged (valueConverters.power_factor ChA));
    (121, Merged (valueConverters.power_factor ChB));
    (102, Merged (valueConverters.energy_flow ChA));
    (104, Merged (valueConverters.energy_flow ChB));
    (115, Merged valueConverters.power_ab);
    (106, Named "energy_a" divideBy100);
    (108, Named "energy_b" divideBy100);
    (107, Named "energy_produced_a" divideBy100);
    (109, Named "energy_produced_b" divideBy100);
    (129, Named "update_frequency" raw);
    (118, Named "calibration_power_a" divideBy1000);
    (124, Named "calibration_power_b" divideBy1000) ].

(** [pj1203aIgnoreTuyaSetTime.convert]: a time-sync command carries no
    sequence number but the device counts it. *)
Definition pj1203aIgnoreTuyaSetTime (priv : private_state) : private_state :=
  set_last_seq (last_seq priv + seq_inc priv) priv.

(** [(priv.last_seq + priv.seq_inc) & 0xffff] *)
Definition expected_seq (priv : private_state) : Z :=
  bit_and (last_seq priv + seq_inc priv) 65535.

(** The two comparisons of the gap test and the test itself:
    [seq !== expected_seq && seq !== priv.last_seq]. *)
Definition in_order (priv : private_state) (seq : Z) : bool :=
  seq =? expected_seq priv.

Definition duplicate (priv : private_state) (seq : Z) : bool :=
  seq =? last_seq priv.

Definition gap_detected (priv : private_state) (seq : Z) : bool :=
  negb (in_order priv seq) && negb (duplicate priv seq).

(** The body of the gap branch. *)
Definition clear_pending (p : private_state) : private_state :=
  {| sign_a := None; sign_b := None;
     power_a := None; power_b := None;
     current_a := None; current_b := None;
     power_factor_a := None; power_factor_b := None;
     timestamp_a := timestamp_a p; timestamp_b := timestamp_b p;
     last_seq := last_seq p; seq_inc := seq_inc p;
     pub_power_a := pub_power_a p; pub_power_b := pub_power_b p;
     zero_power_a := None; zero_power_b := None;
     zero_current_a := None; zero_current_b := None |}.

(** The sequence tracking of [pj1203aFzDatapoints.convert], up to and
    including [priv.last_seq = msg.data.seq]. *)
Definition track_sequence (priv : private_state) (seq : Z) : private_state :=
  let priv := if gap_detected priv seq then clear_pending priv else priv in
  set_last_seq seq priv.

(** [pj1203aFzDatapoints.convert] *)
Definition convert (store : option private_state) (msg : message)
    (options : jsobject) (now : string) : jsobject * private_state :=
  let result : jsobject := ∅ in
  let priv := pj1203aGetPrivateState store in
  let priv := track_sequence priv (seq msg) in
  let '(converted, priv) :=
    datapoints_convert tuyaDatapoints (dpValues msg) options now ∅ priv in
  (object_assign result converted, priv).

End V5.

(** ** [PJ-1203A-v3.js] *)

(** The private state of v3 has the keys of v5 except [seq_inc] and the four
    [zero_*] flags; v3 is embedded on the v5 record, whose additional fields
    it neither reads nor writes.  [PJ1203A_recompute_power_ab],
    [PJ1203A_flush_all] and [PJ1203A_flush_zero] are, statement for statement,
    the v5 functions ([==] instead of [===] on operands of the same type). *)
Module V3.

Import V5.

Definition PJ1203A_getPrivateState (store : option private_state) : private_state :=
  match store with
  | Some priv => priv
  | None => initial_state
  end.

Definition PJ1203A_SEQ_INCREMENT : Z := 256.

Definition PJ1203A_get_energy_flow_qwirk (options : jsobject) (x : channel) : jsval :=
  let key := "energy_flow_qwirk_" +:+ chan_upper x in
  if js_in key options then js_get options key else JUndefined.

Definition PJ1203A_get_signed_power := pj1203aGetSignedPower.
Definition PJ1203A_recompute_power_ab := pj1203aRecomputePowerAb.
Definition PJ1203A_flush_all := pj1203aFlushAll.
Definition PJ1203A_flush_zero := pj1203aFlushZero.

Module valueConverters.

Definition energy_flow (x : channel) (v : float) (priv : private_state)
    (options : jsobject) (now : string) : jsobject * private_state :=
  let result : jsobject := ∅ in
  let priv := set_sign x (Some (if (v =? 1)%float then (-1)%float else 1%float)) priv in
  let energy_flow_qwirk := PJ1203A_get_energy_flow_qwirk options x in
  if truthy energy_flow_qwirk then
    let '(_, result, priv) := PJ1203A_flush_all result x priv options in
    (result, priv)
  else (result, priv).

Definition power (x : channel) (v : float) (priv : private_state)
    (options : jsobject) (now : string) : jsobject * private_state :=
  let result : jsobject := ∅ in
  let power_x := (v / 10)%float in
  let priv := set_power x (Some power_x) priv in
  let priv := set_timestamp x (Some now) priv in
  if (v =? 0)%float then PJ1203A_flush_zero result x priv options now
  else (result, priv).

Definition current (x : channel) (v : float) (priv : private_state)
    (options : jsobject) (now : string) : jsobject * private_state :=
  let result : jsobject := ∅ in
  let current_x := (v / 1000)%float in
  let priv := set_current x (Some current_x) priv in
  if (v =? 0)%float then PJ1203A_flush_zero result x priv options now
  else (result, priv).

Definition power_factor (x : channel) (v : float) (priv : private_state)
    (options : jsobject) (now : string) : jsobject * private_state :=
  let result : jsobject := ∅ in
  let priv := set_power_factor x (Some v) priv in
  let energy_flow_qwirk := PJ1203A_get_energy_flow_qwirk options x in
  if negb (truthy energy_flow_qwirk) then
    let '(_, result, priv) := PJ1203A_flush_all result x priv options in
    (result, priv)
  else (result, priv).

Definition power_ab (v : float) (priv : private_state)
    (options : jsobject) (now : string) : jsobject * private_state :=
  (∅, priv).

End valueConverters.

Definition tuyaDatapoints : list (Z * dp_entry private_state) :=
  [ (111, Named "ac_frequency" divideBy100);
    (112, Named "voltage" divideBy10);
    (101, Merged (valueConverters.power ChA));
    (105, Merged (valueConverters.power ChB));
    (113, Merged (valueConverters.current ChA));
    (114, Merged (valueConverters.current ChB));
    (110, Merged (valueConverters.power_factor ChA));
    (121, Merged (valueConverters.power_factor ChB));
    (102, Merged (valueConverters.energy_flow ChA));
    (104, Merged (valueConverters.energy_flow ChB));
    (115, Merged valueConverters.power_ab);
    (106, Named "energy_a" divideBy100);
    (108, Named "energy_b" divideBy100);
    (107, Named "energy_produced_a" divideBy100);
    (109, Named "energy_produced_b" divideBy100);
    (129, Named "update_frequency" raw) ].

Definition PJ1203A_ignore_tuya_set_time (priv : private_state) : private_state :=
  set_last_seq (last_seq priv + PJ1203A_SEQ_INCREMENT) priv.

Definition expected_seq (priv : private_state) : Z :=
  bit_and (last_seq priv + PJ1203A_SEQ_INCREMENT) 65535.

Definition gap_detected (priv : private_state) (seq : Z) : bool :=
  negb (seq =? expected_seq priv) && negb (seq =? last_seq priv).

(** The gap branch of v3 resets the eight buffered fields only. *)
Definition clear_pending (p : private_state) : private_state :=
  {| sign_a := None; sign_b := None;
     power_a := None; power_b := None;
     current_a := None; current_b := None;
     power_factor_a := None; power_factor_b := None;
     timestamp_a := timestamp_a p; timestamp_b := timestamp_b p;
     last_seq := last_seq p; seq_inc := seq_inc p;
     pub_power_a := pub_power_a p; pub_power_b := pub_power_b p;
     zero_power_a := zero_power_a p; zero_power_b := zero_power_b p;
     zero_current_a := zero_current_a p; zero_current_b := zero_current_b p |}.

Definition track_sequence (priv : private_state) (seq : Z) : private_state :=
  let priv := if gap_detected priv seq then clear_pending priv else priv in
  set_last_seq seq priv.

(** [PJ1203A_fz_datapoints.convert] *)
Definition convert (store : option private_state) (msg : message)
    (options : jsobject) (now : string) : jsobject * private_state :=
  let result : jsobject := ∅ in
  let priv := PJ1203A_getPrivateState store in
  let priv := track_sequence priv (seq msg) in
  let '(converted, priv) :=
    datapoints_convert tuyaDatapoints (dpValues msg) options now ∅ priv in
  (object_assign result converted, priv).

End V3.

(** ** The first converter of [PJ-1203A.js] *)

Module V1.

(** The object built by [PJ1203A_providePrivateState]. *)
Record private_state : Type := mkPriv {
  energy_flow_a : option string;
  energy_flow_b : option string;
  power_a : option float;
  power_b : option float;
  current_a : option float;
  current_b : option float;
  power_factor_a : option float;
  power_factor_b : option float;
  last_seq : Z;
  counter_a : Z;
  counter_b : Z
}.

Definition initial_state : private_state :=
  {| energy_flow_a := None; energy_flow_b := None;
     power_a := None; power_b := None;
     current_a := None; current_b := None;
     power_factor_a := None; power_factor_b := None;
     last_seq := -99999;
     counter_a := 0; counter_b := 0 |}.

(** [meta.device._priv], created when the device has none yet. *)
Definition PJ1203A_providePrivateState (store : option private_state) : private_state :=
  match store with
  | Some priv => priv
  | None => initial_state
  end.

Definition PJ1203A_SEQ_INCREMENT : Z := 256.

Definition get_energy_flow (x : channel) (p : private_state) : option string :=
  match x with ChA => energy_flow_a p | ChB => energy_flow_b p end.
Definition get_power (x : channel) (p : private_state) : option float :=
  match x with ChA => power_a p | ChB => power_b p end.
Definition get_current (x : channel) (p : private_state) : option float :=
  match x with ChA => current_a p | ChB => current_b p end.
Definition get_power_factor (x : channel) (p : private_state) : option float :=
  match x with ChA => power_factor_a p | ChB => power_factor_b p end.
Definition get_counter (x : channel) (p : private_state) : Z :=
  match x with ChA => counter_a p | ChB => counter_b p end.

Definition set_energy_flow (x : channel) (v : option string) (p : private_state) : private_state :=
  let 'mkPriv ea eb pa pb ca cb fa fb ls na nb := p in
  match x with
  | ChA => mkPriv v eb pa pb ca cb fa fb ls na nb
  | ChB => mkPriv ea v pa pb ca cb fa fb ls na nb
  end.
Definition set_power (x : channel) (v : option float) (p : private_state) : private_state :=
  let 'mkPriv ea eb pa pb ca cb fa fb ls na nb := p in
  match x with
  | ChA => mkPriv ea eb v pb ca cb fa fb ls na nb
  | ChB => mkPriv ea eb pa v ca cb fa fb ls na nb
  end.
Definition set_current (x : channel) (v : option float) (p : private_state) : private_state :=
  let 'mkPriv ea eb pa pb ca cb fa fb ls na nb := p in
  match x with
  | ChA => mkPriv ea eb pa pb v cb fa fb ls na nb
  | ChB => mkPriv ea eb pa pb ca v fa fb ls na nb
  end.
Definition set_power_factor (x : channel) (v : option float) (p : private_state) : private_state :=
  let 'mkPriv ea eb pa pb ca cb fa fb ls na nb := p in
  match x with
  | ChA => mkPriv ea eb pa pb ca cb v fb ls na nb
  | ChB => mkPriv ea eb pa pb ca cb fa v ls na nb
  end.
Definition set_last_seq (v : Z) (p : private_state) : private_state :=
  let 'mkPriv ea eb pa pb ca cb fa fb ls na nb := p in
  mkPriv ea eb pa pb ca cb fa fb v na nb.
Definition set_counter (x : channel) (v : Z) (p : private_state) : private_state :=
  let 'mkPriv ea eb pa pb ca cb fa fb ls na nb := p in
  match x with
  | ChA => mkPriv ea eb pa pb ca cb fa fb ls v nb
  | ChB => mkPriv ea eb pa pb ca cb fa fb ls na v
  end.

(** [options?.key || fallback] *)
Definition PJ1203A_get_missing_message_detection (options : jsobject) : jsval :=
  js_or (js_get options "missing_message_detection") (JBool false).

Definition PJ1203A_get_publishing_mode (options : jsobject) : jsval :=
  js_or (js_get options "publishing_mode") (JStr "immediate").

Definition PJ1203A_get_missing_data_behavior (options : jsobject) : jsval :=
  js_or (js_get options "missing_data_behavior") (JStr "keep_all").

(** [result[counter_x] = priv[counter_x] = (priv[counter_x] + 1) & 0xFFFF] *)
Definition PJ1203A_next_seq (result : jsobject) (priv : private_state) (x : channel)
    : jsobject * private_state :=
  let c := bit_and (get_counter x priv + 1) 65535 in
  (<[key "counter_" x := JNum (float_of_Z c)]> result, set_counter x c priv).

Definition clear_fields (x : channel) (priv : private_state) : private_state :=
  set_energy_flow x None (set_power x None (set_current x None (set_power_factor x None priv))).

(** [if (v !== null) result[k] = v] *)
Definition put_if_present (k : string) (v : jsval) (result : jsobject) : jsobject :=
  match v with JNull => result | _ => <[k := v]> result end.

Definition PJ1203A_flush_all (result : jsobject) (x : channel)
    (priv : private_state) (options : jsobject) (clear : bool)
    : jsobject * private_state :=
  let energy_flow := get_energy_flow x priv in
  let power := get_power x priv in
  let current := get_current x priv in
  let power_factor := get_power_factor x priv in
  let priv := if clear then clear_fields x priv else priv in
  match energy_flow, power, current, power_factor with
  | Some ef, Some pw, Some cu, Some pf =>
      let result := <[key "energy_flow_" x := JStr ef]> result in
      let result := <[key "power_" x := JNum pw]> result in
      let result := <[key "current_" x := JNum cu]> result in
      let result := <[key "power_factor_" x := JNum pf]> result in
      PJ1203A_next_seq result priv x
  | _, _, _, _ =>
      let missing_data_behavior := PJ1203A_get_missing_data_behavior options in
      let result :=
        if str_eq missing_data_behavior "keep_missing" then
          put_if_present (key "power_factor_" x) (of_num power_factor)
            (put_if_present (key "current_" x) (of_num current)
              (put_if_present (key "power_" x) (of_num power)
                (put_if_present (key "energy_flow_" x) (of_str energy_flow) result)))
        else if str_eq missing_data_behavior "nullify_missing" then
          <[key "power_factor_" x := of_num power_factor]>
            (<[key "current_" x := of_num current]>
              (<[key "power_" x := of_num power]>
                (<[key "energy_flow_" x := of_str energy_flow]> result)))
        else if str_eq missing_data_behavior "nullify_all" then
          <[key "power_factor_" x := JNull]>
            (<[key "current_" x := JNull]>
              (<[key "power_" x := JNull]>
                (<[key "energy_flow_" x := JNull]> result)))
        else result in
      PJ1203A_next_seq result priv x
  end.

Definition PJ1203A_flush_zero (result : jsobject) (x : channel)
    (priv : private_state) (options : jsobject) : jsobject * private_state :=
  let priv := set_energy_flow x (Some "consuming") priv in
  let priv := set_power x (Some 0%float) priv in
  let priv := set_current x (Some 0%float) priv in
  let priv := set_power_factor x (Some 100%float) priv in
  PJ1203A_flush_all result x priv options false.

Module valueConverters.

Definition energy_flow (x : channel) (v : float) (priv : private_state)
    (options : jsobject) (now : string) : jsobject * private_state :=
  let result : jsobject := ∅ in
  let flow :=
    if (v =? 0)%float then "consuming"
    else if (v =? 1)%float then "producing"
    else "unknown" in
  let priv := set_energy_flow x (Some flow) priv in
  let publishing_mode := PJ1203A_get_publishing_mode options in
  if str_eq publishing_mode "immediate" then
    let result := <[key "energy_flow_" x := JStr flow]> result in
    PJ1203A_next_seq result priv x
  else if str_eq publishing_mode "at_energy_flow" then
    PJ1203A_flush_all result x priv options true
  else (result, priv).

Definition power (x : channel) (v : float) (priv : private_state)
    (options : jsobject) (now : string) : jsobject * private_state :=
  let result : jsobject := ∅ in
  let power_x := (v / 10)%float in
  let priv := set_power x (Some power_x) priv in
  if (v =? 0)%float then PJ1203A_flush_zero result x priv options
  else
    let publishing_mode := PJ1203A_get_publishing_mode options in
    if str_eq publishing_mode "immediate" then
      let result := <[key "power_" x := JNum power_x]> result in
      PJ1203A_next_seq result priv x
    else (result, priv).

Definition current (x : channel) (v : float) (priv : private_state)
    (options : jsobject) (now : string) : jsobject * private_state :=
  let result : jsobject := ∅ in
  let current_x := (v / 1000)%float in
  let priv := set_current x (Some current_x) priv in
  if (v =? 0)%float then PJ1203A_flush_zero result x priv options
  else
    let publishing_mode := PJ1203A_get_publishing_mode options in
    if str_eq publishing_mode "immediate" then
      let result := <[key "current_" x := JNum current_x]> result in
      PJ1203A_next_seq result priv x
    else (result, priv).

Definition power_factor (x : channel) (v : float) (priv : private_state)
    (options : jsobject) (now : string) : jsobject * private_state :=
  let result : jsobject := ∅ in
  let power_factor_x := v in
  let priv := set_power_factor x (Some power_factor_x) priv in
  let publishing_mode := PJ1203A_get_publishing_mode options in
  if str_eq publishing_mode "immediate" then
    let result := <[key "power_factor_" x := JNum power_factor_x]> result in
    PJ1203A_next_seq result priv x
  else if str_eq publishing_mode "at_power_factor" then
    PJ1203A_flush_all result x priv options true
  else (result, priv).

End valueConverters.

(** Datapoint 115 is mapped to [power_ab] through [divideBy10]. *)
Definition tuyaDatapoints : list (Z * dp_entry private_state) :=
  [ (111, Named "ac_frequency" divideBy100);
    (112, Named "voltage" divideBy10);
    (101, Merged (valueConverters.power ChA));
    (105, Merged (valueConverters.power ChB));
    (113, Merged (valueConverters.current ChA));
    (114, Merged (valueConverters.current ChB));
    (110, Merged (valueConverters.power_factor ChA));
    (121, Merged (valueConverters.power_factor ChB));
    (102, Merged (valueConverters.energy_flow ChA));
    (104, Merged (valueConverters.energy_flow ChB));
    (115, Named "power_ab" divideBy10);
    (106, Named "energy_a" divideBy100);
    (108, Named "energy_b" divideBy100);
    (107, Named "energy_produced_a" divideBy100);
    (109, Named "energy_produced_b" divideBy100);
    (129, Named "update_frequency" raw) ].

Definition PJ1203A_ignore_tuya_set_time (priv : private_state) : private_state :=
  set_last_seq (last_seq priv + PJ1203A_SEQ_INCREMENT) priv.

Definition expected_seq (priv : private_state) : Z :=
  bit_and (last_seq priv + PJ1203A_SEQ_INCREMENT) 65535.

Definition in_order (priv : private_state) (seq : Z) : bool :=
  seq =? expected_seq priv.

Definition duplicate (priv : private_state) (seq : Z) : bool :=
  seq =? last_seq priv.

Definition gap_detected (priv : private_state) (seq : Z) : bool :=
  negb (in_order priv seq) && negb (duplicate priv seq).

Definition clear_pending (p : private_state) : private_state :=
  {| energy_flow_a := None; energy_flow_b := None;
     power_a := None; power_b := None;
     current_a := None; current_b := None;
     power_factor_a := None; power_factor_b := None;
     last_seq := last_seq p;
     counter_a := counter_a p; counter_b := counter_b p |}.

(** The sequence tracking of [PJ1203A_fz_datapoints.convert]: the gap test is
    made only under [missing_message_detection]; [last_seq] is assigned in
    every case. *)
Definition track_sequence (priv : private_state) (options : jsobject) (seq : Z)
    : private_state :=
  let priv :=
    if truthy (PJ1203A_get_missing_message_detection options)
    then (if gap_detected priv seq then clear_pending priv else priv)
    else priv in
  set_last_seq seq priv.

(** [PJ1203A_fz_datapoints.convert] *)
Definition convert (store : option private_state) (msg : message)
    (options : jsobject) (now : string) : jsobject * private_state :=
  let result : jsobject := ∅ in
  let priv := PJ1203A_providePrivateState store in
  let priv := track_sequence priv options (seq msg) in
  let result := <["msg" := JMessage msg]> result in
  let '(converted, priv) :=
    datapoints_convert tuyaDatapoints (dpValues msg) options now ∅ priv in
  (object_assign result converted, priv).

End V1.

(** ** Auxiliary definitions for the statements *)

(** A state that differs from [p] in the two published powers only. *)
Definition V5_with_pub (ua ub : option float) (p : V5.private_state)
    : V5.private_state :=
  V5.set_pub_power ChA ua (V5.set_pub_power ChB ub p).

(** A v5/v3 state in the middle of a cycle: channel A holds a sign and a
    current, channel B a power, both channels have published a power. *)
Definition midcycle_state : V5.private_state :=
  {| V5.sign_a := Some (-1)%float; V5.sign_b := None;
     V5.power_a := None; V5.power_b := Some 15%float;
     V5.current_a := Some 1.5%float; V5.current_b := None;
     V5.power_factor_a := None; V5.power_factor_b := None;
     V5.timestamp_a := None; V5.timestamp_b := Some "2024-04-01T10:00:00.000Z";
     V5.last_seq := 256; V5.seq_inc := 256;
     V5.pub_power_a := Some (-37.5)%float; V5.pub_power_b := Some 80%float;
     V5.zero_power_a := Some false; V5.zero_power_b := Some false;
     V5.zero_current_a := Some false; V5.zero_current_b := Some false |}.

(** A v5/v3 state in which channel A holds a complete set of fields. *)
Definition complete_state : V5.private_state :=
  {| V5.sign_a := Some (-1)%float; V5.sign_b := None;
     V5.power_a := Some 15%float; V5.power_b := None;
     V5.current_a := Some 1.5%float; V5.current_b := None;
     V5.power_factor_a := Some 95%float; V5.power_factor_b := None;
     V5.timestamp_a := Some "2024-04-01T10:00:00.000Z"; V5.timestamp_b := None;
     V5.last_seq := 768; V5.seq_inc := 256;
     V5.pub_power_a := None; V5.pub_power_b := Some 80%float;
     V5.zero_power_a := Some false; V5.zero_power_b := None;
     V5.zero_current_a := Some false; V5.zero_current_b := None |}.

(** A state of the first converter in the middle of a cycle. *)
Definition midcycle_state1 : V1.private_state :=
  {| V1.energy_flow_a := Some "producing"; V1.energy_flow_b := None;
     V1.power_a := None; V1.power_b := Some 15%float;
     V1.current_a := Some 1.5%float; V1.current_b := None;
     V1.power_factor_a := None; V1.power_factor_b := None;
     V1.last_seq := 256;
     V1.counter_a := 7; V1.counter_b := 65535 |}.

(** The four buffered fields of channel [x] read as [null]. *)
Definition V5_buffer_empty (x : channel) (p : V5.private_state) : Prop :=
  V5.get_sign x p = None /\ V5.get_power x p = None /\
  V5.get_current x p = None /\ V5.get_power_factor x p = None.

Definition V1_buffer_empty (x : channel) (p : V1.private_state) : Prop :=
  V1.get_energy_flow x p = None /\ V1.get_power x p = None /\
  V1.get_current x p = None /\ V1.get_power_factor x p = None.

(** The canonical zero snapshot of channel [x] in an emitted record: sign +1
    (label ["consuming"], or ["sign"] with a signed power of +0), power 0,
    current 0, power factor 100, and the time of reception. *)
Definition zero_snapshot (x : channel) (signed : bool) (now : string)
    (result : jsobject) : Prop :=
  result !! key "power_" x = Some (JNum 0%float) /\
  result !! key "energy_flow_" x =
    Some (JStr (if signed then "sign" else "consuming")) /\
  result !! key "current_" x = Some (JNum 0%float) /\
  result !! key "power_factor_" x = Some (JNum 100%float) /\
  result !! key "timestamp_" x = Some (JStr now).

(** The outcome of a complete zero flush of channel [x]: the snapshot is
    emitted, the buffer is consumed and the published signed power is +0. *)
Definition zero_flush_outcome (x : channel) (signed : bool) (now : string)
    (out : jsobject * V5.private_state) : Prop :=
  zero_snapshot x signed now out.1 /\
  V5_buffer_empty x out.2 /\
  V5.get_pub_power x out.2 = Some 0%float.

(** One cycle of channel A through the v5 converters, from the state of a
    new device: direction code [code], current 1.5 A (raw 1500), power of
    raw magnitude [raw_power], power factor 95.  The value is the record
    emitted by the last datapoint. *)
Definition cycle_a (options : jsobject) (code raw_power : float) : jsobject :=
  let now := "2024-04-01T10:00:00.000Z" in
  let priv := V5.initial_state in
  let priv := (V5.valueConverters.energy_flow ChA code priv options now).2 in
  let priv := (V5.valueConverters.current ChA 1500%float priv options now).2 in
  let priv := (V5.valueConverters.power ChA raw_power priv options now).2 in
  (V5.valueConverters.power_factor ChA 95%float priv options now).1.

(** The outcome of the flush of a suppressed zero on channel [x]: nothing
    is emitted, the buffer is reset and the timestamp is the reception
    time. *)
Definition null_flush_outcome (x : channel) (now : string)
    (out : jsobject * V5.private_state) : Prop :=
  out.1 = ∅ /\
  V5_buffer_empty x out.2 /\
  V5.get_timestamp x out.2 = Some now.

(** Every [power_ab] of a record is the recomputation from the two published
    signed powers of the state. *)
Definition power_ab_recomputed (result : jsobject) (p : V5.private_state)
    : Prop :=
  forall y, result !! "power_ab" = Some y ->
    exists a b, V5.pub_power_a p = Some a /\ V5.pub_power_b p = Some b /\
                y = JNum (V5.rounded_sum a b).

(** What a converter that started from [priv] and gave [out] did about
    [power_ab]: an emitted total is the recomputation; when none is emitted
    the published powers are the ones of [priv], or one was missing in
    [priv] already. *)
Definition power_ab_step (priv : V5.private_state)
    (out : jsobject * V5.private_state) : Prop :=
  power_ab_recomputed out.1 out.2 /\
  (out.1 !! "power_ab" = None ->
     (V5.pub_power_a out.2 = V5.pub_power_a priv /\
      V5.pub_power_b out.2 = V5.pub_power_b priv) \/
     V5.pub_power_a priv = None \/ V5.pub_power_b priv = None).

(** A whole update of the device through [V5.convert]: channel A consumes
    79.8 W (raw 798, direction code 0), then channel B produces 37.1 W (raw
    371, direction code 1).  The value is the list of the emitted records. *)
Definition two_channel_update : list jsobject :=
  let now := "2024-04-01T10:00:00.000Z" in
  let step (acc : list jsobject * option V5.private_state) (m : message) :=
    let out := V5.convert acc.2 m ∅ now in
    (acc.1 ++ [out.1], Some out.2) in
  (fold_left step
     [ mkMessage 0 [(102, 0%float)];
       mkMessage 256 [(113, 332%float)];
       mkMessage 512 [(101, 798%float)];
       mkMessage 768 [(110, 100%float)];
       mkMessage 1024 [(104, 1%float)];
       mkMessage 1280 [(114, 154%float)];
       mkMessage 1536 [(105, 371%float)];
       mkMessage 1792 [(121, 100%float)] ]
     ([], None)).1.

(** *** The binary64 format

    The specification of the primitive floats ([SpecFloat], [FloatAxioms])
    gives every operation as a function on sign, significand and exponent.
    The definitions below name what the statements on it need. *)

(** Rounding to nearest, ties to even, of a shifted significand [u] with the
    round bit and the sticky bit of what was shifted out. *)
Definition rne (u : Z) (rbit sticky : bool) : Z :=
  round_nearest_even u (loc_of_shr_record (Build_shr_record u rbit sticky)).

(** The round bit and the sticky bit that a location stands for. *)
Definition loc_r (l : location) : bool := shr_r (shr_record_of_loc 0 l).

Definition loc_s (l : location) : bool := shr_s (shr_record_of_loc 0 l).

(** The number 10 on binary64: [5 * 2^50 * 2^-49]. *)
Definition ten_m : positive := 5629499534213120.

Definition SFten : spec_float := S754_finite false ten_m (-49).

(** The significand of 1 and -1 on binary64. *)
Definition one_m : positive := 4503599627370496.

(** A significand on 53 bits. *)
Definition is_normal (M : Z) : Prop := 2 ^ 52 <= M < 2 ^ 53.

(** The number of binary digits of a positive integer. *)
Definition digits (N : Z) : Z := Z.log2 N + 1.

(** The significand of the canonical representation of [N]. *)
Definition significand (N : Z) : Z := N * 2 ^ (53 - digits N).

(** The binary64 representation of the integer [n], below [2^53] in absolute
    value. *)
Definition SFint (n : Z) : spec_float :=
  if n =? 0 then S754_zero false
  else S754_finite (n <? 0) (Z.to_pos (significand (Z.abs n)))
         (digits (Z.abs n) - 53).

(** The number at 0.1 resolution with [n] tenths: the binary64 number nearest
    to [n / 10], which is how a decimal such as 42.7 is read. *)
Definition tenths (n : Z) : float := (float_of_Z n / 10)%float.

(** *** Powers at 0.1 resolution *)

(** A raw power reading of the device: a whole number of tenths of a watt. *)
Definition raw_reading (v : float) : Prop :=
  exists n, 0 <= n < 2 ^ 52 /\ v = float_of_Z n.

(** A datapoint is integral when, if it is a power datapoint (101 or 105),
    its value is a raw reading; a message is when its datapoints are. *)
Definition integral_dp (dp : Z) (v : float) : Prop :=
  dp = 101 \/ dp = 105 -> raw_reading v.

Definition integral_message (msg : message) : Prop :=
  Forall (fun d => integral_dp d.1 d.2) (dpValues msg).

(** The channel that is not [x]. *)
Definition other (x : channel) : channel :=
  match x with ChA => ChB | ChB => ChA end.

(** A nullable number that, when present, is at 0.1 resolution; is so with a
    positive number of tenths; is +1 or -1. *)
Definition at_resolution (o : option float) : Prop :=
  forall f, o = Some f -> exists n, Z.abs n < 2 ^ 52 /\ f = tenths n.

Definition positive_at_resolution (o : option float) : Prop :=
  forall f, o = Some f -> exists n, 0 < n < 2 ^ 52 /\ f = tenths n.

Definition unit_sign (o : option float) : Prop :=
  forall s, o = Some s -> s = 1%float \/ s = (-1)%float.

(** The states the converters reach from integral messages: buffered signs
    are +1 or -1, buffered powers are nonzero and at 0.1 resolution, and so
    are the published signed powers. *)
Definition V5_resolution_state (p : V5.private_state) : Prop :=
  forall x,
    unit_sign (V5.get_sign x p) /\
    positive_at_resolution (V5.get_power x p) /\
    at_resolution (V5.get_pub_power x p).

(** The same, where channel [x] may also hold the zero snapshot (sign +1
    with power 0), as it does inside the zero shortcut. *)
Definition V5_flush_ready (x : channel) (p : V5.private_state) : Prop :=
  (forall c, at_resolution (V5.get_pub_power c p)) /\
  (forall c, c <> x ->
     unit_sign (V5.get_sign c p) /\ positive_at_resolution (V5.get_power c p)) /\
  (forall s pw, V5.get_sign x p = Some s -> V5.get_power x p = Some pw ->
     exists n, pw = tenths n /\
       ((s = 1%float /\ 0 <= n < 2 ^ 52) \/ (s = (-1)%float /\ 0 < n < 2 ^ 52))).

(** Every [power_ab] of a record is the number at 0.1 resolution of the sum
    of the tenths of the two published signed powers. *)
Definition power_ab_exact (result : jsobject) (p : V5.private_state) : Prop :=
  forall y, result !! "power_ab" = Some y ->
    exists a b, Z.abs a < 2 ^ 52 /\ Z.abs b < 2 ^ 52 /\
      V5.pub_power_a p = Some (tenths a) /\
      V5.pub_power_b p = Some (tenths b) /\
      y = JNum (tenths (a + b)).

(** The processing of a sequence of messages, each with its time of
    reception, from the stored state [store]: the emitted record and the
    state after each message. *)
Fixpoint V5_process (store : option V5.private_state)
    (msgs : list (message * string)) (options : jsobject)
    : list (jsobject * V5.private_state) :=
  match msgs with
  | [] => []
  | (msg, now) :: rest =>
      let out := V5.convert store msg options now in
      out :: V5_process (Some out.2) rest options
  end.

Fixpoint V3_process (store : option V5.private_state)
    (msgs : list (message * string)) (options : jsobject)
    : list (jsobject * V5.private_state) :=
  match msgs with
  | [] => []
  | (msg, now) :: rest =>
      let out := V3.convert store msg options now in
      out :: V3_process (Some out.2) rest options
  end.

(** The messages of [two_channel_update], with their times of reception. *)
Definition two_channel_messages : list (message * string) :=
  [ (mkMessage 0 [(102, 0%float)], "2024-04-01T10:00:00.000Z");
    (mkMessage 256 [(113, 332%float)], "2024-04-01T10:00:00.100Z");
    (mkMessage 512 [(101, 798%float)], "2024-04-01T10:00:00.200Z");
    (mkMessage 768 [(110, 100%float)], "2024-04-01T10:00:00.300Z");
    (mkMessage 1024 [(104, 1%float)], "2024-04-01T10:00:00.400Z");
    (mkMessage 1280 [(114, 154%float)], "2024-04-01T10:00:00.500Z");
    (mkMessage 1536 [(105, 371%float)], "2024-04-01T10:00:00.600Z");
    (mkMessage 1792 [(121, 100%float)], "2024-04-01T10:00:00.700Z") ].

(** Option objects. *)
Definition no_options : jsobject := ∅.

Definition detection_options : jsobject :=
  <["missing_message_detection" := JBool true]> ∅.

Definition signed_options : jsobject :=
  <["signed_power_A" := JBool true]> ∅.

Definition suppress_options : jsobject :=
  <["single_zero_remove" := JBool true]> ∅.

(** ** Auxiliary definitions for the further properties *)

(** *** Records of a channel *)

(** The keys that a flush of channel [x] writes. *)
Definition channel_keys (x : channel) : list string :=
  [ key "power_" x; key "energy_flow_" x; key "timestamp_" x;
    key "current_" x; key "power_factor_" x ].

(** The record that a complete flush of channel [x] builds before the
    recomputation of the total, from the buffered sign [s], power [pw],
    timestamp [ts], current [cu] and power factor [pf]. *)
Definition channel_record (x : channel) (signed : bool) (s pw : float)
    (ts : option string) (cu pf : float) : jsobject :=
  <[key "power_factor_" x := JNum pf]>
    (<[key "current_" x := JNum cu]>
       (<[key "timestamp_" x := of_str ts]>
          (if signed
           then <[key "energy_flow_" x := JStr "sign"]>
                  (<[key "power_" x := JNum (s * pw)%float]> ∅)
           else <[key "energy_flow_" x :=
                    JStr (if (0 <? s)%float then "consuming" else "producing")]>
                  (<[key "power_" x := JNum pw]> ∅)))).

(** The signed power that the recomputation reads off that record. *)
Definition signed_reading (signed : bool) (s pw : float) : float :=
  if signed then (s * pw * 1)%float
  else (pw * (if (0 <? s)%float then 1 else -1))%float.

(** The record with the total of the two published powers, when both are
    there. *)
Definition with_total (p : V5.private_state) (r : jsobject) : jsobject :=
  match V5.pub_power_a p, V5.pub_power_b p with
  | Some a, Some b => <["power_ab" := JNum (V5.rounded_sum a b)]> r
  | _, _ => r
  end.

(** What a converter of channel [x] that started from [p] gave: nothing,
    with the published powers kept; or the record of the channel with the
    total, the signed power of the record being the published power of [x]
    and the one of the other channel being kept. *)
Definition flush_outcome (x : channel) (p : V5.private_state)
    (out : jsobject * V5.private_state) : Prop :=
  (out.1 = ∅ /\
   forall c, V5.get_pub_power c out.2 = V5.get_pub_power c p) \/
  (exists signed s pw ts cu pf,
     out.1 = with_total out.2 (channel_record x signed s pw ts cu pf) /\
     V5.get_pub_power x out.2 = Some (signed_reading signed s pw) /\
     V5.get_pub_power (other x) out.2 = V5.get_pub_power (other x) p).

(** The attributes of a channel are published together, and the published
    power of the state is the signed power of the record when the record
    has one, and the one of [p0] otherwise. *)
Definition record_consistent (p0 : V5.private_state) (result : jsobject)
    (p : V5.private_state) : Prop :=
  forall x,
    Forall (fun k => js_in k result = js_in (key "power_" x) result)
      (channel_keys x) /\
    (js_in (key "power_" x) result = true ->
       V5.get_pub_power x p
       = Some (V5.published_signed_power result x)) /\
    (js_in (key "power_" x) result = false ->
       V5.get_pub_power x p = V5.get_pub_power x p0).

(** The total is in the record exactly when a power is and both channels
    have a published power. *)
Definition total_present (result : jsobject) (p : V5.private_state) : Prop :=
  js_in "power_ab" result = true <->
  (js_in "power_a" result = true \/ js_in "power_b" result = true) /\
  is_Some (V5.pub_power_a p) /\ is_Some (V5.pub_power_b p).

(** The states [p] and [q] hold the same for channel [y]: buffer,
    timestamp, zero flags and published power. *)
Definition same_channel (y : channel) (p q : V5.private_state) : Prop :=
  V5.get_sign y p = V5.get_sign y q /\
  V5.get_power y p = V5.get_power y q /\
  V5.get_current y p = V5.get_current y q /\
  V5.get_power_factor y p = V5.get_power_factor y q /\
  V5.get_timestamp y p = V5.get_timestamp y q /\
  V5.get_zero_power y p = V5.get_zero_power y q /\
  V5.get_zero_current y p = V5.get_zero_current y q /\
  V5.get_pub_power y p = V5.get_pub_power y q.

(** The record [result] holds the five attributes of channel [x] with these
    values. *)
Definition publishes (x : channel) (result : jsobject) (power : float)
    (flow : string) (ts : string) (cu pf : float) : Prop :=
  result !! key "power_" x = Some (JNum power) /\
  result !! key "energy_flow_" x = Some (JStr flow) /\
  result !! key "timestamp_" x = Some (JStr ts) /\
  result !! key "current_" x = Some (JNum cu) /\
  result !! key "power_factor_" x = Some (JNum pf).

(** The sign that a direction code stands for: [v === 1 ? -1 : +1]. *)
Definition sign_of_code (c : float) : float :=
  if (c =? 1)%float then (-1)%float else 1%float.

(** The power and the label of a record, by the mode. *)
Definition shown_power (signed : bool) (s pw : float) : float :=
  if signed then (s * pw)%float else pw.

Definition shown_flow (signed : bool) (s : float) : string :=
  if signed then "sign"
  else if (0 <? s)%float then "consuming" else "producing".

(** *** The presentation of the direction *)

(** Two option objects that differ at most in [signed_power_A] and
    [signed_power_B]. *)
Definition same_but_signed_power (o1 o2 : jsobject) : Prop :=
  forall k : string,
    k <> "signed_power_A" -> k <> "signed_power_B" -> o1 !! k = o2 !! k.

(** The keys whose values present the direction. *)
Definition presentation_keys : list string :=
  [ "power_a"; "energy_flow_a"; "power_b"; "energy_flow_b" ].

(** Two records that hold the same under every other key. *)
Definition same_but_presentation (r1 r2 : jsobject) : Prop :=
  forall k : string, ~ In k presentation_keys -> r1 !! k = r2 !! k.

(** The number of tenths with the sign [s]. *)
Definition signed_tenths (s : float) (n : Z) : Z :=
  if (0 <? s)%float then n else - n.

(** One cycle of channel [x] in the order of the device (direction code
    [c], raw current [i], raw power [w], power factor [f]), all received at
    [now]: the outcome of the last datapoint. *)
Definition V5_cycle (x : channel) (c i w f : float)
    (priv : V5.private_state) (options : jsobject) (now : string)
    : jsobject * V5.private_state :=
  let priv := (V5.valueConverters.energy_flow x c priv options now).2 in
  let priv := (V5.valueConverters.current x i priv options now).2 in
  let priv := (V5.valueConverters.power x w priv options now).2 in
  V5.valueConverters.power_factor x f priv options now.

Definition V3_cycle (x : channel) (c i w f : float)
    (priv : V5.private_state) (options : jsobject) (now : string)
    : jsobject * V5.private_state :=
  let priv := (V3.valueConverters.energy_flow x c priv options now).2 in
  let priv := (V3.valueConverters.current x i priv options now).2 in
  let priv := (V3.valueConverters.power x w priv options now).2 in
  V3.valueConverters.power_factor x f priv options now.

(** *** The first converter of PJ-1203A.js *)

(** The four value keys of channel [x] in the first converter. *)
Definition V1_value_keys (x : channel) : list string :=
  [ key "energy_flow_" x; key "power_" x; key "current_" x;
    key "power_factor_" x ].

(** The counter of channel [x] after one more publication. *)
Definition V1_next_counter (x : channel) (p : V1.private_state) : Z :=
  (V1.get_counter x p + 1) mod 65536.

(** A record that publishes the next value of the counter of channel [x],
    with the state counting it. *)
Definition V1_counts (x : channel) (p : V1.private_state)
    (out : jsobject * V1.private_state) : Prop :=
  out.1 !! key "counter_" x = Some (JNum (float_of_Z (V1_next_counter x p))) /\
  V1.get_counter x out.2 = V1_next_counter x p.

(** The label of a direction code in the first converter. *)
Definition V1_flow_of_code (c : float) : string :=
  if (c =? 0)%float then "consuming"
  else if (c =? 1)%float then "producing" else "unknown".

(** The record [result] holds the four values of channel [x]. *)
Definition V1_publishes (x : channel) (result : jsobject) (flow : string)
    (pw cu pf : float) : Prop :=
  result !! key "energy_flow_" x = Some (JStr flow) /\
  result !! key "power_" x = Some (JNum pw) /\
  result !! key "current_" x = Some (JNum cu) /\
  result !! key "power_factor_" x = Some (JNum pf).

(** *** Timestamps *)

(** A buffered power has its time of reception. *)
Definition V5_timestamped (p : V5.private_state) : Prop :=
  forall x, is_Some (V5.get_power x p) -> is_Some (V5.get_timestamp x p).

(** Every timestamp of the record is a string. *)
Definition timestamps_are_strings (result : jsobject) : Prop :=
  forall x v, result !! key "timestamp_" x = Some v -> exists t, v = JStr t.

(** *** Sample inputs *)

(** States whose last sequence number is the last 16-bit multiple of 256. *)
Definition wrapping_state : V5.private_state :=
  V5.set_last_seq 65280 midcycle_state.

Definition wrapping_state1 : V1.private_state :=
  V1.set_last_seq 65280 midcycle_state1.

(** The state [midcycle_state] after a zero power on channel A. *)
Definition zero_flagged_state : V5.private_state :=
  V5.set_zero_power ChA (Some true) midcycle_state.

Definition late_options : jsobject :=
  <["late_energy_flow_A" := JBool true]>
    (<["energy_flow_qwirk_A" := JBool true]> ∅).

Definition at_power_factor_options : jsobject :=
  <["publishing_mode" := JStr "at_power_factor"]> ∅.

Definition at_energy_flow_options : jsobject :=
  <["publishing_mode" := JStr "at_energy_flow"]> ∅.

Definition sample_time : string := "2024-04-01T10:00:10.000Z".

(** * Properties *)

(** ** The numeric operators on sample values *)

Example math_round_ties_up :
  math_round 2.5%float = 3%float /\ math_round (-2.5)%float = (-2)%float /\
  math_round 0.25%float = 0%float /\ math_round 427%float = 427%float.
Proof. repeat split; reflexivity. Qed.

(** The example of the source comment: on binary64 the direct sum of 79.8
    and -37.1 is not the number 42.7, the recomputation through the scaling
    by 10 is. *)
Example rounded_sum_source_comment :
  (79.8 + (-37.1) =? 42.7)%float = false /\
  V5.rounded_sum 79.8%float (-37.1)%float = 42.7%float.
Proof. split; reflexivity. Qed.

(** The same through the converters: the last record of the update holds
    the powers of channel B and the recomputed total. *)
Example two_channel_update_total :
  List.last two_channel_update ∅ !! "power_b" = Some (JNum 37.1%float) /\
  List.last two_channel_update ∅ !! "energy_flow_b" = Some (JStr "producing") /\
  List.last two_channel_update ∅ !! "power_ab" = Some (JNum 42.7%float).
Proof. repeat split; reflexivity. Qed.

(** ** Arithmetic of the sequence counter *)

Lemma to_int32_mod16 (z : Z) : to_int32 z mod 65536 = z mod 65536.
Proof.
  unfold to_int32.
  pose proof (Z.div_mod (z + 2 ^ 31) (2 ^ 32) ltac:(lia)) as E.
  replace ((z + 2 ^ 31) mod 2 ^ 32 - 2 ^ 31)
    with (z + (- ((z + 2 ^ 31) / 2 ^ 32) * 65536) * 65536) by lia.
  apply Z_mod_plus_full.
Qed.

(** [n & 0xffff] is the residue of [n] modulo 65536, also for a negative
    [n] such as the initial [-99999 + 256]. *)
Lemma bit_and_0xffff (z : Z) : bit_and z 65535 = z mod 65536.
Proof.
  unfold bit_and.
  change (to_int32 65535) with (Z.ones 16).
  rewrite Z.land_ones by lia.
  apply to_int32_mod16.
Qed.

Lemma V5_expected_seq_mod (priv : V5.private_state) :
  V5.expected_seq priv = (V5.last_seq priv + V5.seq_inc priv) mod 65536.
Proof. apply bit_and_0xffff. Qed.

Lemma V3_expected_seq_mod (priv : V5.private_state) :
  V3.expected_seq priv = (V5.last_seq priv + 256) mod 65536.
Proof. apply bit_and_0xffff. Qed.

Lemma V1_expected_seq_mod (priv : V1.private_state) :
  V1.expected_seq priv = (V1.last_seq priv + 256) mod 65536.
Proof. apply bit_and_0xffff. Qed.

(** ** The dispatcher *)

Section DispatchFacts.

Context {state : Type}.
Implicit Types (table : list (Z * dp_entry state)) (priv : state).

(** A property of the accumulated result and the state that every table
    entry maintains is maintained by the processing of a whole message. *)
Lemma datapoints_convert_invariant (I : jsobject -> state -> Prop)
    table options now :
  (forall dp name from v result priv,
      find_dp table dp = Some (Named name from) ->
      I result priv -> I (<[name := JNum (from v)]> result) priv) ->
  (forall dp from v result priv,
      find_dp table dp = Some (Merged from) ->
      I result priv ->
      I (object_assign result (from v priv options now).1)
        (from v priv options now).2) ->
  forall dps result priv,
    I result priv ->
    I (datapoints_convert table dps options now result priv).1
      (datapoints_convert table dps options now result priv).2.
Proof.
  intros Hnamed Hmerged dps.
  induction dps as [|[dp v] rest IH]; intros result priv HI; [exact HI|].
  cbn [datapoints_convert].
  destruct (find_dp table dp) as [[name from|from]|] eqn:E.
  - apply IH. eapply Hnamed; eauto.
  - specialize (Hmerged dp from v result priv E HI).
    destruct (from v priv options now) as [converted priv'].
    apply IH. exact Hmerged.
  - apply IH. exact HI.
Qed.

(** The same for messages whose datapoints satisfy [P], the converters
    maintaining the property of the state on such datapoints only. *)
Lemma datapoints_convert_invariant_on (P : Z -> float -> Prop)
    (I : state -> Prop) table options now :
  (forall dp from v priv,
      find_dp table dp = Some (Merged from) ->
      P dp v -> I priv -> I (from v priv options now).2) ->
  forall dps result priv,
    Forall (fun d => P d.1 d.2) dps ->
    I priv ->
    I (datapoints_convert table dps options now result priv).2.
Proof.
  intros Hmerged dps.
  induction dps as [|[dp v] rest IH]; intros result priv HP HI; [exact HI|].
  apply Forall_cons in HP. destruct HP as [HP Hrest].
  cbn [datapoints_convert].
  destruct (find_dp table dp) as [[name from|from]|] eqn:E.
  - apply IH; assumption.
  - specialize (Hmerged dp from v priv E HP HI).
    destruct (from v priv options now) as [converted priv'].
    apply IH; assumption.
  - apply IH; assumption.
Qed.

(** In particular a component of the state that no converter changes. *)
Lemma datapoints_convert_preserves {A : Type} (f : state -> A)
    table options now :
  (forall dp from v priv,
      find_dp table dp = Some (Merged from) ->
      f (from v priv options now).2 = f priv) ->
  forall dps result priv,
    f (datapoints_convert table dps options now result priv).2 = f priv.
Proof.
  intros H dps result priv.
  apply (datapoints_convert_invariant (fun _ p => f p = f priv));
    [auto| |reflexivity].
  intros dp from v _ p E Hp. rewrite <- Hp. eauto.
Qed.

End DispatchFacts.

(** ** Frame properties of the v5 functions *)

Ltac v5_red :=
  cbv beta iota zeta delta
    [V5.set_sign V5.set_power V5.set_current V5.set_power_factor
     V5.set_timestamp V5.set_last_seq V5.set_pub_power V5.set_zero_power
     V5.set_zero_current V5.get_sign V5.get_power V5.get_current
     V5.get_power_factor V5.get_timestamp V5.get_pub_power
     V5.get_zero_power V5.get_zero_current V5.clear_fields V5_with_pub
     V5.sign_a V5.sign_b V5.power_a V5.power_b V5.current_a V5.current_b
     V5.power_factor_a V5.power_factor_b V5.timestamp_a V5.timestamp_b
     V5.last_seq V5.seq_inc V5.pub_power_a V5.pub_power_b
     V5.zero_power_a V5.zero_power_b V5.zero_current_a V5.zero_current_b
     V5.clear_pending V3.clear_pending] in *.

Ltac v5_destruct p :=
  destruct p as [sa sb pa pb ca cb fa fb ta tb ls si ua ub zpa zpb zca zcb].

Ltac v5_destruct_all :=
  repeat match goal with
  | p : V5.private_state |- _ => destruct p
  end;
  repeat match goal with
  | x : channel |- _ => destruct x
  end.

Lemma V5_recompute_frame result priv :
  (V5.pj1203aRecomputePowerAb result priv).2 =
  V5_with_pub (V5.pub_power_a (V5.pj1203aRecomputePowerAb result priv).2)
              (V5.pub_power_b (V5.pj1203aRecomputePowerAb result priv).2) priv.
Proof.
  unfold V5.pj1203aRecomputePowerAb.
  v5_destruct priv.
  destruct (js_in "power_a" result), (js_in "power_b" result); v5_red;
    try destruct ua; try destruct ub; reflexivity.
Qed.

(** The recomputation only ever adds the key [power_ab]. *)
Lemma V5_recompute_lookup result priv (k : string) :
  k <> "power_ab" ->
  (V5.pj1203aRecomputePowerAb result priv).1 !! k = result !! k.
Proof.
  intros Hk. unfold V5.pj1203aRecomputePowerAb.
  repeat case_match; simplify_eq; cbn [fst];
    rewrite ?lookup_insert_ne by congruence; reflexivity.
Qed.

(** A flush attempt clears the four buffered fields of its channel and may
    change the published powers; it touches nothing else. *)
Lemma V5_flush_all_state result x priv options :
  (V5.pj1203aFlushAll result x priv options).2 =
  V5_with_pub
    (V5.pub_power_a (V5.pj1203aFlushAll result x priv options).2)
    (V5.pub_power_b (V5.pj1203aFlushAll result x priv options).2)
    (V5.clear_fields x priv).
Proof.
  unfold V5.pj1203aFlushAll.
  destruct (V5.get_sign x priv), (V5.get_power x priv),
    (V5.get_current x priv), (V5.get_power_factor x priv);
    try (v5_destruct priv; destruct x; reflexivity).
  match goal with
  | |- context [V5.pj1203aRecomputePowerAb ?r ?p] =>
      pose proof (V5_recompute_frame r p) as H;
      destruct (V5.pj1203aRecomputePowerAb r p) as [r' p']
  end.
  exact H.
Qed.

Lemma V5_flush_all_keeps_seq result x priv options :
  V5.last_seq (V5.pj1203aFlushAll result x priv options).2 = V5.last_seq priv /\
  V5.seq_inc (V5.pj1203aFlushAll result x priv options).2 = V5.seq_inc priv.
Proof.
  rewrite V5_flush_all_state.
  v5_destruct priv; destruct x; split; reflexivity.
Qed.

(** Case analysis on the conditions of the [if]s of the goal. *)
Ltac split_ifs :=
  repeat match goal with
  | |- context [if ?c then _ else _] => destruct c eqn:?
  end.

(** Case analysis on the nullable fields that the goal inspects. *)
Ltac split_opts :=
  repeat match goal with
  | |- context [match ?o with Some _ => _ | None => _ end] =>
      is_var o; destruct o
  end.

(** Replaces a call of [pj1203aFlushAll] by its outputs, recording the
    instance of [lemma] for this call. *)
Ltac v5_flush_with lemma :=
  match goal with
  | |- context [V5.pj1203aFlushAll ?r ?x ?p ?o] =>
      let H := fresh "Hflush" in
      pose proof (lemma r x p o) as H;
      destruct (V5.pj1203aFlushAll r x p o) as [[? ?] ?];
      cbn [fst snd] in H
  end.

Ltac v5_unfold_converters :=
  unfold V5.valueConverters.energy_flow, V5.valueConverters.power,
    V5.valueConverters.current, V5.valueConverters.power_factor,
    V5.valueConverters.power_ab, V3.valueConverters.energy_flow,
    V3.valueConverters.power, V3.valueConverters.current,
    V3.valueConverters.power_factor, V3.valueConverters.power_ab,
    V3.PJ1203A_flush_zero, V3.PJ1203A_flush_all,
    V5.pj1203aFlushZero, V5.pj1203aFlushNull.

(** The entries of the datapoint tables, by case analysis on the identifier. *)
Ltac find_dp_cases E :=
  unfold find_dp in E; cbn [List.find fst snd V5.tuyaDatapoints
    V3.tuyaDatapoints V1.tuyaDatapoints] in E;
  repeat match type of E with
  | context [if ?c then _ else _] => destruct c
  end;
  cbn [fmap option_fmap option_map snd] in E; simplify_eq.

(** No converter of v5 or v3 touches the sequence bookkeeping. *)
Lemma V5_converters_keep_seq dp from v priv options now :
  find_dp V5.tuyaDatapoints dp = Some (Merged from) ->
  V5.last_seq (from v priv options now).2 = V5.last_seq priv /\
  V5.seq_inc (from v priv options now).2 = V5.seq_inc priv.
Proof.
  intros E. find_dp_cases E; v5_unfold_converters; split_ifs;
    try v5_flush_with V5_flush_all_keeps_seq;
    v5_destruct_all; v5_red; cbn [fst snd];
    first [assumption | split; reflexivity].
Qed.

Lemma V3_converters_keep_seq dp from v priv options now :
  find_dp V3.tuyaDatapoints dp = Some (Merged from) ->
  V5.last_seq (from v priv options now).2 = V5.last_seq priv.
Proof.
  intros E. find_dp_cases E; v5_unfold_converters; split_ifs;
    try v5_flush_with V5_flush_all_keeps_seq;
    v5_destruct_all; v5_red; cbn [fst snd];
    first [apply Hflush | reflexivity].
Qed.

(** ** Frame properties of the first converter *)

Ltac v1_red :=
  cbv beta iota zeta delta
    [V1.set_energy_flow V1.set_power V1.set_current V1.set_power_factor
     V1.set_last_seq V1.set_counter V1.get_energy_flow V1.get_power
     V1.get_current V1.get_power_factor V1.get_counter V1.clear_fields
     V1.energy_flow_a V1.energy_flow_b V1.power_a V1.power_b
     V1.current_a V1.current_b V1.power_factor_a V1.power_factor_b
     V1.last_seq V1.counter_a V1.counter_b V1.clear_pending] in *.

Ltac v1_destruct_all :=
  repeat match goal with
  | p : V1.private_state |- _ => destruct p
  end;
  repeat match goal with
  | x : channel |- _ => destruct x
  end.

Ltac v1_unfold_converters :=
  unfold V1.valueConverters.energy_flow, V1.valueConverters.power,
    V1.valueConverters.current, V1.valueConverters.power_factor,
    V1.PJ1203A_flush_zero, V1.PJ1203A_flush_all, V1.PJ1203A_next_seq.

Lemma V1_converters_keep_seq dp from v priv options now :
  find_dp V1.tuyaDatapoints dp = Some (Merged from) ->
  V1.last_seq (from v priv options now).2 = V1.last_seq priv.
Proof.
  intros E. find_dp_cases E; v1_unfold_converters;
    v1_destruct_all; v1_red; split_ifs; split_opts; reflexivity.
Qed.

(** ** The sequence tracker *)

(** After a whole message has been processed [last_seq] is its sequence
    number: the tracker assigns it and no converter changes it. *)
Lemma V5_convert_last_seq store msg options now :
  V5.last_seq (V5.convert store msg options now).2 = seq msg.
Proof.
  unfold V5.convert.
  pose proof (datapoints_convert_preserves V5.last_seq V5.tuyaDatapoints
    options now) as H.
  match goal with
  | |- context [datapoints_convert ?t ?d ?o ?n ?r ?p] =>
      specialize (H ltac:(intros; eapply V5_converters_keep_seq; eauto) d r p);
      destruct (datapoints_convert t d o n r p) as [c p']
  end.
  cbn [fst snd] in *. rewrite H.
  unfold V5.track_sequence.
  destruct (V5.gap_detected _ _); v5_destruct_all;
    destruct store as [[]|]; reflexivity.
Qed.

Lemma V1_convert_last_seq store msg options now :
  V1.last_seq (V1.convert store msg options now).2 = seq msg.
Proof.
  unfold V1.convert.
  pose proof (datapoints_convert_preserves V1.last_seq V1.tuyaDatapoints
    options now) as H.
  match goal with
  | |- context [datapoints_convert ?t ?d ?o ?n ?r ?p] =>
      specialize (H ltac:(intros; eapply V1_converters_keep_seq; eauto) d r p);
      destruct (datapoints_convert t d o n r p) as [c p']
  end.
  cbn [fst snd] in *. rewrite H.
  unfold V1.track_sequence.
  destruct (truthy _); [destruct (V1.gap_detected _ _)|];
    destruct store as [[]|]; reflexivity.
Qed.

(** C2.  The gap test of [convert] compares the incoming sequence number
    with [last_seq] (a duplicate) and with [(last_seq + seq_inc) & 0xffff],
    which is [(last_seq + seq_inc) mod 65536] (in order); the gap branch is
    taken exactly when both comparisons fail.  Whatever the outcome, once
    the message has been processed [last_seq] is its sequence number.  This
    holds for the current converter and for the first converter of
    PJ-1203A.js, where the increment is the constant 256 and the gap test is
    made when [missing_message_detection] is set. *)
Theorem sequence_tracker_classification :
  (forall (priv : V5.private_state) (s : Z),
      (V5.duplicate priv s = true <-> s = V5.last_seq priv) /\
      (V5.in_order priv s = true <->
         s = (V5.last_seq priv + V5.seq_inc priv) mod 65536) /\
      (V5.gap_detected priv s = true <->
         s <> V5.last_seq priv /\
         s <> (V5.last_seq priv + V5.seq_inc priv) mod 65536)) /\
  (forall store msg options now,
      V5.last_seq (V5.convert store msg options now).2 = seq msg) /\
  (forall (priv : V1.private_state) (s : Z),
      (V1.duplicate priv s = true <-> s = V1.last_seq priv) /\
      (V1.in_order priv s = true <->
         s = (V1.last_seq priv + 256) mod 65536) /\
      (V1.gap_detected priv s = true <->
         s <> V1.last_seq priv /\
         s <> (V1.last_seq priv + 256) mod 65536)) /\
  (forall store msg options now,
      V1.last_seq (V1.convert store msg options now).2 = seq msg).
Proof.
  split; [|split; [|split]].
  - intros priv s.
    unfold V5.gap_detected, V5.in_order, V5.duplicate.
    rewrite V5_expected_seq_mod.
    rewrite andb_true_iff, !negb_true_iff, !Z.eqb_neq, !Z.eqb_eq.
    tauto.
  - apply V5_convert_last_seq.
  - intros priv s.
    unfold V1.gap_detected, V1.in_order, V1.duplicate.
    rewrite V1_expected_seq_mod.
    rewrite andb_true_iff, !negb_true_iff, !Z.eqb_neq, !Z.eqb_eq.
    tauto.
  - apply V1_convert_last_seq.
Qed.

(** With the sentinel [-99999] the expected sequence number of a new device
    is [(-99999 + 256) & 0xffff = 31329]. *)
Lemma V5_initial_expected_seq : V5.expected_seq V5.initial_state = 31329.
Proof. reflexivity. Qed.

(** C9, as stated, fails: a device seen for the first time whose first
    message carries sequence number 0 takes the gap branch, in the current
    converter and in the first one. *)
Lemma first_message_flagged_as_gap :
  V5.gap_detected (V5.pj1203aGetPrivateState None) 0 = true /\
  V1.gap_detected (V1.PJ1203A_providePrivateState None) 0 = true.
Proof. split; reflexivity. Qed.

(** C9, amended.  For a device seen for the first time and a first sequence
    number in [0, 65536), the gap branch is taken unless the number is
    31329; it clears buffers that are empty already, so the tracker leaves
    the initial state with [last_seq] set to the first sequence number: the
    first message is a baseline. *)
Theorem first_message_baseline (s : Z) :
  0 <= s < 65536 ->
  (V5.gap_detected (V5.pj1203aGetPrivateState None) s = true <-> s <> 31329) /\
  V5.track_sequence (V5.pj1203aGetPrivateState None) s =
    V5.set_last_seq s V5.initial_state /\
  (V1.gap_detected (V1.PJ1203A_providePrivateState None) s = true <->
     s <> 31329) /\
  (forall options,
      V1.track_sequence (V1.PJ1203A_providePrivateState None) options s =
      V1.set_last_seq s V1.initial_state).
Proof.
  intros Hs.
  assert (G5 : V5.gap_detected V5.initial_state s = negb (s =? 31329)).
  { unfold V5.gap_detected, V5.in_order, V5.duplicate.
    rewrite V5_initial_expected_seq. cbn [V5.last_seq V5.initial_state].
    replace (s =? -99999) with false by (symmetry; apply Z.eqb_neq; lia).
    apply andb_true_r. }
  assert (G1 : V1.gap_detected V1.initial_state s = negb (s =? 31329)).
  { unfold V1.gap_detected, V1.in_order, V1.duplicate.
    change (V1.expected_seq V1.initial_state) with 31329.
    cbn [V1.last_seq V1.initial_state].
    replace (s =? -99999) with false by (symmetry; apply Z.eqb_neq; lia).
    apply andb_true_r. }
  cbn [V5.pj1203aGetPrivateState V1.PJ1203A_providePrivateState].
  rewrite G5, G1, negb_true_iff, Z.eqb_neq.
  repeat split; try tauto.
  - unfold V5.track_sequence. rewrite G5. destruct (s =? 31329); reflexivity.
  - intros options. unfold V1.track_sequence. rewrite G1.
    destruct (truthy _), (s =? 31329); reflexivity.
Qed.

Lemma first_message_baseline_witness :
  0 <= 0 < 65536 /\
  V5.track_sequence (V5.pj1203aGetPrivateState None) 0 =
    V5.set_last_seq 0 V5.initial_state.
Proof.
  split; [lia|].
  apply (first_message_baseline 0). lia.
Defined.

(** ** Gap handling *)

(** C4.  When the gap branch is taken, the state handed to the datapoint
    converters has the four buffered fields of both channels reset to
    [null], while [pub_power_a] and [pub_power_b] are the ones from before
    the message.  The current converter and v3 make the gap test on every
    message; the first converter of PJ-1203A.js (which keeps no published
    powers) makes it under [missing_message_detection]. *)
Theorem gap_clears_both_channels (priv : V5.private_state)
    (priv1 : V1.private_state) (options : jsobject) (s : Z) :
  (V5.gap_detected priv s = true ->
     let priv' := V5.track_sequence priv s in
     V5.sign_a priv' = None /\ V5.sign_b priv' = None /\
     V5.power_a priv' = None /\ V5.power_b priv' = None /\
     V5.current_a priv' = None /\ V5.current_b priv' = None /\
     V5.power_factor_a priv' = None /\ V5.power_factor_b priv' = None /\
     V5.pub_power_a priv' = V5.pub_power_a priv /\
     V5.pub_power_b priv' = V5.pub_power_b priv) /\
  (V3.gap_detected priv s = true ->
     let priv' := V3.track_sequence priv s in
     V5.sign_a priv' = None /\ V5.sign_b priv' = None /\
     V5.power_a priv' = None /\ V5.power_b priv' = None /\
     V5.current_a priv' = None /\ V5.current_b priv' = None /\
     V5.power_factor_a priv' = None /\ V5.power_factor_b priv' = None /\
     V5.pub_power_a priv' = V5.pub_power_a priv /\
     V5.pub_power_b priv' = V5.pub_power_b priv) /\
  (truthy (V1.PJ1203A_get_missing_message_detection options) = true ->
   V1.gap_detected priv1 s = true ->
     let priv' := V1.track_sequence priv1 options s in
     V1.energy_flow_a priv' = None /\ V1.energy_flow_b priv' = None /\
     V1.power_a priv' = None /\ V1.power_b priv' = None /\
     V1.current_a priv' = None /\ V1.current_b priv' = None /\
     V1.power_factor_a priv' = None /\ V1.power_factor_b priv' = None).
Proof.
  split; [|split].
  - intros G. unfold V5.track_sequence. rewrite G.
    destruct priv; repeat split; reflexivity.
  - intros G. unfold V3.track_sequence. rewrite G.
    destruct priv; repeat split; reflexivity.
  - intros D G. unfold V1.track_sequence. rewrite D, G.
    destruct priv1; repeat split; reflexivity.
Qed.

Lemma gap_clears_both_channels_witness :
  (V5.gap_detected midcycle_state 1024 = true /\
   V5.sign_a (V5.track_sequence midcycle_state 1024) = None /\
   V5.pub_power_a (V5.track_sequence midcycle_state 1024) = Some (-37.5)%float) /\
  (V3.gap_detected midcycle_state 1024 = true /\
   V5.power_b (V3.track_sequence midcycle_state 1024) = None) /\
  (V1.gap_detected midcycle_state1 1024 = true /\
   V1.current_a (V1.track_sequence midcycle_state1 detection_options 1024) = None).
Proof.
  pose proof (gap_clears_both_channels midcycle_state midcycle_state1
                detection_options 1024) as (H5 & H3 & H1).
  split; [|split].
  - split; [reflexivity|]. split; apply (H5 eq_refl).
  - split; [reflexivity|]. apply (H3 eq_refl).
  - split; [reflexivity|]. apply (H1 eq_refl eq_refl).
Defined.

(** ** The zero shortcut *)

Lemma V5_flush_zero_outcome x priv options now :
  zero_flush_outcome x (truthy (V5.pj1203aGetSignedPower options x)) now
    (V5.pj1203aFlushZero ∅ x priv options now).
Proof.
  unfold V5.pj1203aFlushZero, V5.pj1203aFlushAll.
  destruct (truthy (V5.pj1203aGetSignedPower options x));
    v5_destruct priv; destruct x; v5_red;
    unfold V5.pj1203aRecomputePowerAb;
    destruct ua, ub; vm_compute; repeat split; reflexivity.
Qed.

(** C1.  A [power] or [current] datapoint of value zero, with
    [single_zero_remove] not set, makes a complete flush of its channel
    whatever the state before: the emitted record holds power 0, current 0,
    power factor 100, the reception time and the label ["consuming"] (or
    ["sign"] with power [+1 * 0] under [signed_power_X]); the buffer is
    consumed and the published signed power of the channel is 0.  The same
    holds for v3, which has no zero suppression. *)
Theorem zero_shortcut_complete (x : channel) (v : float)
    (priv : V5.private_state) (options : jsobject) (now : string) :
  (v =? 0)%float = true ->
  truthy (V5.pj1203aGetSingleZeroRemove options) = false ->
  let signed := truthy (V5.pj1203aGetSignedPower options x) in
  zero_flush_outcome x signed now
    (V5.valueConverters.power x v priv options now) /\
  zero_flush_outcome x signed now
    (V5.valueConverters.current x v priv options now) /\
  zero_flush_outcome x signed now
    (V3.valueConverters.power x v priv options now) /\
  zero_flush_outcome x signed now
    (V3.valueConverters.current x v priv options now).
Proof.
  intros Hv Hs signed. subst signed.
  unfold V5.valueConverters.power, V5.valueConverters.current,
    V3.valueConverters.power, V3.valueConverters.current,
    V3.PJ1203A_flush_zero.
  rewrite Hv, Hs. cbn [andb].
  repeat match goal with
  | |- context [V5.pj1203aFlushZero ∅ x ?p options now] =>
      let H := fresh "Hz" in
      pose proof (V5_flush_zero_outcome x p options now) as H;
      destruct (V5.pj1203aFlushZero ∅ x p options now) as [? ?]
  end.
  unfold zero_flush_outcome, V5_buffer_empty in *. cbn [fst snd] in *.
  v5_destruct_all; v5_red; tauto.
Qed.

Lemma zero_shortcut_complete_witness :
  zero_flush_outcome ChB false "2024-04-01T10:00:10.000Z"
    (V5.valueConverters.power ChB 0%float midcycle_state no_options
       "2024-04-01T10:00:10.000Z").
Proof.
  apply (zero_shortcut_complete ChB 0%float midcycle_state no_options
           "2024-04-01T10:00:10.000Z"); reflexivity.
Defined.

(** ** Sign resolution at flush time *)

(** C6.  A flush of a channel whose four fields are buffered is complete.
    Without [signed_power_X] it emits the power unchanged and the label
    ["consuming"] when [sign > 0], ["producing"] otherwise; with
    [signed_power_X] it emits [sign * power] and the label ["sign"].  For
    instance direction code 0 and raw power 150 give 15 and ["consuming"],
    or 15 and ["sign"] in signed mode, and direction code 1 gives -15 and
    ["sign"] in signed mode. *)
Theorem sign_resolution (x : channel) (priv : V5.private_state)
    (result options : jsobject) (sign power current power_factor : float) :
  V5.get_sign x priv = Some sign ->
  V5.get_power x priv = Some power ->
  V5.get_current x priv = Some current ->
  V5.get_power_factor x priv = Some power_factor ->
  let out := V5.pj1203aFlushAll result x priv options in
  out.1.1 = true /\
  out.1.2 !! key "current_" x = Some (JNum current) /\
  out.1.2 !! key "power_factor_" x = Some (JNum power_factor) /\
  (if truthy (V5.pj1203aGetSignedPower options x)
   then out.1.2 !! key "power_" x = Some (JNum (sign * power)%float) /\
        out.1.2 !! key "energy_flow_" x = Some (JStr "sign")
   else out.1.2 !! key "power_" x = Some (JNum power) /\
        out.1.2 !! key "energy_flow_" x =
          Some (JStr (if (0 <? sign)%float then "consuming" else "producing"))) /\
  (cycle_a no_options 0 150 !! "power_a" = Some (JNum 15%float) /\
   cycle_a no_options 0 150 !! "energy_flow_a" = Some (JStr "consuming")) /\
  (cycle_a signed_options 0 150 !! "power_a" = Some (JNum 15%float) /\
   cycle_a signed_options 0 150 !! "energy_flow_a" = Some (JStr "sign")) /\
  (cycle_a signed_options 1 150 !! "power_a" = Some (JNum (-15)%float) /\
   cycle_a signed_options 1 150 !! "energy_flow_a" = Some (JStr "sign")).
Proof.
  intros Hs Hp Hc Hf out. subst out.
  unfold V5.pj1203aFlushAll. rewrite Hs, Hp, Hc, Hf.
  match goal with
  | |- context [V5.pj1203aRecomputePowerAb ?r ?p] =>
      pose proof (fun k => V5_recompute_lookup r p k) as Hk;
      destruct (V5.pj1203aRecomputePowerAb r p) as [r' p']
  end.
  cbn [fst snd] in *.
  assert (Hkeys : forall prefix : string,
             prefix = "power_" \/ prefix = "energy_flow_" \/
             prefix = "current_" \/ prefix = "power_factor_" ->
             key prefix x <> "power_ab").
  { intros prefix [-> | [-> | [-> | ->]]]; destruct x; discriminate. }
  rewrite !Hk by (apply Hkeys; tauto).
  split; [reflexivity|].
  destruct (truthy (V5.pj1203aGetSignedPower options x)), x;
    cbv [key chan_name String.append];
    repeat split; first [by simplify_map_eq | reflexivity].
Qed.

Lemma sign_resolution_witness :
  (V5.pj1203aFlushAll ∅ ChA complete_state signed_options).1.2 !! "power_a"
    = Some (JNum (-15)%float) /\
  (V5.pj1203aFlushAll ∅ ChA complete_state signed_options).1.2 !! "energy_flow_a"
    = Some (JStr "sign").
Proof.
  pose proof (sign_resolution ChA complete_state ∅ signed_options
                (-1)%float 15%float 1.5%float 95%float
                eq_refl eq_refl eq_refl eq_refl) as (_ & _ & _ & H & _).
  assert (E : truthy (V5.pj1203aGetSignedPower signed_options ChA) = true)
    by reflexivity.
  rewrite E in H. exact H.
Defined.

(** ** At-most-once consumption *)

Lemma V5_flush_all_consumes result x priv options :
  V5_buffer_empty x (V5.pj1203aFlushAll result x priv options).2.
Proof.
  rewrite V5_flush_all_state.
  v5_destruct priv; destruct x; repeat split.
Qed.

(** A flush attempt on an empty buffer is not complete: it emits nothing and
    changes nothing. *)
Lemma V5_flush_all_empty result x priv options :
  V5_buffer_empty x priv ->
  V5.pj1203aFlushAll result x priv options = (false, result, priv).
Proof.
  intros (Hs & Hp & Hc & Hf).
  unfold V5.pj1203aFlushAll. rewrite Hs.
  v5_destruct priv; destruct x; v5_red; simplify_eq; reflexivity.
Qed.

(** C3, as stated, fails on the first converter of PJ-1203A.js: its
    zero-shortcut flush calls [PJ1203A_flush_all] with [clear = false], so
    the four fields stay buffered, and a second flush attempt with no field
    arrival in between emits the same values again. *)
Lemma zero_flush_keeps_buffer :
  let out := V1.PJ1203A_flush_zero ∅ ChA V1.initial_state no_options in
  V1.get_power ChA out.2 = Some 0%float /\
  V1.get_energy_flow ChA out.2 = Some "consuming" /\
  (V1.PJ1203A_flush_all ∅ ChA out.2 no_options true).1 !! "power_a"
    = Some (JNum 0%float) /\
  (V1.PJ1203A_flush_all ∅ ChA out.2 no_options true).1 !! "power_factor_a"
    = Some (JNum 100%float).
Proof. repeat split; reflexivity. Qed.

Lemma V1_flush_all_consumes result x priv options :
  V1_buffer_empty x (V1.PJ1203A_flush_all result x priv options true).2.
Proof.
  v1_unfold_converters. v1_destruct_all; v1_red; split_opts; split_ifs;
    repeat split.
Qed.

Lemma V1_put_if_present_null (k k' : string) (result : jsobject) :
  V1.put_if_present k JNull result !! k' = result !! k'.
Proof. reflexivity. Qed.

(** A flush attempt of the first converter on an empty buffer emits no
    value: apart from the counter, a key of the result is left as it was or
    set to [null]. *)
Lemma V1_flush_all_empty result x priv options clear (k : string) :
  V1_buffer_empty x priv ->
  k <> key "counter_" x ->
  let again := V1.PJ1203A_flush_all result x priv options clear in
  again.1 !! k = result !! k \/ again.1 !! k = Some JNull.
Proof.
  intros (He & Hp & Hc & Hf) Hk again. subst again.
  unfold V1.PJ1203A_flush_all, V1.PJ1203A_next_seq.
  rewrite He, Hp, Hc, Hf. cbn [fst of_num of_str V1.put_if_present].
  rewrite lookup_insert_ne by congruence.
  split_ifs; try (by left).
  all: repeat match goal with
       | |- context [<[?j := JNull]> _ !! ?k0] =>
           destruct (decide (j = k0)) as [->|];
             [rewrite lookup_insert_eq; by right
             |rewrite lookup_insert_ne by assumption]
       end; by left.
Qed.

(** C3, amended.  In the current converter (and v3, which uses the same
    function) every flush attempt, complete or not, leaves the four buffered
    fields of the channel empty, and a second attempt with no field arrival
    in between emits nothing and changes nothing.  In the first converter of
    PJ-1203A.js the clearing is governed by the [clear] argument: after a
    flush with [clear = true] the four fields are empty and a further
    attempt emits none of the consumed values (besides the counter it leaves
    the keys alone or sets them to [null], according to
    [missing_data_behavior]); a flush with [clear = false], the one of the
    zero shortcut, leaves the four fields buffered. *)
Theorem flush_consumes_buffer (x : channel) (priv : V5.private_state)
    (priv1 : V1.private_state) (result result2 options : jsobject) :
  (let out := V5.pj1203aFlushAll result x priv options in
   V5_buffer_empty x out.2 /\
   V5.pj1203aFlushAll result2 x out.2 options = (false, result2, out.2)) /\
  V3.PJ1203A_flush_all = V5.pj1203aFlushAll /\
  (let out := V1.PJ1203A_flush_all result x priv1 options true in
   V1_buffer_empty x out.2 /\
   forall (clear : bool) (k : string),
     k <> key "counter_" x ->
     let again := V1.PJ1203A_flush_all result2 x out.2 options clear in
     again.1 !! k = result2 !! k \/ again.1 !! k = Some JNull) /\
  (let out := V1.PJ1203A_flush_all result x priv1 options false in
   V1.get_energy_flow x out.2 = V1.get_energy_flow x priv1 /\
   V1.get_power x out.2 = V1.get_power x priv1 /\
   V1.get_current x out.2 = V1.get_current x priv1 /\
   V1.get_power_factor x out.2 = V1.get_power_factor x priv1).
Proof.
  split; [|split; [reflexivity|split]].
  - split; [apply V5_flush_all_consumes|].
    apply V5_flush_all_empty, V5_flush_all_consumes.
  - split; [apply V1_flush_all_consumes|].
    intros clear k Hk. apply V1_flush_all_empty; [apply V1_flush_all_consumes|exact Hk].
  - v1_unfold_converters. v1_destruct_all; v1_red; split_opts; split_ifs;
      repeat split.
Qed.

(** ** One-shot zero suppression *)

Lemma V5_flush_null_outcome x priv options now :
  null_flush_outcome x now (V5.pj1203aFlushNull ∅ x priv options now).
Proof.
  unfold V5.pj1203aFlushNull.
  rewrite V5_flush_all_empty;
    v5_destruct priv; destruct x; repeat split.
Qed.

(** C7, as stated, fails: with [single_zero_remove] set, the first zero
    power after a nonzero one emits an empty record.  The four fields are
    not published as [null] and no timestamp is published; they are absent
    from the record. *)
Lemma suppressed_zero_emits_nothing :
  let out := V5.valueConverters.power ChA 0%float midcycle_state
               suppress_options "2024-04-01T10:00:10.000Z" in
  V5.get_zero_power ChA midcycle_state = Some false /\
  out.1 = ∅ /\
  out.1 !! "energy_flow_a" = None /\
  out.1 !! "power_a" = None /\
  out.1 !! "current_a" = None /\
  out.1 !! "power_factor_a" = None /\
  out.1 !! "timestamp_a" = None.
Proof. repeat split; reflexivity. Qed.

(** C7, amended.  With [single_zero_remove] set, a zero [power] (or
    [current]) datapoint whose zero flag is not raised, that is after a
    nonzero sample of that field or at the start, resets the four buffered
    fields to [null], sets the timestamp of the channel to the reception
    time, raises the flag and emits nothing: neither the canonical zero
    snapshot nor [null] values.  A zero that follows with the flag raised
    emits the canonical zero snapshot.  A nonzero value lowers the flag of
    its field and channel. *)
Theorem single_zero_suppression (x : channel) (v : float)
    (priv : V5.private_state) (options : jsobject) (now : string) :
  truthy (V5.pj1203aGetSingleZeroRemove options) = true ->
  let signed := truthy (V5.pj1203aGetSignedPower options x) in
  let out_power := V5.valueConverters.power x v priv options now in
  let out_current := V5.valueConverters.current x v priv options now in
  ((v =? 0)%float = true ->
     (V5.flag_unset (V5.get_zero_power x priv) = true ->
        null_flush_outcome x now out_power /\
        V5.get_zero_power x out_power.2 = Some true) /\
     (V5.get_zero_power x priv = Some true ->
        zero_flush_outcome x signed now out_power /\
        V5.get_zero_power x out_power.2 = Some true) /\
     (V5.flag_unset (V5.get_zero_current x priv) = true ->
        null_flush_outcome x now out_current /\
        V5.get_zero_current x out_current.2 = Some true) /\
     (V5.get_zero_current x priv = Some true ->
        zero_flush_outcome x signed now out_current /\
        V5.get_zero_current x out_current.2 = Some true)) /\
  ((v =? 0)%float = false ->
     V5.get_zero_power x out_power.2 = Some false /\
     V5.get_zero_current x out_current.2 = Some false).
Proof.
  intros Hs signed out_power out_current.
  subst signed out_power out_current.
  unfold V5.valueConverters.power, V5.valueConverters.current.
  rewrite Hs. cbn [andb].
  split.
  - intros ->.
    assert (Hset : forall p : V5.private_state,
               V5.get_zero_power x (V5.set_timestamp x (Some now)
                 (V5.set_power x (Some (v / 10)%float) p))
               = V5.get_zero_power x p /\
               V5.get_zero_current x (V5.set_current x (Some (v / 1000)%float) p)
               = V5.get_zero_current x p)
      by (intros p; v5_destruct p; destruct x; split; reflexivity).
    rewrite (proj1 (Hset priv)), (proj2 (Hset priv)).
    (split; [|split; [|split]]); intros Hflag; try rewrite Hflag;
      cbn [V5.flag_unset negb].
    all: try match goal with
         | |- context [V5.pj1203aFlushNull ∅ ?c ?p ?o ?n] =>
             pose proof (V5_flush_null_outcome c p o n) as Hout;
             destruct (V5.pj1203aFlushNull ∅ c p o n) as [? ?]
         end.
    all: try match goal with
         | |- context [V5.pj1203aFlushZero ∅ ?c ?p ?o ?n] =>
             pose proof (V5_flush_zero_outcome c p o n) as Hout;
             destruct (V5.pj1203aFlushZero ∅ c p o n) as [? ?]
         end.
    all: unfold null_flush_outcome, zero_flush_outcome, V5_buffer_empty in *;
      cbn [fst snd] in *; v5_destruct_all; v5_red; tauto.
  - intros ->. v5_destruct priv; destruct x; split; reflexivity.
Qed.

Lemma single_zero_suppression_witness :
  null_flush_outcome ChA "2024-04-01T10:00:10.000Z"
    (V5.valueConverters.power ChA 0%float midcycle_state suppress_options
       "2024-04-01T10:00:10.000Z").
Proof.
  apply (single_zero_suppression ChA 0%float midcycle_state suppress_options
           "2024-04-01T10:00:10.000Z" eq_refl); reflexivity.
Defined.

(** ** The combined total *)

Lemma V5_recompute_step result priv :
  result !! "power_ab" = None ->
  power_ab_step priv (V5.pj1203aRecomputePowerAb result priv).
Proof.
  intros Hab. unfold power_ab_step, power_ab_recomputed,
    V5.pj1203aRecomputePowerAb.
  v5_destruct priv.
  destruct (js_in "power_a" result), (js_in "power_b" result); v5_red;
    try destruct ua; try destruct ub; cbn [fst snd]; v5_red;
    rewrite ?lookup_insert_eq, ?Hab;
    (split; [intros y Hy; simplify_eq; eauto|intros; auto]);
    discriminate.
Qed.

Lemma V5_flush_all_step x priv options :
  power_ab_step priv
    ((V5.pj1203aFlushAll ∅ x priv options).1.2,
     (V5.pj1203aFlushAll ∅ x priv options).2).
Proof.
  unfold V5.pj1203aFlushAll.
  assert (Hpub : V5.pub_power_a (V5.clear_fields x priv) = V5.pub_power_a priv /\
                 V5.pub_power_b (V5.clear_fields x priv) = V5.pub_power_b priv)
    by (v5_destruct priv; destruct x; split; reflexivity).
  destruct Hpub as [Ha Hb].
  destruct (V5.get_sign x priv), (V5.get_power x priv),
    (V5.get_current x priv), (V5.get_power_factor x priv);
    try (split; [intros y Hy; discriminate|intros _; left; split; assumption]).
  match goal with
  | |- context [V5.pj1203aRecomputePowerAb ?r ?p] =>
      assert (Hfresh : r !! "power_ab" = None)
        by (destruct (truthy _), x; reflexivity);
      pose proof (V5_recompute_step r p Hfresh) as H;
      destruct (V5.pj1203aRecomputePowerAb r p) as [r' p']
  end.
  unfold power_ab_step in *. cbn [fst snd] in *.
  rewrite Ha, Hb in H. exact H.
Qed.

(** A state that keeps the published powers of [priv] and emits nothing. *)
Lemma power_ab_step_idle priv priv' :
  V5.pub_power_a priv' = V5.pub_power_a priv ->
  V5.pub_power_b priv' = V5.pub_power_b priv ->
  power_ab_step priv (∅, priv').
Proof.
  intros Ha Hb. split; [intros y Hy; discriminate|intros _; left; auto].
Qed.

(** The step property only depends on the published powers of the states. *)
Lemma power_ab_step_frame priv0 priv out out' :
  power_ab_step priv0 out ->
  V5.pub_power_a priv0 = V5.pub_power_a priv ->
  V5.pub_power_b priv0 = V5.pub_power_b priv ->
  out'.1 = out.1 ->
  V5.pub_power_a out'.2 = V5.pub_power_a out.2 ->
  V5.pub_power_b out'.2 = V5.pub_power_b out.2 ->
  power_ab_step priv out'.
Proof.
  unfold power_ab_step, power_ab_recomputed.
  intros [H1 H2] Ha Hb -> -> ->. rewrite <- Ha, <- Hb. auto.
Qed.

Ltac v5_flush_step :=
  match goal with
  | |- context [V5.pj1203aFlushAll ∅ ?x ?p ?o] =>
      let H := fresh "Hstep" in
      pose proof (V5_flush_all_step x p o) as H;
      destruct (V5.pj1203aFlushAll ∅ x p o) as [[? ?] ?];
      cbn [fst snd] in H
  end.

Lemma V5_converters_step dp from v priv options now :
  find_dp V5.tuyaDatapoints dp = Some (Merged from) ->
  power_ab_step priv (from v priv options now).
Proof.
  intros E. find_dp_cases E; v5_unfold_converters; split_ifs;
    try v5_flush_step;
    first
      [ apply power_ab_step_idle; v5_destruct priv; reflexivity
      | eapply power_ab_step_frame; [exact Hstep|..]; cbn [fst snd];
        first [reflexivity | v5_destruct_all; reflexivity] ].
Qed.

Lemma V3_converters_step dp from v priv options now :
  find_dp V3.tuyaDatapoints dp = Some (Merged from) ->
  power_ab_step priv (from v priv options now).
Proof.
  intros E. find_dp_cases E; v5_unfold_converters; split_ifs;
    try v5_flush_step;
    first
      [ apply power_ab_step_idle; v5_destruct priv; reflexivity
      | eapply power_ab_step_frame; [exact Hstep|..]; cbn [fst snd];
        first [reflexivity | v5_destruct_all; reflexivity] ].
Qed.

(** Merging the output of one converter into the accumulated result keeps
    every [power_ab] a recomputation. *)
Lemma power_ab_recomputed_merge result priv out :
  power_ab_recomputed result priv ->
  power_ab_step priv out ->
  power_ab_recomputed (object_assign result out.1) out.2.
Proof.
  intros HI [Hnew Hold] y. unfold object_assign.
  rewrite lookup_union_Some_raw. intros [Hy|[Hnone Hy]].
  - apply Hnew. exact Hy.
  - destruct (HI y Hy) as (a & b & Ha & Hb & ->).
    destruct (Hold Hnone) as [[Ea Eb]|[Ea|Eb]]; [|congruence|congruence].
    exists a, b. rewrite Ea, Eb. auto.
Qed.

Lemma V5_dispatch_power_ab dps options now priv :
  power_ab_recomputed
    (datapoints_convert V5.tuyaDatapoints dps options now ∅ priv).1
    (datapoints_convert V5.tuyaDatapoints dps options now ∅ priv).2.
Proof.
  apply (datapoints_convert_invariant power_ab_recomputed).
  - intros dp name from v result p E HI y.
    assert (name <> "power_ab") by (find_dp_cases E; discriminate).
    rewrite lookup_insert_ne by assumption. apply HI.
  - intros dp from v result p E HI.
    apply (power_ab_recomputed_merge result p); [exact HI|].
    eapply V5_converters_step; eauto.
  - intros y Hy. discriminate.
Qed.

Lemma V3_dispatch_power_ab dps options now priv :
  power_ab_recomputed
    (datapoints_convert V3.tuyaDatapoints dps options now ∅ priv).1
    (datapoints_convert V3.tuyaDatapoints dps options now ∅ priv).2.
Proof.
  apply (datapoints_convert_invariant power_ab_recomputed).
  - intros dp name from v result p E HI y.
    assert (name <> "power_ab") by (find_dp_cases E; discriminate).
    rewrite lookup_insert_ne by assumption. apply HI.
  - intros dp from v result p E HI.
    apply (power_ab_recomputed_merge result p); [exact HI|].
    eapply V3_converters_step; eauto.
  - intros y Hy. discriminate.
Qed.

(** C8, as stated, fails on the first converter of PJ-1203A.js, whose table
    maps datapoint 115 to [power_ab] through [divideBy10]: a message
    carrying the raw total 427 publishes [power_ab = 42.7]. *)
Lemma device_total_published :
  (V1.convert None (mkMessage 0 [(115, 427%float)]) no_options
     "2024-04-01T10:00:00.000Z").1 !! "power_ab"
  = Some (JNum (427 / 10)%float).
Proof. reflexivity. Qed.

(** C8, amended.  In the current converter and in v3 the converter of
    datapoint 115 ignores the received value (it returns an empty record and
    leaves the state alone), and whenever a processed message emits
    [power_ab] the value is [Math.round(10 * a + 10 * b) / 10] for the
    published signed powers [a] and [b] of the two channels.  The first
    converter of PJ-1203A.js has no recomputation: it publishes the value of
    datapoint 115 divided by 10 as [power_ab]. *)
Theorem power_ab_only_recomputed :
  (forall v priv options now,
      V5.valueConverters.power_ab v priv options now = (∅, priv) /\
      V3.valueConverters.power_ab v priv options now = (∅, priv)) /\
  find_dp V5.tuyaDatapoints 115 = Some (Merged V5.valueConverters.power_ab) /\
  find_dp V3.tuyaDatapoints 115 = Some (Merged V3.valueConverters.power_ab) /\
  (forall store msg options now,
      power_ab_recomputed (V5.convert store msg options now).1
                          (V5.convert store msg options now).2) /\
  (forall store msg options now,
      power_ab_recomputed (V3.convert store msg options now).1
                          (V3.convert store msg options now).2) /\
  (forall store s v options now,
      (V1.convert store (mkMessage s [(115, v)]) options now).1 !! "power_ab"
      = Some (JNum (v / 10)%float)).
Proof.
  split; [intros; split; reflexivity|].
  split; [reflexivity|]. split; [reflexivity|].
  split; [|split].
  - intros store msg options now. unfold V5.convert.
    match goal with
    | |- context [datapoints_convert ?t ?d ?o ?n ∅ ?p] =>
        pose proof (V5_dispatch_power_ab d o n p) as H;
        destruct (datapoints_convert t d o n ∅ p) as [c p']
    end.
    cbn [fst snd] in *. unfold object_assign.
    rewrite (right_id_L ∅ (∪)). exact H.
  - intros store msg options now. unfold V3.convert.
    match goal with
    | |- context [datapoints_convert ?t ?d ?o ?n ∅ ?p] =>
        pose proof (V3_dispatch_power_ab d o n p) as H;
        destruct (datapoints_convert t d o n ∅ p) as [c p']
    end.
    cbn [fst snd] in *. unfold object_assign.
    rewrite (right_id_L ∅ (∪)). exact H.
  - intros store s v options now. reflexivity.
Qed.

(** ** Direction codes outside the known encoding *)

(** C10, as stated, fails on the current converter and on v3: direction
    code 2 is stored as sign +1 and the cycle is published with the label
    ["consuming"]; there is no label ["unknown"]. *)
Lemma unknown_code_read_as_consuming :
  V5.get_sign ChA
    (V5.valueConverters.energy_flow ChA 2%float V5.initial_state no_options
       "2024-04-01T10:00:00.000Z").2 = Some 1%float /\
  V5.get_sign ChA
    (V3.valueConverters.energy_flow ChA 2%float V5.initial_state no_options
       "2024-04-01T10:00:00.000Z").2 = Some 1%float /\
  cycle_a no_options 2 150 !! "energy_flow_a" = Some (JStr "consuming") /\
  cycle_a no_options 2 150 !! "power_a" = Some (JNum 15%float).
Proof. repeat split; reflexivity. Qed.

(** C10, amended.  In the first converter of PJ-1203A.js a direction code
    other than 0 and 1 is resolved to the label ["unknown"].  In the
    (default) publishing mode ["immediate"] the label is emitted at once,
    alone with the update counter, and stays buffered; in mode
    ["at_energy_flow"] it is emitted by the flush when power, current and
    power factor are buffered; in any other mode nothing is emitted and the
    label stays buffered for the flush at the power factor.  In the current
    converter and in v3 there is no such label: a code other than 1 is
    handled exactly as code 0 (sign +1). *)
Theorem unknown_direction_code (x : channel) (v : float)
    (priv1 : V1.private_state) (priv : V5.private_state)
    (options : jsobject) (now : string) :
  (v =? 0)%float = false ->
  (v =? 1)%float = false ->
  let out := V1.valueConverters.energy_flow x v priv1 options now in
  let mode := V1.PJ1203A_get_publishing_mode options in
  (str_eq mode "immediate" = true ->
     out.1 = <[key "counter_" x :=
                 JNum (float_of_Z (bit_and (V1.get_counter x priv1 + 1) 65535))]>
               (<[key "energy_flow_" x := JStr "unknown"]> ∅) /\
     V1.get_energy_flow x out.2 = Some "unknown") /\
  (str_eq mode "immediate" = false ->
   str_eq mode "at_energy_flow" = true ->
   is_Some (V1.get_power x priv1) ->
   is_Some (V1.get_current x priv1) ->
   is_Some (V1.get_power_factor x priv1) ->
     out.1 !! key "energy_flow_" x = Some (JStr "unknown")) /\
  (str_eq mode "immediate" = false ->
   str_eq mode "at_energy_flow" = false ->
     out.1 = ∅ /\ V1.get_energy_flow x out.2 = Some "unknown") /\
  V5.valueConverters.energy_flow x v priv options now =
    V5.valueConverters.energy_flow x 0%float priv options now /\
  V3.valueConverters.energy_flow x v priv options now =
    V3.valueConverters.energy_flow x 0%float priv options now.
Proof.
  intros H0 H1 out mode. subst out mode.
  unfold V1.valueConverters.energy_flow, V5.valueConverters.energy_flow,
    V3.valueConverters.energy_flow.
  rewrite H0, H1.
  change (0 =? 1)%float with false.
  split; [|split; [|split; [|split; reflexivity]]].
  - intros ->. unfold V1.PJ1203A_next_seq. cbn [fst snd].
    split; [|v1_destruct_all; reflexivity].
    do 2 f_equal. v1_destruct_all; reflexivity.
  - intros -> -> [pw Hp] [cu Hc] [pf Hf].
    unfold V1.PJ1203A_flush_all, V1.PJ1203A_next_seq.
    assert (Hget : V1.get_energy_flow x (V1.set_energy_flow x (Some "unknown") priv1)
                   = Some "unknown" /\
                   V1.get_power x (V1.set_energy_flow x (Some "unknown") priv1)
                   = V1.get_power x priv1 /\
                   V1.get_current x (V1.set_energy_flow x (Some "unknown") priv1)
                   = V1.get_current x priv1 /\
                   V1.get_power_factor x (V1.set_energy_flow x (Some "unknown") priv1)
                   = V1.get_power_factor x priv1)
      by (v1_destruct_all; repeat split; reflexivity).
    destruct Hget as (-> & -> & -> & ->). rewrite Hp, Hc, Hf.
    cbn [fst]. destruct x; reflexivity.
  - intros -> ->. split; [reflexivity|]. v1_destruct_all; reflexivity.
Qed.

Lemma unknown_direction_code_witness :
  (V1.valueConverters.energy_flow ChA 2%float midcycle_state1 no_options
     "2024-04-01T10:00:00.000Z").1 !! "energy_flow_a"
  = Some (JStr "unknown").
Proof.
  pose proof (unknown_direction_code ChA 2%float midcycle_state1
                midcycle_state no_options "2024-04-01T10:00:00.000Z"
                eq_refl eq_refl) as (H & _).
  rewrite (proj1 (H eq_refl)). reflexivity.
Defined.

(** ** Binary64 arithmetic at 0.1 resolution

    The recomputation of the total multiplies by 10 two numbers that came
    out of a division by 10.  On binary64 the product is the integer the
    division started from (10 is [2^3 + 2^1], the case of Kahan's theorem),
    the sum of two such integers is exact, and [Math.round] leaves it
    alone. *)

Lemma digits2_pos_size (p : positive) : digits2_pos p = Pos.size p.
Proof. induction p as [p IH|p IH|]; cbn; congruence. Qed.

Lemma digits2_pos_log2 (p : positive) :
  Z.pos (digits2_pos p) = Z.log2 (Z.pos p) + 1.
Proof.
  destruct p as [p|p|]; cbn [digits2_pos Z.log2];
    rewrite ?digits2_pos_size; lia.
Qed.

Lemma Zdigits2_eq (X d : Z) :
  0 < d -> 2 ^ (d - 1) <= X < 2 ^ d -> Zdigits2 X = d.
Proof.
  intros Hd HX.
  assert (0 < X) by (pose proof (Z.pow_pos_nonneg 2 (d - 1)); lia).
  destruct X as [|p|p]; try lia.
  cbn [Zdigits2]. rewrite digits2_pos_log2.
  rewrite (Z.log2_unique (Z.pos p) (d - 1)); [lia|lia|].
  replace (Z.succ (d - 1)) with d by lia. exact HX.
Qed.

Lemma shr_1_spec (m : Z) (r s : bool) :
  0 <= m ->
  shr_1 (Build_shr_record m r s) = Build_shr_record (m / 2) (Z.odd m) (r || s).
Proof.
  intros Hm. destruct m as [|[p|p|]|p]; try lia; cbn [shr_1 Z.odd].
  - reflexivity.
  - f_equal. rewrite Pos2Z.inj_xI. Z.div_mod_to_equations; lia.
  - f_equal. rewrite Pos2Z.inj_xO. Z.div_mod_to_equations; lia.
  - reflexivity.
Qed.

Lemma iter_pos_nat {A : Type} (f : A -> A) (p : positive) (x : A) :
  SpecFloat.iter_pos f p x = Nat.iter (Pos.to_nat p) f x.
Proof.
  revert x. induction p as [p IH|p IH|]; intros x; cbn [SpecFloat.iter_pos].
  - rewrite !IH, Pos2Nat.inj_xI.
    replace (S (2 * Pos.to_nat p))%nat with (Pos.to_nat p + (Pos.to_nat p + 1))%nat by lia.
    rewrite !Nat.iter_add. reflexivity.
  - rewrite !IH, Pos2Nat.inj_xO.
    replace (2 * Pos.to_nat p)%nat with (Pos.to_nat p + Pos.to_nat p)%nat by lia.
    rewrite Nat.iter_add. reflexivity.
  - reflexivity.
Qed.

Lemma sticky_step (m n : Z) :
  0 <= n ->
  negb (m mod 2 ^ (n + 1) =? 0) = Z.odd (m / 2 ^ n) || negb (m mod 2 ^ n =? 0).
Proof.
  intros Hn.
  assert (H2 : 0 < 2 ^ n) by (apply Z.pow_pos_nonneg; lia).
  rewrite Z.pow_add_r, Z.pow_1_r by lia.
  rewrite Z.rem_mul_r by lia.
  rewrite Zmod_odd.
  pose proof (Z.mod_pos_bound m (2 ^ n) H2).
  destruct (Z.odd (m / 2 ^ n)); cbn [orb].
  - apply negb_true_iff, Z.eqb_neq. lia.
  - rewrite Z.mul_0_r, Z.add_0_r. reflexivity.
Qed.

Lemma nat_iter_shr (n : nat) (m : Z) (r s : bool) :
  0 <= m ->
  Nat.iter (S n) shr_1 (Build_shr_record m r s) =
  Build_shr_record (m / 2 ^ (Z.of_nat n + 1)) (Z.odd (m / 2 ^ Z.of_nat n))
    (r || s || negb (m mod 2 ^ Z.of_nat n =? 0)).
Proof.
  intros Hm. induction n as [|n IH].
  - cbn [Nat.iter]. rewrite shr_1_spec by exact Hm.
    cbn [Z.of_nat]. rewrite Z.pow_0_r, Z.div_1_r, Z.mod_1_r. cbn.
    rewrite orb_false_r. reflexivity.
  - change (Nat.iter (S (S n)) shr_1 ?x) with (shr_1 (Nat.iter (S n) shr_1 x)).
    rewrite IH.
    assert (H2 : 0 < 2 ^ (Z.of_nat n + 1)) by (apply Z.pow_pos_nonneg; lia).
    rewrite shr_1_spec by (apply Z.div_pos; lia).
    rewrite Nat2Z.inj_succ. unfold Z.succ.
    f_equal.
    + rewrite (Z.pow_add_r 2 (Z.of_nat n + 1) 1), Z.pow_1_r by lia.
      rewrite Z.div_div by lia. reflexivity.
    + rewrite (sticky_step m (Z.of_nat n)) by lia.
      destruct r, s, (Z.odd (m / 2 ^ Z.of_nat n)), (m mod 2 ^ Z.of_nat n =? 0); reflexivity.
Qed.

Lemma iter_pos_shr (k : positive) (m : Z) (r s : bool) :
  0 <= m ->
  SpecFloat.iter_pos shr_1 k (Build_shr_record m r s) =
  Build_shr_record (m / 2 ^ Z.pos k) (Z.odd (m / 2 ^ (Z.pos k - 1)))
    (r || s || negb (m mod 2 ^ (Z.pos k - 1) =? 0)).
Proof.
  intros Hm. rewrite iter_pos_nat.
  destruct (Pos2Nat.is_succ k) as [n Hn]. rewrite Hn.
  rewrite nat_iter_shr by exact Hm.
  assert (Z.pos k = Z.of_nat n + 1) by lia.
  replace (Z.pos k - 1) with (Z.of_nat n) by lia.
  replace (Z.pos k) with (Z.of_nat n + 1) by lia.
  reflexivity.
Qed.

Lemma shr_record_of_loc_bits (m : Z) (l : location) :
  shr_record_of_loc m l = Build_shr_record m (loc_r l) (loc_s l).
Proof. destruct l as [|[]]; reflexivity. Qed.

Lemma rne_ge (u : Z) (r s : bool) : u <= rne u r s <= u + 1.
Proof.
  unfold rne. destruct r, s; cbn; try destruct (Z.even u); lia.
Qed.

Lemma fexp_normal (e : Z) : -1074 <= e - 53 -> fexp prec emax e = e - 53.
Proof. unfold fexp, SpecFloat.emin, prec, emax. lia. Qed.

Lemma bra_finish (s : bool) (R E : Z) :
  2 ^ 52 <= R < 2 ^ 53 -> -1074 <= E <= 971 ->
  (let '(mrs, e) := shr_fexp prec emax R E loc_Exact in
   match shr_m mrs with
   | 0 => S754_zero s
   | Z.pos m => if e <=? emax - prec then S754_finite s m e else S754_infinity s
   | Z.neg _ => S754_nan
   end) = S754_finite s (Z.to_pos R) E.
Proof.
  intros HR HE. unfold shr_fexp.
  rewrite (Zdigits2_eq R 53) by (cbn; lia).
  rewrite fexp_normal by lia.
  replace (53 + E - 53 - E) with 0 by lia.
  cbn [shr shr_record_of_loc shr_m].
  destruct R as [|m|m]; try (cbn in HR; lia).
  replace (E <=? emax - prec) with true
    by (symmetry; apply Z.leb_le; unfold emax, prec; lia).
  reflexivity.
Qed.

Lemma bra_shift (s : bool) (X E : Z) (k : positive) (l : location) :
  2 ^ (52 + Z.pos k) <= X < 2 ^ (53 + Z.pos k) ->
  -1074 <= E + Z.pos k <= 971 ->
  let R := rne (X / 2 ^ Z.pos k) (Z.odd (X / 2 ^ (Z.pos k - 1)))
               (loc_r l || loc_s l || negb (X mod 2 ^ (Z.pos k - 1) =? 0)) in
  R < 2 ^ 53 ->
  binary_round_aux prec emax s X E l = S754_finite s (Z.to_pos R) (E + Z.pos k).
Proof.
  intros HX HE R HR.
  assert (H2k : 0 < 2 ^ Z.pos k) by (apply Z.pow_pos_nonneg; lia).
  assert (HXpos : 0 < X).
  { pose proof (Z.pow_pos_nonneg 2 (52 + Z.pos k)). lia. }
  assert (Hu : 2 ^ 52 <= X / 2 ^ Z.pos k).
  { apply Z.div_le_lower_bound; [lia|].
    rewrite <- Z.pow_add_r by lia. rewrite Z.add_comm. lia. }
  pose proof (rne_ge (X / 2 ^ Z.pos k) (Z.odd (X / 2 ^ (Z.pos k - 1)))
                (loc_r l || loc_s l || negb (X mod 2 ^ (Z.pos k - 1) =? 0))) as Hge.
  fold R in Hge.
  unfold binary_round_aux.
  unfold shr_fexp at 1.
  rewrite (Zdigits2_eq X (53 + Z.pos k)) by (first [lia | replace (53 + Z.pos k - 1) with (52 + Z.pos k) by lia; lia]).
  rewrite fexp_normal by lia.
  replace (53 + Z.pos k + E - 53 - E) with (Z.pos k) by lia.
  cbn [shr]. rewrite shr_record_of_loc_bits, iter_pos_shr by lia.
  cbn [shr_m]. fold (rne (X / 2 ^ Z.pos k) (Z.odd (X / 2 ^ (Z.pos k - 1)))
      (loc_r l || loc_s l || negb (X mod 2 ^ (Z.pos k - 1) =? 0))).
  fold R.
  apply bra_finish; lia.
Qed.

Lemma bra_noshift (s : bool) (X E : Z) (l : location) :
  2 ^ 52 <= X < 2 ^ 53 ->
  -1074 <= E <= 971 ->
  round_nearest_even X l < 2 ^ 53 ->
  binary_round_aux prec emax s X E l =
  S754_finite s (Z.to_pos (round_nearest_even X l)) E.
Proof.
  intros HX HE HR.
  assert (X <= round_nearest_even X l).
  { destruct l as [|[]]; cbn; try destruct (Z.even X); lia. }
  unfold binary_round_aux.
  unfold shr_fexp at 1.
  rewrite (Zdigits2_eq X 53) by (cbn; lia).
  rewrite fexp_normal by lia.
  replace (53 + E - 53 - E) with 0 by lia.
  cbn [shr]. rewrite shr_record_of_loc_bits. cbn [shr_m].
  replace (loc_of_shr_record (Build_shr_record X (loc_r l) (loc_s l))) with l
    by (destruct l as [|[]]; reflexivity).
  apply bra_finish; lia.
Qed.

Lemma Prim2SF_ten : Prim2SF 10%float = SFten.
Proof. reflexivity. Qed.

Lemma ten_m_eq : Z.pos ten_m = 5 * 2 ^ 50.
Proof. reflexivity. Qed.

(** Evaluation of the closed tests of a goal. *)
Ltac eval_tests :=
  repeat match goal with
  | |- context [if ?c then _ else _] =>
      let v := eval vm_compute in c in
      match v with
      | true => change c with true
      | false => change c with false
      end; cbv iota
  end.

Lemma SFdiv_ten (s : bool) (m : positive) (e : Z) :
  is_normal (Z.pos m) -> -1000 <= e <= 900 ->
  SFdiv prec emax (S754_finite s m e) SFten =
  let q := 8 * Z.pos m / 5 in
  let rho := (8 * Z.pos m) mod 5 in
  if Z.pos m <? 5 * 2 ^ 50
  then S754_finite s (Z.to_pos (q + (if 3 <=? rho then 1 else 0))) (e - 4)
  else S754_finite s (Z.to_pos (rne (q / 2) (Z.odd q) (negb (rho =? 0)))) (e - 3).
Proof.
  intros HM He. unfold is_normal in HM.
  unfold SFten, SFdiv, SFdiv_core_binary.
  rewrite xorb_false_r.
  rewrite (Zdigits2_eq (Z.pos m) 53) by (cbn; lia).
  rewrite (Zdigits2_eq (Z.pos ten_m) 53) by (unfold ten_m; cbn; lia).
  replace (53 + e - (53 + -49)) with (e + 49) by lia.
  rewrite fexp_normal by lia.
  replace (Z.min (e + 49 - 53) (e - -49)) with (e - 4) by lia.
  replace (e - -49 - (e - 4)) with 53 by lia.
  rewrite Z.shiftl_mul_pow2 by lia.
  set (M := Z.pos m) in *.
  assert (Hdiv : Z.div_eucl (M * 2 ^ 53) (Z.pos ten_m) =
                 (8 * M / 5, (8 * M) mod 5 * 2 ^ 50)).
  { rewrite (surjective_pairing (Z.div_eucl _ _)).
    change (fst (Z.div_eucl ?a ?b)) with (a / b).
    change (snd (Z.div_eucl ?a ?b)) with (a mod b).
    rewrite ten_m_eq.
    replace (M * 2 ^ 53) with (8 * M * 2 ^ 50) by (change (2 ^ 53) with (8 * 2 ^ 50); ring).
    rewrite Z.div_mul_cancel_r, Z.mul_mod_distr_r by lia. reflexivity. }
  rewrite Hdiv. clear Hdiv.
  set (q := 8 * M / 5). set (rho := (8 * M) mod 5).
  assert (Hq : 8 * M = 5 * q + rho /\ 0 <= rho < 5).
  { subst q rho. pose proof (Z.div_mod (8 * M) 5). pose proof (Z.mod_pos_bound (8 * M) 5). lia. }
  clearbody q rho.
  unfold new_location. change (Z.even (Z.pos ten_m)) with true. cbv iota.
  unfold new_location_even.
  cbv zeta.
  assert (Hrho : rho = 0 \/ rho = 1 \/ rho = 2 \/ rho = 3 \/ rho = 4) by lia.
  assert (Hloc : (if rho * 2 ^ 50 =? 0 then loc_Exact
                  else loc_Inexact (2 * (rho * 2 ^ 50) ?= Z.pos ten_m)) =
                 (if rho =? 0 then loc_Exact
                  else loc_Inexact (if rho <? 3 then Lt else Gt))).
  { destruct Hrho as [->|[->|[->|[->| ->]]]]; reflexivity. }
  rewrite Hloc. clear Hloc.
  destruct (Z.ltb_spec M (5 * 2 ^ 50)) as [Hlt|Hge].
  - (* quotient on 53 bits *)
    assert (HQ : 2 ^ 52 <= q < 2 ^ 53) by lia.
    assert (Hr : round_nearest_even q
              (if rho =? 0 then loc_Exact
               else loc_Inexact (if rho <? 3 then Lt else Gt))
            = q + (if 3 <=? rho then 1 else 0)).
    { destruct Hrho as [->|[->|[->|[->| ->]]]]; eval_tests;
        cbn [round_nearest_even]; lia. }
    rewrite bra_noshift; rewrite ?Hr; try lia.
    + reflexivity.
    + destruct (3 <=? rho); lia.
  - (* quotient on 54 bits *)
    assert (HQ : 2 ^ 53 <= q < 2 ^ 54) by lia.
    set (l := if rho =? 0 then loc_Exact
              else loc_Inexact (if rho <? 3 then Lt else Gt)).
    assert (Hl : loc_r l || loc_s l = negb (rho =? 0)).
    { subst l. destruct Hrho as [->|[->|[->|[->| ->]]]]; reflexivity. }
    pose proof (bra_shift s q (e - 4) 1 l) as H.
    change (Z.pos 1 - 1) with 0 in H. rewrite Z.pow_0_r, Z.div_1_r, Z.mod_1_r in H.
    change (0 =? 0) with true in H. cbn [negb] in H. rewrite orb_false_r, Hl in H.
    change (2 ^ Z.pos 1) with 2 in H.
    rewrite H.
    + f_equal. lia.
    + cbn. lia.
    + lia.
    + pose proof (rne_ge (q / 2) (Z.odd q) (negb (rho =? 0))).
      assert (q / 2 <= 2 ^ 53 - 2) by (Z.div_mod_to_equations; lia).
      lia.
Qed.

Lemma rne_cases (u : Z) (r s : bool) :
  rne u r s =
  if r then (if s then u + 1 else if Z.even u then u else u + 1) else u.
Proof. destruct r, s; reflexivity. Qed.

(** Turns the parities and the tests of the goal and of the hypotheses into
    arithmetic facts. *)
Ltac bool_arith :=
  repeat match goal with
  | |- context [Z.odd ?x] =>
      let H := fresh "Hodd" in
      pose proof (Zmod_odd x) as H; destruct (Z.odd x)
  | |- context [Z.even ?x] =>
      let H := fresh "Heven" in
      pose proof (Zmod_even x) as H; destruct (Z.even x)
  | |- context [?a =? ?b] => destruct (Z.eqb_spec a b)
  | |- context [?a <? ?b] => destruct (Z.ltb_spec a b)
  | |- context [?a <=? ?b] => destruct (Z.leb_spec a b)
  end; cbn [negb].

Lemma kahan_arith_A (M q rho : Z) :
  is_normal M -> M < 5 * 2 ^ 50 ->
  8 * M = 5 * q + rho -> 0 <= rho < 5 ->
  let Q := q + (if 3 <=? rho then 1 else 0) in
  let P := 5 * Q in
  is_normal Q /\ (P <? 2 ^ 55) = false /\
  rne (P / 8) (Z.odd (P / 4)) (negb (P mod 4 =? 0)) = M.
Proof.
  intros HM Hlt Hq Hrho Q P. unfold is_normal in *.
  assert (HQ : Q = q \/ Q = q + 1) by (subst Q; destruct (3 <=? rho); lia).
  assert (HP : P = 8 * M - rho + 5 * (Q - q)) by (subst P; lia).
  assert (HQr : Q - q = if 3 <=? rho then 1 else 0) by (subst Q; lia).
  clearbody Q P.
  rewrite rne_cases.
  split; [|split].
  - destruct (Z.leb_spec 3 rho); lia.
  - apply Z.ltb_ge. destruct (Z.leb_spec 3 rho); lia.
  - destruct (Z.leb_spec 3 rho); bool_arith; Z.div_mod_to_equations; lia.
Qed.

Lemma kahan_arith_B (M q rho : Z) :
  is_normal M -> 5 * 2 ^ 50 <= M -> Z.even M = true ->
  8 * M = 5 * q + rho -> 0 <= rho < 5 ->
  let Q := rne (q / 2) (Z.odd q) (negb (rho =? 0)) in
  let P := 5 * Q in
  is_normal Q /\ (P <? 2 ^ 55) = true /\
  rne (P / 4) (Z.odd (P / 2)) (negb (P mod 2 =? 0)) = M.
Proof.
  intros HM Hge Hev Hq Hrho Q P. unfold is_normal in *.
  pose proof (Zmod_even M) as HevM. rewrite Hev in HevM.
  assert (HQ : 5 * Q - 4 * M = 0 \/ 5 * Q - 4 * M = 1 \/ 5 * Q - 4 * M = -1 \/
               5 * Q - 4 * M = 2 \/ 5 * Q - 4 * M = -2).
  { subst Q. rewrite rne_cases. bool_arith; Z.div_mod_to_equations; lia. }
  assert (HP : P = 5 * Q) by reflexivity.
  clearbody Q P.
  rewrite rne_cases.
  split; [|split].
  - Z.div_mod_to_equations; lia.
  - apply Z.ltb_lt. Z.div_mod_to_equations; lia.
  - bool_arith; Z.div_mod_to_equations; lia.
Qed.

Lemma SFmul_ten (s : bool) (q : positive) (E : Z) :
  is_normal (Z.pos q) -> -1000 <= E <= 900 ->
  let P := 5 * Z.pos q in
  let R := if P <? 2 ^ 55
           then rne (P / 4) (Z.odd (P / 2)) (negb (P mod 2 =? 0))
           else rne (P / 8) (Z.odd (P / 4)) (negb (P mod 4 =? 0)) in
  R < 2 ^ 53 ->
  SFmul prec emax SFten (S754_finite s q E) =
  S754_finite s (Z.to_pos R) (if P <? 2 ^ 55 then E + 3 else E + 4).
Proof.
  intros HQ HE P R HR. unfold is_normal in HQ.
  unfold SFten, SFmul. cbn [xorb].
  rewrite Pos2Z.inj_mul, ten_m_eq.
  replace (5 * 2 ^ 50 * Z.pos q) with (P * 2 ^ 50) by (subst P; ring).
  assert (HP : 5 * 2 ^ 52 <= P < 5 * 2 ^ 53) by (subst P; lia).
  clearbody P.
  destruct (Z.ltb_spec P (2 ^ 55)) as [Hlt|Hge].
  - pose proof (bra_shift s (P * 2 ^ 50) (-49 + E) 52 loc_Exact) as H.
    replace (P * 2 ^ 50 / 2 ^ Z.pos 52) with (P / 4) in H
      by (change (2 ^ Z.pos 52) with (4 * 2 ^ 50);
          rewrite Z.div_mul_cancel_r by lia; reflexivity).
    replace (P * 2 ^ 50 / 2 ^ (Z.pos 52 - 1)) with (P / 2) in H
      by (change (2 ^ (Z.pos 52 - 1)) with (2 * 2 ^ 50);
          rewrite Z.div_mul_cancel_r by lia; reflexivity).
    replace ((P * 2 ^ 50) mod 2 ^ (Z.pos 52 - 1) =? 0) with (P mod 2 =? 0) in H
      by (change (2 ^ (Z.pos 52 - 1)) with (2 * 2 ^ 50);
          rewrite Z.mul_mod_distr_r by lia;
          destruct (Z.eqb_spec (P mod 2) 0), (Z.eqb_spec (P mod 2 * 2 ^ 50) 0); lia).
    cbn [loc_r loc_s shr_record_of_loc shr_r shr_s orb] in H.
    rewrite H; [f_equal; lia| | |exact HR].
    + change (2 ^ (52 + Z.pos 52)) with (2 ^ 54 * 2 ^ 50).
      change (2 ^ (53 + Z.pos 52)) with (2 ^ 55 * 2 ^ 50). nia.
    + lia.
  - pose proof (bra_shift s (P * 2 ^ 50) (-49 + E) 53 loc_Exact) as H.
    replace (P * 2 ^ 50 / 2 ^ Z.pos 53) with (P / 8) in H
      by (change (2 ^ Z.pos 53) with (8 * 2 ^ 50);
          rewrite Z.div_mul_cancel_r by lia; reflexivity).
    replace (P * 2 ^ 50 / 2 ^ (Z.pos 53 - 1)) with (P / 4) in H
      by (change (2 ^ (Z.pos 53 - 1)) with (4 * 2 ^ 50);
          rewrite Z.div_mul_cancel_r by lia; reflexivity).
    replace ((P * 2 ^ 50) mod 2 ^ (Z.pos 53 - 1) =? 0) with (P mod 4 =? 0) in H
      by (change (2 ^ (Z.pos 53 - 1)) with (4 * 2 ^ 50);
          rewrite Z.mul_mod_distr_r by lia;
          destruct (Z.eqb_spec (P mod 4) 0), (Z.eqb_spec (P mod 4 * 2 ^ 50) 0); lia).
    cbn [loc_r loc_s shr_record_of_loc shr_r shr_s orb] in H.
    rewrite H; [f_equal; lia| | |exact HR].
    + change (2 ^ (52 + Z.pos 53)) with (2 ^ 55 * 2 ^ 50).
      change (2 ^ (53 + Z.pos 53)) with (2 ^ 56 * 2 ^ 50). nia.
    + lia.
Qed.

(** Division by ten followed by multiplication by ten gives back a normal
    number of even significand. *)
Lemma kahan_ten (s : bool) (m : positive) (e : Z) :
  is_normal (Z.pos m) -> Z.even (Z.pos m) = true -> -900 <= e <= 900 ->
  SFmul prec emax SFten (SFdiv prec emax (S754_finite s m e) SFten) =
  S754_finite s m e.
Proof.
  intros HM Hev He.
  rewrite SFdiv_ten by (first [exact HM | lia]).
  cbv zeta.
  pose proof (Z.div_mod (8 * Z.pos m) 5 ltac:(lia)) as Hq.
  pose proof (Z.mod_pos_bound (8 * Z.pos m) 5 ltac:(lia)) as Hrho.
  set (q := 8 * Z.pos m / 5) in *. set (rho := (8 * Z.pos m) mod 5) in *.
  clearbody q rho.
  destruct (Z.ltb_spec (Z.pos m) (5 * 2 ^ 50)) as [Hlt|Hge].
  - destruct (kahan_arith_A (Z.pos m) q rho HM Hlt Hq Hrho) as (HQ & HP & HR).
    set (Q := q + (if 3 <=? rho then 1 else 0)) in *.
    assert (HQpos : Z.pos (Z.to_pos Q) = Q) by (unfold is_normal in HQ; lia).
    pose proof (SFmul_ten s (Z.to_pos Q) (e - 4)) as H.
    cbv zeta in H. rewrite HQpos, HP, HR in H. rewrite H; [|exact HQ|lia|unfold is_normal in HM; lia].
    rewrite Pos2Z.id. f_equal. lia.
  - destruct (kahan_arith_B (Z.pos m) q rho HM Hge Hev Hq Hrho) as (HQ & HP & HR).
    set (Q := rne (q / 2) (Z.odd q) (negb (rho =? 0))) in *.
    assert (HQpos : Z.pos (Z.to_pos Q) = Q) by (unfold is_normal in HQ; lia).
    pose proof (SFmul_ten s (Z.to_pos Q) (e - 3)) as H.
    cbv zeta in H. rewrite HQpos, HP, HR in H. rewrite H; [|exact HQ|lia|unfold is_normal in HM; lia].
    rewrite Pos2Z.id. f_equal. lia.
Qed.

(** ** Integers on binary64 *)

Lemma pos_iter_xO (p d : positive) :
  Z.pos (Pos.iter xO p d) = Z.pos p * 2 ^ Z.pos d.
Proof.
  induction d as [|d IH] using Pos.peano_ind.
  - cbn [Pos.iter]. rewrite Pos2Z.inj_xO. change (2 ^ 1) with 2. lia.
  - rewrite Pos.iter_succ, Pos2Z.inj_xO, IH, Pos2Z.inj_succ.
    rewrite Z.pow_succ_r by lia. ring.
Qed.

Lemma digits_bounds (N : Z) :
  0 < N -> 0 < digits N /\ 2 ^ (digits N - 1) <= N < 2 ^ digits N.
Proof.
  intros HN. unfold digits.
  pose proof (Z.log2_nonneg N). pose proof (Z.log2_spec N HN).
  replace (Z.log2 N + 1 - 1) with (Z.log2 N) by lia.
  replace (Z.log2 N + 1) with (Z.succ (Z.log2 N)) by lia. lia.
Qed.

Lemma digits_le_53 (N : Z) : 0 < N < 2 ^ 53 -> digits N <= 53.
Proof.
  intros HN. destruct (digits_bounds N) as (Hd & Hlo & Hhi); [lia|].
  destruct (Z.le_gt_cases (digits N) 53) as [|Hgt]; [assumption|].
  assert (2 ^ 53 <= 2 ^ (digits N - 1)) by (apply Z.pow_le_mono_r; lia). lia.
Qed.

Lemma significand_normal (N : Z) :
  0 < N < 2 ^ 53 -> is_normal (significand N).
Proof.
  intros HN. unfold is_normal, significand.
  destruct (digits_bounds N) as (Hd & Hlo & Hhi); [lia|].
  pose proof (digits_le_53 N HN) as Hle.
  assert (H2 : 0 < 2 ^ (53 - digits N)) by (apply Z.pow_pos_nonneg; lia).
  replace (2 ^ 52) with (2 ^ (digits N - 1) * 2 ^ (53 - digits N))
    by (rewrite <- Z.pow_add_r by lia; f_equal; lia).
  replace (2 ^ 53) with (2 ^ digits N * 2 ^ (53 - digits N))
    by (rewrite <- Z.pow_add_r by lia; f_equal; lia).
  nia.
Qed.

Lemma significand_even (N : Z) :
  0 < N < 2 ^ 52 -> Z.even (significand N) = true.
Proof.
  intros HN. unfold significand.
  destruct (digits_bounds N) as (Hd & Hlo & Hhi); [lia|].
  assert (digits N <= 52).
  { destruct (Z.le_gt_cases (digits N) 52) as [|Hgt]; [assumption|].
    assert (2 ^ 52 <= 2 ^ (digits N - 1)) by (apply Z.pow_le_mono_r; lia). lia. }
  replace (53 - digits N) with (Z.succ (52 - digits N)) by lia.
  rewrite Z.pow_succ_r by lia.
  rewrite Z.mul_assoc, (Z.mul_comm N 2), <- Z.mul_assoc.
  apply Z.even_mul.
Qed.

(** Rounding of [N * 2^t], given as the mantissa [p] with exponent [-t]. *)
Lemma binary_round_scaled (s : bool) (p : positive) (N t : Z) :
  0 < N < 2 ^ 53 -> 0 <= t <= 900 -> Z.pos p = N * 2 ^ t ->
  binary_round prec emax s p (- t) =
  S754_finite s (Z.to_pos (significand N)) (digits N - 53).
Proof.
  intros HN Ht Hp.
  destruct (digits_bounds N) as (Hd & Hlo & Hhi); [lia|].
  pose proof (digits_le_53 N HN) as Hle.
  pose proof (significand_normal N HN) as Hsig. unfold is_normal in Hsig.
  set (d := digits N) in *.
  assert (H2t : 0 < 2 ^ t) by (apply Z.pow_pos_nonneg; lia).
  unfold binary_round.
  assert (Hdig : Z.pos (digits2_pos p) = d + t).
  { change (Z.pos (digits2_pos p)) with (Zdigits2 (Z.pos p)).
    apply Zdigits2_eq; [lia|]. rewrite Hp.
    replace (d + t - 1) with (d - 1 + t) by lia.
    rewrite !Z.pow_add_r by lia. nia. }
  rewrite Hdig.
  replace (d + t + - t) with d by lia.
  rewrite fexp_normal by lia.
  unfold shl_align.
  destruct (d - 53 - - t) as [|k|k] eqn:Hk.
  - (* exactly 53 digits *)
    assert (Hs : significand N = Z.pos p).
    { unfold significand. fold d. rewrite Hp. f_equal. f_equal. lia. }
    rewrite bra_noshift; cbn [round_nearest_even]; try lia.
    rewrite <- Hs. f_equal. lia.
  - (* more than 53 digits: an exact shift to the right *)
    assert (Hs : Z.pos p = significand N * 2 ^ Z.pos k).
    { unfold significand. fold d. rewrite Hp, <- Z.mul_assoc, <- Z.pow_add_r by lia.
      f_equal. f_equal. lia. }
    assert (H2k : 0 < 2 ^ (Z.pos k - 1)) by (apply Z.pow_pos_nonneg; lia).
    pose proof (bra_shift s (Z.pos p) (- t) k loc_Exact) as H.
    cbn [loc_r loc_s shr_record_of_loc shr_r shr_s orb] in H.
    assert (Hdiv : Z.pos p / 2 ^ Z.pos k = significand N)
      by (rewrite Hs; apply Z.div_mul; lia).
    assert (Hdiv' : Z.pos p / 2 ^ (Z.pos k - 1) = 2 * significand N).
    { rewrite Hs. replace (Z.pos k) with (1 + (Z.pos k - 1)) at 1 by lia.
      rewrite Z.pow_add_r, Z.mul_assoc by lia. rewrite Z.div_mul by lia.
      change (2 ^ 1) with 2. lia. }
    assert (Hmod : Z.pos p mod 2 ^ (Z.pos k - 1) = 0).
    { rewrite Hs. replace (Z.pos k) with (1 + (Z.pos k - 1)) at 1 by lia.
      rewrite Z.pow_add_r, Z.mul_assoc by lia. apply Z.mod_mul. lia. }
    rewrite Hdiv, Hdiv', Hmod in H.
    rewrite Z.odd_mul in H. cbn [Z.odd andb negb Z.eqb] in H.
    unfold rne in H. cbn [loc_of_shr_record round_nearest_even] in H.
    rewrite H; [f_equal; lia| |lia|lia].
    rewrite Hs. replace (52 + Z.pos k) with (52 + Z.pos k) by lia.
    rewrite !Z.pow_add_r by lia.
    assert (0 < 2 ^ Z.pos k) by (apply Z.pow_pos_nonneg; lia). nia.
  - (* fewer than 53 digits: a shift to the left *)
    rewrite bra_noshift; cbn [round_nearest_even];
      rewrite ?pos_iter_xO, ?Hp.
    + f_equal. unfold significand. fold d.
      rewrite <- Z.mul_assoc, <- Z.pow_add_r by lia.
      f_equal. f_equal. f_equal. lia.
    + replace (N * 2 ^ t * 2 ^ Z.pos k) with (significand N); [lia|].
      unfold significand. fold d.
      rewrite <- Z.mul_assoc, <- Z.pow_add_r by lia. f_equal. f_equal. lia.
    + lia.
    + replace (N * 2 ^ t * 2 ^ Z.pos k) with (significand N); [lia|].
      unfold significand. fold d.
      rewrite <- Z.mul_assoc, <- Z.pow_add_r by lia. f_equal. f_equal. lia.
Qed.

Lemma binary_normalize_scaled (n t : Z) :
  Z.abs n < 2 ^ 53 -> 0 <= t <= 900 ->
  binary_normalize prec emax (n * 2 ^ t) (- t) false = SFint n.
Proof.
  intros Hn Ht. unfold SFint.
  assert (H2t : 0 < 2 ^ t) by (apply Z.pow_pos_nonneg; lia).
  destruct (Z.eqb_spec n 0) as [->|Hn0]; [reflexivity|].
  destruct (n * 2 ^ t) as [|p|p] eqn:Hp; [nia| |]; cbn [binary_normalize].
  - replace (n <? 0) with false by (symmetry; apply Z.ltb_ge; nia).
    apply binary_round_scaled; [lia|lia|]. rewrite Z.abs_eq by nia. lia.
  - replace (n <? 0) with true by (symmetry; apply Z.ltb_lt; nia).
    apply binary_round_scaled; [lia|lia|]. rewrite Z.abs_neq by nia. lia.
Qed.

Lemma binary_normalize_int (n : Z) :
  Z.abs n < 2 ^ 53 -> binary_normalize prec emax n 0 false = SFint n.
Proof.
  intros Hn. rewrite <- (binary_normalize_scaled n 0) by lia.
  f_equal. change (2 ^ 0) with 1. lia.
Qed.

Lemma SFopp_int (n : Z) : SFopp (SFint n) = if n =? 0 then S754_zero true else SFint (- n).
Proof.
  unfold SFint. destruct (Z.eqb_spec n 0) as [->|Hn]; [reflexivity|].
  destruct (Z.eqb_spec (- n) 0); [lia|].
  cbn [SFopp]. rewrite Z.abs_opp.
  replace (- n <? 0) with (negb (n <? 0)); [reflexivity|].
  destruct (Z.ltb_spec n 0), (Z.ltb_spec (- n) 0); cbn; lia.
Qed.

(** The mantissa of a canonical integer, aligned on a smaller exponent. *)
Lemma shl_align_int (N ez : Z) :
  0 < N < 2 ^ 53 -> ez <= digits N - 53 -> -900 <= ez ->
  Z.pos (shl_align (Z.to_pos (significand N)) (digits N - 53) ez).1 = N * 2 ^ (- ez).
Proof.
  intros HN Hez Hlo.
  pose proof (significand_normal N HN) as Hsig. unfold is_normal in Hsig.
  pose proof (digits_le_53 N HN).
  unfold shl_align.
  destruct (ez - (digits N - 53)) as [|k|k] eqn:Hk; cbn [fst]; try lia.
  - rewrite Z2Pos.id by lia. unfold significand. f_equal. f_equal. lia.
  - rewrite pos_iter_xO, Z2Pos.id by lia. unfold significand.
    rewrite <- Z.mul_assoc, <- Z.pow_add_r by lia. f_equal. f_equal. lia.
Qed.

(** Addition is exact on integers below [2^52]. *)
Lemma SFadd_int (i j : Z) :
  Z.abs i < 2 ^ 52 -> Z.abs j < 2 ^ 52 ->
  SFadd prec emax (SFint i) (SFint j) = SFint (i + j).
Proof.
  intros Hi Hj.
  destruct (Z.eq_dec i 0) as [->|Hi0].
  { unfold SFint at 1. cbn [Z.eqb]. rewrite Z.add_0_l.
    unfold SFint. destruct (j =? 0); reflexivity. }
  destruct (Z.eq_dec j 0) as [->|Hj0].
  { unfold SFint at 2. cbn [Z.eqb]. rewrite Z.add_0_r.
    unfold SFint. destruct (Z.eqb_spec i 0); [lia|reflexivity]. }
  unfold SFint at 1 2.
  destruct (Z.eqb_spec i 0); [lia|]. destruct (Z.eqb_spec j 0); [lia|].
  cbn [SFadd].
  pose proof (digits_bounds (Z.abs i) ltac:(lia)) as (Hdi & _).
  pose proof (digits_bounds (Z.abs j) ltac:(lia)) as (Hdj & _).
  pose proof (digits_le_53 (Z.abs i) ltac:(lia)).
  pose proof (digits_le_53 (Z.abs j) ltac:(lia)).
  set (ez := Z.min (digits (Z.abs i) - 53) (digits (Z.abs j) - 53)).
  rewrite !shl_align_int by (subst ez; lia).
  assert (H2 : 0 < 2 ^ (- ez)) by (apply Z.pow_pos_nonneg; subst ez; lia).
  replace (cond_Zopp (i <? 0) (Z.abs i * 2 ^ (- ez)) +
           cond_Zopp (j <? 0) (Z.abs j * 2 ^ (- ez)))
    with ((i + j) * 2 ^ (- ez)).
  - replace ez with (- (- ez)) at 2 by lia.
    apply binary_normalize_scaled; subst ez; lia.
  - unfold cond_Zopp.
    destruct (Z.ltb_spec i 0), (Z.ltb_spec j 0);
      rewrite ?(Z.abs_eq i), ?(Z.abs_neq i), ?(Z.abs_eq j), ?(Z.abs_neq j) by lia;
      ring.
Qed.

(** ** Primitive floats *)

Lemma Prim2SF_float_of_Z (n : Z) :
  Z.abs n < 2 ^ 53 -> Prim2SF (float_of_Z n) = SFint n.
Proof.
  intros Hn. unfold float_of_Z.
  assert (Habs : Prim2SF (of_uint63 (Uint63.of_Z (Z.abs n))) = SFint (Z.abs n)).
  { rewrite of_uint63_spec, Uint63.of_Z_spec.
    rewrite Z.mod_small by (change Uint63.wB with (2 ^ 63); lia).
    apply binary_normalize_int. lia. }
  destruct (Z.ltb_spec n 0).
  - rewrite opp_spec, Habs, SFopp_int.
    destruct (Z.eqb_spec (Z.abs n) 0); [lia|]. f_equal. lia.
  - rewrite Habs. f_equal. lia.
Qed.

Lemma SFint_finite (n : Z) :
  n <> 0 -> Z.abs n < 2 ^ 53 ->
  exists m e, SFint n = S754_finite (n <? 0) m e /\
    Z.pos m = significand (Z.abs n) /\ e = digits (Z.abs n) - 53 /\
    is_normal (Z.pos m) /\ -52 <= e <= 0.
Proof.
  intros Hn0 Hn. unfold SFint. destruct (Z.eqb_spec n 0); [lia|].
  pose proof (significand_normal (Z.abs n) ltac:(lia)) as Hs.
  pose proof (digits_le_53 (Z.abs n) ltac:(lia)).
  pose proof (digits_bounds (Z.abs n) ltac:(lia)) as (Hd & _).
  exists (Z.to_pos (significand (Z.abs n))), (digits (Z.abs n) - 53).
  unfold is_normal in *. rewrite Z2Pos.id by lia. repeat split; lia.
Qed.

(** [10 * (n / 10)] is [n] again. *)
Lemma mul_ten_tenths (n : Z) :
  Z.abs n < 2 ^ 52 -> (10 * tenths n)%float = float_of_Z n.
Proof.
  intros Hn. apply Prim2SF_inj. unfold tenths.
  rewrite mul_spec, div_spec, Prim2SF_ten, Prim2SF_float_of_Z by lia.
  unfold SF64mul, SF64div.
  destruct (Z.eq_dec n 0) as [->|Hn0]; [reflexivity|].
  destruct (SFint_finite n Hn0 ltac:(lia)) as (m & e & -> & Hm & He & Hnorm & Hrange).
  apply kahan_ten; [exact Hnorm| |lia].
  rewrite Hm. apply significand_even. lia.
Qed.

Lemma add_int (i j : Z) :
  Z.abs i < 2 ^ 52 -> Z.abs j < 2 ^ 52 ->
  (float_of_Z i + float_of_Z j)%float = float_of_Z (i + j).
Proof.
  intros Hi Hj. apply Prim2SF_inj.
  rewrite add_spec, !Prim2SF_float_of_Z by lia.
  apply SFadd_int; assumption.
Qed.

Lemma math_round_int (n : Z) :
  Z.abs n < 2 ^ 53 -> math_round (float_of_Z n) = float_of_Z n.
Proof.
  intros Hn. unfold math_round. rewrite Prim2SF_float_of_Z by exact Hn.
  destruct (Z.eq_dec n 0) as [->|Hn0]; [reflexivity|].
  destruct (SFint_finite n Hn0 Hn) as (m & e & -> & Hm & He & Hnorm & Hrange).
  destruct (Z.leb_spec 0 e); [reflexivity|].
  cbv zeta.
  assert (H2 : 0 < 2 ^ (- e)) by (apply Z.pow_pos_nonneg; lia).
  assert (Hnum : (if n <? 0 then - Z.pos m else Z.pos m) = n * 2 ^ (- e)).
  { rewrite Hm. unfold significand.
    replace (53 - digits (Z.abs n)) with (- e) by lia.
    destruct (Z.ltb_spec n 0); [rewrite Z.abs_neq by lia|rewrite Z.abs_eq by lia]; ring. }
  rewrite Hnum.
  replace (2 * (n * 2 ^ (- e)) + 2 ^ (- e)) with ((2 * n + 1) * 2 ^ (- e)) by ring.
  rewrite Z.pow_add_r, Z.pow_1_r by lia.
  rewrite (Z.mul_comm (2 ^ (- e)) 2), Z.div_mul_cancel_r by lia.
  replace ((2 * n + 1) / 2) with n by (Z.div_mod_to_equations; lia).
  destruct (Z.eqb_spec n 0); [lia|reflexivity].
Qed.

(** The recomputed total of two numbers at 0.1 resolution is the number at
    0.1 resolution of their sum. *)
Theorem rounded_sum_tenths (a b : Z) :
  Z.abs a < 2 ^ 52 -> Z.abs b < 2 ^ 52 ->
  V5.rounded_sum (tenths a) (tenths b) = tenths (a + b).
Proof.
  intros Ha Hb. unfold V5.rounded_sum.
  rewrite !mul_ten_tenths, add_int, math_round_int by lia.
  reflexivity.
Qed.

Lemma Prim2SF_one :
  Prim2SF 1%float = S754_finite false one_m (-52) /\
  Prim2SF (-1)%float = S754_finite true one_m (-52).
Proof. split; reflexivity. Qed.

(** Multiplication by 1 or -1 only touches the sign of a normal number. *)
Lemma SFmul_one (s1 s : bool) (q : positive) (E : Z) :
  is_normal (Z.pos q) -> -900 <= E <= 900 ->
  SFmul prec emax (S754_finite s1 one_m (-52)) (S754_finite s q E) =
    S754_finite (xorb s1 s) q E /\
  SFmul prec emax (S754_finite s q E) (S754_finite s1 one_m (-52)) =
    S754_finite (xorb s s1) q E.
Proof.
  intros Hq HE. unfold is_normal in Hq.
  assert (H : forall sx X E', X = Z.pos q * 2 ^ 52 -> E' = E - 52 ->
             binary_round_aux prec emax sx X E' loc_Exact = S754_finite sx q E).
  { intros sx X E' -> ->.
    pose proof (bra_shift sx (Z.pos q * 2 ^ 52) (E - 52) 52 loc_Exact) as H.
    cbn [loc_r loc_s shr_record_of_loc shr_r shr_s orb] in H.
    replace (Z.pos q * 2 ^ 52 / 2 ^ Z.pos 52) with (Z.pos q) in H
      by (symmetry; apply Z.div_mul; lia).
    replace (Z.pos q * 2 ^ 52 / 2 ^ (Z.pos 52 - 1)) with (2 * Z.pos q) in H
      by (change (2 ^ 52) with (2 * 2 ^ (Z.pos 52 - 1));
          rewrite Z.mul_assoc, Z.div_mul by lia; lia).
    replace ((Z.pos q * 2 ^ 52) mod 2 ^ (Z.pos 52 - 1)) with 0 in H
      by (change (2 ^ 52) with (2 * 2 ^ (Z.pos 52 - 1));
          rewrite Z.mul_assoc, Z.mod_mul by lia; reflexivity).
    rewrite Z.odd_mul in H. cbn [Z.odd andb negb Z.eqb] in H.
    unfold rne in H. cbn [loc_of_shr_record round_nearest_even] in H.
    rewrite H; [rewrite Pos2Z.id; f_equal; lia| |lia|lia].
    change (2 ^ (52 + Z.pos 52)) with (2 ^ 52 * 2 ^ 52).
    change (2 ^ (53 + Z.pos 52)) with (2 ^ 53 * 2 ^ 52). nia. }
  unfold SFmul. split; apply H;
    rewrite ?Pos2Z.inj_mul; change (Z.pos one_m) with (2 ^ 52); lia.
Qed.

(** A nonzero number at 0.1 resolution is normal; its opposite has the same
    significand and exponent. *)
Lemma tenths_finite (n : Z) :
  n <> 0 -> Z.abs n < 2 ^ 52 ->
  exists q E, is_normal (Z.pos q) /\ -60 <= E <= 0 /\
    Prim2SF (tenths n) = S754_finite (n <? 0) q E /\
    Prim2SF (tenths (- n)) = S754_finite (negb (n <? 0)) q E.
Proof.
  intros Hn0 Hn. unfold tenths.
  rewrite !div_spec, Prim2SF_ten, !Prim2SF_float_of_Z by lia.
  unfold SF64div.
  destruct (SFint_finite n Hn0 ltac:(lia)) as (m & e & -> & Hm & He & Hnorm & Hrange).
  destruct (SFint_finite (- n) ltac:(lia) ltac:(lia)) as (m' & e' & -> & Hm' & He' & _ & _).
  rewrite Z.abs_opp in Hm', He'.
  assert (m' = m) as -> by lia. assert (e' = e) as -> by lia.
  replace (- n <? 0) with (negb (n <? 0))
    by (destruct (Z.ltb_spec n 0), (Z.ltb_spec (- n) 0); cbn; lia).
  rewrite !SFdiv_ten by (first [exact Hnorm | lia]).
  cbv zeta.
  pose proof (Z.div_mod (8 * Z.pos m) 5 ltac:(lia)) as Hq.
  pose proof (Z.mod_pos_bound (8 * Z.pos m) 5 ltac:(lia)) as Hrho.
  destruct (Z.ltb_spec (Z.pos m) (5 * 2 ^ 50)) as [Hlt|Hge].
  - destruct (kahan_arith_A _ _ _ Hnorm Hlt Hq Hrho) as (HQ & _ & _).
    eexists _, _. split; [|split; [|split; reflexivity]].
    + rewrite Z2Pos.id by (unfold is_normal in HQ; lia). exact HQ.
    + lia.
  - assert (HQ : is_normal (rne (8 * Z.pos m / 5 / 2) (Z.odd (8 * Z.pos m / 5))
                              (negb ((8 * Z.pos m) mod 5 =? 0)))).
    { unfold is_normal in *. rewrite rne_cases.
      bool_arith; Z.div_mod_to_equations; lia. }
    eexists _, _. split; [|split; [|split; reflexivity]].
    + rewrite Z2Pos.id by (unfold is_normal in HQ; lia). exact HQ.
    + lia.
Qed.

Lemma tenths_mul_sign (n : Z) :
  Z.abs n < 2 ^ 52 ->
  (1 * tenths n)%float = tenths n /\
  (tenths n * 1)%float = tenths n /\
  (n <> 0 ->
   (-1 * tenths n)%float = tenths (- n) /\
   (tenths n * -1)%float = tenths (- n)).
Proof.
  intros Hn.
  destruct (Z.eq_dec n 0) as [->|Hn0].
  { repeat split; try reflexivity; intros; lia. }
  destruct (tenths_finite n Hn0 Hn) as (q & E & Hq & HE & Hx & Hy).
  destruct Prim2SF_one as [H1 Hm1].
  repeat split; intros; apply Prim2SF_inj;
    rewrite mul_spec, ?Hx, ?Hy, ?H1, ?Hm1; unfold SF64mul.
  - rewrite (proj1 (SFmul_one false (n <? 0) q E Hq ltac:(lia))). reflexivity.
  - rewrite (proj2 (SFmul_one false (n <? 0) q E Hq ltac:(lia))).
    rewrite xorb_false_r. reflexivity.
  - rewrite (proj1 (SFmul_one true (n <? 0) q E Hq ltac:(lia))). reflexivity.
  - rewrite (proj2 (SFmul_one true (n <? 0) q E Hq ltac:(lia))).
    rewrite xorb_true_r. reflexivity.
Qed.

Lemma float_of_Z_eqb_zero (n : Z) :
  Z.abs n < 2 ^ 53 -> (float_of_Z n =? 0)%float = (n =? 0).
Proof.
  intros Hn. rewrite FloatAxioms.eqb_spec, Prim2SF_float_of_Z by exact Hn.
  change (Prim2SF 0%float) with (S754_zero false).
  unfold SFint. destruct (n =? 0); [reflexivity|].
  unfold SFeqb, SFcompare. destruct (n <? 0); reflexivity.
Qed.

(** ** The combined total at 0.1 resolution *)

Lemma tenths_zero : tenths 0 = 0%float.
Proof. reflexivity. Qed.

(** What a flush does to the published powers: the one of the other channel
    is kept; the one of the flushed channel is kept, or becomes the signed
    value of the emitted power. *)
Lemma V5_flush_all_pub x priv options :
  let out := V5.pj1203aFlushAll ∅ x priv options in
  V5.get_pub_power (other x) out.2 = V5.get_pub_power (other x) priv /\
  (V5.get_pub_power x out.2 = V5.get_pub_power x priv \/
   exists s pw, V5.get_sign x priv = Some s /\ V5.get_power x priv = Some pw /\
     V5.get_pub_power x out.2 =
       Some (if truthy (V5.pj1203aGetSignedPower options x)
             then (s * pw * 1)%float
             else (pw * (if (0 <? s)%float then 1 else -1))%float)).
Proof.
  unfold V5.pj1203aFlushAll.
  destruct (V5.get_sign x priv) as [s|] eqn:Hs;
    [|split; [|left]; v5_destruct priv; destruct x; reflexivity].
  destruct (V5.get_power x priv) as [pw|] eqn:Hp;
    [|split; [|left]; v5_destruct priv; destruct x; reflexivity].
  destruct (V5.get_current x priv) as [cu|] eqn:Hc;
    [|split; [|left]; v5_destruct priv; destruct x; reflexivity].
  destruct (V5.get_power_factor x priv) as [pf|] eqn:Hf;
    [|split; [|left]; v5_destruct priv; destruct x; reflexivity].
  cbv zeta. split; [|right; exists s, pw; split; [reflexivity|split; [reflexivity|]]];
    destruct (truthy (V5.pj1203aGetSignedPower options x));
    try destruct (0 <? s)%float;
    v5_destruct priv; destruct x; v5_red;
    unfold V5.pj1203aRecomputePowerAb; destruct ua, ub;
    vm_compute; reflexivity.
Qed.

(** The signed value that a flush publishes for a buffered sign and power is
    at 0.1 resolution, in signed and in unsigned mode. *)
Lemma signed_value_at_resolution (signed : bool) (s pw : float) (n : Z) :
  pw = tenths n ->
  (s = 1%float /\ 0 <= n < 2 ^ 52) \/ (s = (-1)%float /\ 0 < n < 2 ^ 52) ->
  exists m, Z.abs m < 2 ^ 52 /\
    (if signed then (s * pw * 1)%float
     else (pw * (if (0 <? s)%float then 1 else -1))%float) = tenths m.
Proof.
  intros -> [[-> Hn]|[-> Hn]].
  - exists n. split; [lia|].
    destruct (tenths_mul_sign n ltac:(lia)) as (H1 & H2 & _).
    destruct signed.
    + rewrite H1. exact H2.
    + change (0 <? 1)%float with true. exact H2.
  - exists (- n). split; [lia|].
    destruct (tenths_mul_sign n ltac:(lia)) as (_ & _ & H).
    destruct (H ltac:(lia)) as [H3 H4].
    destruct signed.
    + rewrite H3. apply (tenths_mul_sign (- n)). lia.
    + change (0 <? -1)%float with false. exact H4.
Qed.

Lemma channel_cases (x c : channel) : c = x \/ c = other x.
Proof. destruct x, c; auto. Qed.

(** A flush attempt on a ready state gives a resolution state. *)
Lemma V5_flush_all_resolution x priv options :
  V5_flush_ready x priv ->
  V5_resolution_state (V5.pj1203aFlushAll ∅ x priv options).2.
Proof.
  intros (Hpub & Hother & Hx).
  pose proof (V5_flush_all_pub x priv options) as Hp. cbv zeta in Hp.
  pose proof (V5_flush_all_state ∅ x priv options) as Hst.
  destruct (V5.pj1203aFlushAll ∅ x priv options) as [[ok r] p'].
  cbn [fst snd] in *. destruct Hp as [Hpo Hpx].
  intros c. split; [|split].
  - rewrite Hst. destruct (channel_cases x c) as [->| ->].
    + intros s Hs. v5_destruct priv; destruct x; discriminate.
    + assert (Hc : other x <> x) by (destruct x; discriminate).
      destruct (Hother _ Hc) as [H _].
      v5_destruct priv; destruct x; exact H.
  - rewrite Hst. destruct (channel_cases x c) as [->| ->].
    + intros s Hs. v5_destruct priv; destruct x; discriminate.
    + assert (Hc : other x <> x) by (destruct x; discriminate).
      destruct (Hother _ Hc) as [_ H].
      v5_destruct priv; destruct x; exact H.
  - destruct (channel_cases x c) as [->| ->].
    + destruct Hpx as [->|(s & pw & Hs & Hw & ->)]; [apply Hpub|].
      intros f [= <-].
      destruct (Hx s pw Hs Hw) as (n & Hn & Hcase).
      eapply signed_value_at_resolution; eauto.
    + rewrite Hpo. apply Hpub.
Qed.

(** Resolution states only constrain signs, powers and published powers. *)
Lemma V5_resolution_frame p p' :
  (forall c, V5.get_sign c p' = V5.get_sign c p /\
             V5.get_power c p' = V5.get_power c p /\
             V5.get_pub_power c p' = V5.get_pub_power c p) ->
  V5_resolution_state p -> V5_resolution_state p'.
Proof. intros H Hp c. destruct (H c) as (-> & -> & ->). apply Hp. Qed.

Lemma V5_flush_ready_intro x p p' :
  V5_resolution_state p ->
  (forall c, V5.get_pub_power c p' = V5.get_pub_power c p) ->
  V5.get_sign (other x) p' = V5.get_sign (other x) p ->
  V5.get_power (other x) p' = V5.get_power (other x) p ->
  (forall s pw, V5.get_sign x p' = Some s -> V5.get_power x p' = Some pw ->
     exists n, pw = tenths n /\
       ((s = 1%float /\ 0 <= n < 2 ^ 52) \/ (s = (-1)%float /\ 0 < n < 2 ^ 52))) ->
  V5_flush_ready x p'.
Proof.
  intros Hp Hpub Hs Hw Hx. split; [|split]; [| |exact Hx].
  - intros c. rewrite Hpub. apply Hp.
  - intros c Hc. assert (c = other x) as -> by (destruct x, c; try reflexivity; congruence).
    rewrite Hs, Hw. split; apply Hp.
Qed.

(** The buffered sign and power of a resolution state. *)
Lemma V5_resolution_buffer x p s pw :
  V5_resolution_state p ->
  (s = 1%float \/ s = (-1)%float) ->
  V5.get_power x p = Some pw ->
  exists n, pw = tenths n /\
    ((s = 1%float /\ 0 <= n < 2 ^ 52) \/ (s = (-1)%float /\ 0 < n < 2 ^ 52)).
Proof.
  intros Hp Hs Hw. destruct (Hp x) as (_ & Hpos & _).
  destruct (Hpos pw Hw) as (n & Hn & ->).
  exists n. split; [reflexivity|]. destruct Hs; [left|right]; split; auto; lia.
Qed.

Ltac v5_flush_resolution :=
  match goal with
  | |- context [V5.pj1203aFlushAll ∅ ?x ?p ?o] =>
      let H := fresh "Hflush" in
      pose proof (V5_flush_all_resolution x p o) as H;
      destruct (V5.pj1203aFlushAll ∅ x p o) as [[? ?] ?];
      cbn [fst snd] in H |- *
  end.

(** Buffering a direction code keeps the state ready for a flush. *)
Lemma V5_set_sign_resolution x v priv :
  V5_resolution_state priv ->
  let priv1 :=
    V5.set_sign x (Some (if (v =? 1)%float then (-1)%float else 1%float)) priv in
  V5_resolution_state priv1 /\ V5_flush_ready x priv1.
Proof.
  intros Hp priv1.
  assert (Hsign : forall s, V5.get_sign x priv1 = Some s ->
                            s = 1%float \/ s = (-1)%float).
  { intros s. subst priv1. v5_destruct priv; destruct x; v5_red;
      intros [= <-]; destruct (v =? 1)%float; auto. }
  split.
  - intros c. destruct (Hp c) as (H1 & H2 & H3).
    destruct (channel_cases x c) as [-> | ->].
    + split; [exact Hsign|]. subst priv1.
      v5_destruct priv; destruct x; split; assumption.
    + subst priv1. v5_destruct priv; destruct x; repeat split; assumption.
  - apply (V5_flush_ready_intro x priv); try assumption;
      try (subst priv1; v5_destruct priv; try intros []; destruct x; reflexivity).
    intros s pw Hs Hw. apply (V5_resolution_buffer x priv); auto.
    subst priv1. v5_destruct priv; destruct x; exact Hw.
Qed.

Ltac v5_field :=
  clear; v5_destruct_all; reflexivity.

(** The nullified flush and the zero shortcut, from a state that differs from
    a resolution state in the buffer of channel [x] only. *)
Lemma V5_flush_null_resolution x p p0 options now :
  V5_resolution_state p0 ->
  (forall c, V5.get_pub_power c p = V5.get_pub_power c p0) ->
  V5.get_sign (other x) p = V5.get_sign (other x) p0 ->
  V5.get_power (other x) p = V5.get_power (other x) p0 ->
  V5_resolution_state (V5.pj1203aFlushNull ∅ x p options now).2.
Proof.
  intros Hp0 Hpub Hs Hw. unfold V5.pj1203aFlushNull.
  v5_flush_resolution. apply Hflush.
  apply (V5_flush_ready_intro x p0); [assumption|..].
  - intros c. rewrite <- Hpub. v5_field.
  - rewrite <- Hs. v5_field.
  - rewrite <- Hw. v5_field.
  - intros s pw Hsx. exfalso. revert Hsx. clear.
    v5_destruct_all; discriminate.
Qed.

Lemma V5_flush_zero_resolution x p p0 options now :
  V5_resolution_state p0 ->
  (forall c, V5.get_pub_power c p = V5.get_pub_power c p0) ->
  V5.get_sign (other x) p = V5.get_sign (other x) p0 ->
  V5.get_power (other x) p = V5.get_power (other x) p0 ->
  V5_resolution_state (V5.pj1203aFlushZero ∅ x p options now).2.
Proof.
  intros Hp0 Hpub Hs Hw. unfold V5.pj1203aFlushZero.
  v5_flush_resolution. apply Hflush.
  apply (V5_flush_ready_intro x p0); [assumption|..].
  - intros c. rewrite <- Hpub. v5_field.
  - rewrite <- Hs. v5_field.
  - rewrite <- Hw. v5_field.
  - intros s pw Hsx Hwx. exists 0. rewrite tenths_zero.
    revert Hsx Hwx. clear.
    v5_destruct_all; intros [= <-] [= <-]; (split; [reflexivity|left; split; [reflexivity|lia]]).
Qed.

Lemma V5_set_power_resolution x n priv :
  0 < n < 2 ^ 52 ->
  V5_resolution_state priv ->
  V5_resolution_state (V5.set_power x (Some (tenths n)) priv).
Proof.
  intros Hn Hp c. destruct (Hp c) as (H1 & H2 & H3).
  destruct (channel_cases x c) as [-> | ->].
  - split; [|split].
    + revert H1. clear. v5_destruct_all; auto.
    + intros f Hf. exists n. split; [exact Hn|].
      revert Hf. clear. v5_destruct_all; intros [= <-]; reflexivity.
    + revert H3. clear. v5_destruct_all; auto.
  - revert H1 H2 H3. clear. v5_destruct_all; auto.
Qed.

(** Writes to the other fields keep a resolution state one. *)
Ltac v5_resolution_frame :=
  match goal with
  | |- V5_resolution_state (?f ?x ?v ?q) =>
      apply (V5_resolution_frame q); [intros c; repeat split; v5_field|]
  end.

Ltac v5_call_resolution lemma :=
  match goal with
  | |- context [?f ∅ ?x ?p ?o ?n] =>
      let H := fresh "Hcall" in
      pose proof (lemma x p) as H;
      destruct (f ∅ x p o n) as [? ?];
      cbn [fst snd] in H |- *
  end.

Lemma V5_zero_branch_resolution x p p0 options now (b : bool) :
  V5_resolution_state p0 ->
  (forall c, V5.get_pub_power c p = V5.get_pub_power c p0) ->
  V5.get_sign (other x) p = V5.get_sign (other x) p0 ->
  V5.get_power (other x) p = V5.get_power (other x) p0 ->
  V5_resolution_state
    (if b then V5.pj1203aFlushNull ∅ x p options now
     else V5.pj1203aFlushZero ∅ x p options now).2.
Proof.
  intros. destruct b;
    [eapply V5_flush_null_resolution|eapply V5_flush_zero_resolution]; eauto.
Qed.

(** A power datapoint with a raw reading buffers a number at 0.1 resolution,
    or goes through one of the two zero branches. *)
Lemma V5_power_resolution x v priv options now :
  raw_reading v ->
  V5_resolution_state priv ->
  V5_resolution_state (V5.valueConverters.power x v priv options now).2 /\
  V5_resolution_state (V3.valueConverters.power x v priv options now).2.
Proof.
  intros (n & Hn & ->) Hp.
  unfold V5.valueConverters.power, V3.valueConverters.power,
    V3.PJ1203A_flush_zero.
  rewrite float_of_Z_eqb_zero by lia.
  destruct (n =? 0) eqn:En.
  - match goal with
    | |- context [V5.pj1203aFlushZero ∅ x ?p _ _] =>
        assert (Hpub : forall c, V5.get_pub_power c p = V5.get_pub_power c priv)
          by (intros c; v5_field);
        assert (Hs : V5.get_sign (other x) p = V5.get_sign (other x) priv)
          by v5_field;
        assert (Hw : V5.get_power (other x) p = V5.get_power (other x) priv)
          by v5_field;
        pose proof (fun b => V5_zero_branch_resolution x p priv options now b
                      Hp Hpub Hs Hw) as Hz
    end.
    split; [|apply (Hz false)].
    match goal with
    | |- context [if ?b then V5.pj1203aFlushNull _ _ _ _ _ else _] =>
        specialize (Hz b); destruct (if b then _ else _) as [r q]
    end.
    cbn [fst snd] in *. v5_resolution_frame. exact Hz.
  - assert (H : V5_resolution_state
                  (V5.set_timestamp x (Some now)
                     (V5.set_power x (Some (float_of_Z n / 10)%float) priv))).
    { v5_resolution_frame. apply (V5_set_power_resolution x n); [|exact Hp].
      apply Z.eqb_neq in En. lia. }
    split; cbn [snd]; [v5_resolution_frame|]; exact H.
Qed.

Lemma V5_current_resolution x v priv options now :
  V5_resolution_state priv ->
  V5_resolution_state (V5.valueConverters.current x v priv options now).2 /\
  V5_resolution_state (V3.valueConverters.current x v priv options now).2.
Proof.
  intros Hp.
  unfold V5.valueConverters.current, V3.valueConverters.current,
    V3.PJ1203A_flush_zero.
  destruct (v =? 0)%float.
  - match goal with
    | |- context [V5.pj1203aFlushZero ∅ x ?p _ _] =>
        assert (Hpub : forall c, V5.get_pub_power c p = V5.get_pub_power c priv)
          by (intros c; v5_field);
        assert (Hs : V5.get_sign (other x) p = V5.get_sign (other x) priv)
          by v5_field;
        assert (Hw : V5.get_power (other x) p = V5.get_power (other x) priv)
          by v5_field;
        pose proof (fun b => V5_zero_branch_resolution x p priv options now b
                      Hp Hpub Hs Hw) as Hz
    end.
    split; [|apply (Hz false)].
    match goal with
    | |- context [if ?b then V5.pj1203aFlushNull _ _ _ _ _ else _] =>
        specialize (Hz b); destruct (if b then _ else _) as [r q]
    end.
    cbn [fst snd] in *. v5_resolution_frame. exact Hz.
  - split; cbn [snd]; repeat v5_resolution_frame; exact Hp.
Qed.

Lemma V5_flush_attempt_resolution x p options (b : bool) :
  V5_resolution_state p ->
  V5_flush_ready x p ->
  V5_resolution_state
    (if b
     then let '(_, result, priv) := V5.pj1203aFlushAll ∅ x p options in
          (result, priv)
     else (∅, p)).2.
Proof.
  intros Hp Hr. destruct b; [|exact Hp].
  v5_flush_resolution. auto.
Qed.

Lemma V5_resolution_ready x p :
  V5_resolution_state p -> V5_flush_ready x p.
Proof.
  intros Hp. apply (V5_flush_ready_intro x p); auto.
  intros s pw Hs Hw. apply (V5_resolution_buffer x p); auto.
  destruct (Hp x) as (H & _). auto.
Qed.

(** The table entries with the identifier of each. *)
Ltac find_dp_cases_eq E :=
  unfold find_dp in E; cbn [List.find fst snd V5.tuyaDatapoints
    V3.tuyaDatapoints] in E;
  repeat match type of E with
  | context [if ?c then _ else _] => destruct c eqn:?
  end;
  cbn [fmap option_fmap option_map snd] in E; simplify_eq;
  repeat match goal with
  | H : (_ =? _) = true |- _ => apply Z.eqb_eq in H
  | H : (_ =? _) = false |- _ => clear H
  end.

(** Every converter of the tables maps resolution states to resolution
    states on integral datapoints. *)
Lemma V5_converters_resolution dp from v priv options now :
  find_dp V5.tuyaDatapoints dp = Some (Merged from) ->
  integral_dp dp v ->
  V5_resolution_state priv ->
  V5_resolution_state (from v priv options now).2.
Proof.
  intros E Hv Hp. find_dp_cases_eq E;
    try (apply V5_power_resolution; [apply Hv; auto|exact Hp]);
    try (apply V5_current_resolution; exact Hp);
    try exact Hp;
    apply V5_flush_attempt_resolution;
    first [ apply V5_set_sign_resolution; exact Hp
          | apply V5_resolution_ready; v5_resolution_frame; exact Hp
          | v5_resolution_frame; exact Hp ].
Qed.

Lemma V3_converters_resolution dp from v priv options now :
  find_dp V3.tuyaDatapoints dp = Some (Merged from) ->
  integral_dp dp v ->
  V5_resolution_state priv ->
  V5_resolution_state (from v priv options now).2.
Proof.
  intros E Hv Hp. find_dp_cases_eq E;
    try (apply V5_power_resolution; [apply Hv; auto|exact Hp]);
    try (apply V5_current_resolution; exact Hp);
    try exact Hp;
    apply V5_flush_attempt_resolution;
    first [ apply V5_set_sign_resolution; exact Hp
          | apply V5_resolution_ready; v5_resolution_frame; exact Hp
          | v5_resolution_frame; exact Hp ].
Qed.

Lemma V5_initial_resolution : V5_resolution_state V5.initial_state.
Proof. intros []; repeat split; intros f [=]. Qed.

Lemma V5_track_sequence_resolution priv seq :
  V5_resolution_state priv ->
  V5_resolution_state (V5.track_sequence priv seq) /\
  V5_resolution_state (V3.track_sequence priv seq).
Proof.
  intros Hp. unfold V5.track_sequence, V3.track_sequence.
  assert (Hc : V5_resolution_state (V5.clear_pending priv) /\
               V5_resolution_state (V3.clear_pending priv)).
  { split; intros c; destruct (Hp c) as (_ & _ & H);
      (split; [destruct c; intros f [=]|];
       split; [destruct c; intros f [=]|]);
      revert H; clear; v5_destruct_all; auto. }
  destruct Hc as [Hc5 Hc3].
  split;
    match goal with |- context [if ?b then _ else _] => destruct b end;
    match goal with
    | |- V5_resolution_state (V5.set_last_seq _ ?q) =>
        apply (V5_resolution_frame q); [intros c; repeat split; v5_field|]
    end; assumption.
Qed.

(** The recomputed total of a resolution state is exact. *)
Lemma power_ab_recomputed_exact result p :
  power_ab_recomputed result p ->
  V5_resolution_state p ->
  power_ab_exact result p.
Proof.
  intros Hr Hp y Hy.
  destruct (Hr y Hy) as (fa & fb & Ha & Hb & ->).
  destruct (Hp ChA) as (_ & _ & HA). destruct (Hp ChB) as (_ & _ & HB).
  destruct (HA fa Ha) as (a & Hal & ->).
  destruct (HB fb Hb) as (b & Hbl & ->).
  exists a, b. rewrite rounded_sum_tenths by assumption. auto.
Qed.

(** One message: the emitted total is exact and the state stays a resolution
    state. *)
Lemma V5_convert_exact store msg options now :
  (forall p, store = Some p -> V5_resolution_state p) ->
  integral_message msg ->
  let out := V5.convert store msg options now in
  power_ab_exact out.1 out.2 /\ V5_resolution_state out.2.
Proof.
  intros Hstore Hmsg. unfold V5.convert.
  set (priv := V5.track_sequence _ _).
  assert (Hp : V5_resolution_state priv).
  { apply V5_track_sequence_resolution.
    destruct store; [auto|apply V5_initial_resolution]. }
  pose proof (V5_dispatch_power_ab (dpValues msg) options now priv) as Hr.
  pose proof (datapoints_convert_invariant_on integral_dp V5_resolution_state
                V5.tuyaDatapoints options now
                (fun dp from v p E => V5_converters_resolution dp from v p options now E)
                (dpValues msg) ∅ priv Hmsg Hp) as Hi.
  destruct (datapoints_convert _ _ _ _ _ _) as [converted p'].
  cbn [fst snd] in *. cbv zeta. cbn [fst snd].
  unfold object_assign. rewrite (right_id_L ∅ (∪)) || rewrite (left_id_L ∅ (∪)).
  split; [apply power_ab_recomputed_exact|]; assumption.
Qed.

Lemma V3_convert_exact store msg options now :
  (forall p, store = Some p -> V5_resolution_state p) ->
  integral_message msg ->
  let out := V3.convert store msg options now in
  power_ab_exact out.1 out.2 /\ V5_resolution_state out.2.
Proof.
  intros Hstore Hmsg. unfold V3.convert, V3.PJ1203A_getPrivateState.
  set (priv := V3.track_sequence _ _).
  assert (Hp : V5_resolution_state priv).
  { apply V5_track_sequence_resolution.
    destruct store; [auto|apply V5_initial_resolution]. }
  pose proof (V3_dispatch_power_ab (dpValues msg) options now priv) as Hr.
  pose proof (datapoints_convert_invariant_on integral_dp V5_resolution_state
                V3.tuyaDatapoints options now
                (fun dp from v p E => V3_converters_resolution dp from v p options now E)
                (dpValues msg) ∅ priv Hmsg Hp) as Hi.
  destruct (datapoints_convert _ _ _ _ _ _) as [converted p'].
  cbn [fst snd] in *. cbv zeta. cbn [fst snd].
  unfold object_assign. rewrite (right_id_L ∅ (∪)) || rewrite (left_id_L ∅ (∪)).
  split; [apply power_ab_recomputed_exact|]; assumption.
Qed.

Lemma V5_process_exact msgs options : forall store,
  (forall p, store = Some p -> V5_resolution_state p) ->
  Forall (fun m => integral_message m.1) msgs ->
  Forall (fun out => power_ab_exact out.1 out.2) (V5_process store msgs options).
Proof.
  induction msgs as [|[msg now] rest IH]; intros store Hstore Hmsgs;
    [constructor|].
  apply Forall_cons in Hmsgs. destruct Hmsgs as [Hmsg Hrest].
  destruct (V5_convert_exact store msg options now Hstore Hmsg) as [He Hs].
  cbn [V5_process]. constructor; [exact He|].
  apply IH; [|exact Hrest]. intros p [= <-]. exact Hs.
Qed.

Lemma V3_process_exact msgs options : forall store,
  (forall p, store = Some p -> V5_resolution_state p) ->
  Forall (fun m => integral_message m.1) msgs ->
  Forall (fun out => power_ab_exact out.1 out.2) (V3_process store msgs options).
Proof.
  induction msgs as [|[msg now] rest IH]; intros store Hstore Hmsgs;
    [constructor|].
  apply Forall_cons in Hmsgs. destruct Hmsgs as [Hmsg Hrest].
  destruct (V3_convert_exact store msg options now Hstore Hmsg) as [He Hs].
  cbn [V3_process]. constructor; [exact He|].
  apply IH; [|exact Hrest]. intros p [= <-]. exact Hs.
Qed.

(** C5.  A device seen for the first time sends any sequence of messages
    whose power datapoints (101 and 105) carry whole numbers of tenths of a
    watt below 2^52 (Tuya values are 32-bit integers), under any options.
    Then in every emitted record that holds [power_ab], both published
    signed powers are present, they are the binary64 numbers [a / 10] and
    [b / 10] for integers [a] and [b], and [power_ab] is the binary64
    number [(a + b) / 10]: the correctly rounded quotient of the exact sum
    of the tenths, with no residue of the intermediate roundings of
    [Math.round(10 * pub_power_a + 10 * pub_power_b) / 10].  This holds for
    the v5 converter and for v3.  The recomputation itself maps the numbers
    at 0.1 resolution [a / 10] and [b / 10] to [(a + b) / 10]; on 79.8 and
    -37.1 it gives 42.7 where the direct sum does not. *)
Theorem recomputation_exact (msgs : list (message * string))
    (options : jsobject) :
  Forall (fun m => integral_message m.1) msgs ->
  Forall (fun out => power_ab_exact out.1 out.2)
    (V5_process None msgs options) /\
  Forall (fun out => power_ab_exact out.1 out.2)
    (V3_process None msgs options) /\
  (forall a b, Z.abs a < 2 ^ 52 -> Z.abs b < 2 ^ 52 ->
     V5.rounded_sum (tenths a) (tenths b) = tenths (a + b)) /\
  V5.rounded_sum 79.8%float (-37.1)%float = 42.7%float /\
  (79.8 + (-37.1) =? 42.7)%float = false.
Proof.
  intros Hmsgs. split; [|split; [|split; [|split]]].
  - apply V5_process_exact; [discriminate|exact Hmsgs].
  - apply V3_process_exact; [discriminate|exact Hmsgs].
  - exact rounded_sum_tenths.
  - reflexivity.
  - reflexivity.
Qed.

Lemma recomputation_exact_witness :
  Forall (fun m => integral_message m.1) two_channel_messages /\
  Forall (fun out => power_ab_exact out.1 out.2)
    (V5_process None two_channel_messages ∅) /\
  (List.last (V5_process None two_channel_messages ∅) (∅, V5.initial_state)).1
    !! "power_ab" = Some (JNum (tenths (798 + -371))).
Proof.
  assert (H : Forall (fun m => integral_message m.1) two_channel_messages).
  { repeat constructor; cbn; intros [H|H]; try discriminate H.
    - exists 798. split; [lia|reflexivity].
    - exists 371. split; [lia|reflexivity]. }
  split; [exact H|].
  split; [exact (proj1 (recomputation_exact two_channel_messages ∅ H))|].
  reflexivity.
Defined.

(** * Further properties of the converters *)

(** One goal for each element of a list. *)
Ltac split_forall :=
  repeat match goal with
  | |- Forall _ (_ :: _) => constructor
  | |- Forall _ [] => constructor
  end.

(** ** What a flush attempt gives *)

(** A flush attempt with one of the four fields missing emits nothing and
    only clears the buffer. *)
Lemma V5_flush_all_incomplete result x priv options :
  V5.get_sign x priv = None \/ V5.get_power x priv = None \/
  V5.get_current x priv = None \/ V5.get_power_factor x priv = None ->
  V5.pj1203aFlushAll result x priv options
  = (false, result, V5.clear_fields x priv).
Proof.
  intros H. unfold V5.pj1203aFlushAll.
  destruct (V5.get_sign x priv), (V5.get_power x priv),
    (V5.get_current x priv), (V5.get_power_factor x priv);
    try reflexivity.
  destruct H as [H|[H|[H|H]]]; discriminate.
Qed.

(** The recomputation, by the presence of the two power keys. *)
Lemma V5_recompute_spec result priv :
  V5.pj1203aRecomputePowerAb result priv =
  let priv1 :=
    if js_in "power_a" result
    then V5.set_pub_power ChA (Some (V5.published_signed_power result ChA)) priv
    else priv in
  let priv2 :=
    if js_in "power_b" result
    then V5.set_pub_power ChB (Some (V5.published_signed_power result ChB)) priv1
    else priv1 in
  (if js_in "power_a" result || js_in "power_b" result
   then with_total priv2 result else result, priv2).
Proof.
  unfold V5.pj1203aRecomputePowerAb, with_total.
  destruct (js_in "power_a" result), (js_in "power_b" result); cbn [orb];
    cbv zeta; repeat case_match; reflexivity.
Qed.

(** The power keys of the record of a channel. *)
Lemma channel_record_power_keys x signed s pw ts cu pf :
  js_in (key "power_" x) (channel_record x signed s pw ts cu pf) = true /\
  js_in (key "power_" (other x)) (channel_record x signed s pw ts cu pf) = false /\
  V5.published_signed_power (channel_record x signed s pw ts cu pf) x
  = signed_reading signed s pw.
Proof.
  unfold channel_record, signed_reading, V5.published_signed_power.
  destruct x, signed; try destruct (0 <? s)%float;
    (split; [|split]); vm_compute; reflexivity.
Qed.

Lemma V5_recompute_record x signed s pw ts cu pf priv :
  V5.pj1203aRecomputePowerAb (channel_record x signed s pw ts cu pf) priv =
  let priv' := V5.set_pub_power x (Some (signed_reading signed s pw)) priv in
  (with_total priv' (channel_record x signed s pw ts cu pf), priv').
Proof.
  rewrite V5_recompute_spec.
  destruct (channel_record_power_keys x signed s pw ts cu pf) as (H1 & H2 & H3).
  destruct x; cbn [other] in H2;
    change (key "power_" ChA) with "power_a" in *;
    change (key "power_" ChB) with "power_b" in *;
    rewrite H1, H2, H3; reflexivity.
Qed.

(** A flush attempt on a complete set emits the record of the channel, with
    the total when both channels have published, records the signed power
    and clears the buffer. *)
Lemma V5_flush_all_complete x priv options s pw cu pf :
  V5.get_sign x priv = Some s ->
  V5.get_power x priv = Some pw ->
  V5.get_current x priv = Some cu ->
  V5.get_power_factor x priv = Some pf ->
  let signed := truthy (V5.pj1203aGetSignedPower options x) in
  let priv' :=
    V5.set_pub_power x (Some (signed_reading signed s pw))
      (V5.clear_fields x priv) in
  V5.pj1203aFlushAll ∅ x priv options
  = (true,
     with_total priv'
       (channel_record x signed s pw (V5.get_timestamp x priv) cu pf),
     priv').
Proof.
  intros Hs Hw Hc Hf. unfold V5.pj1203aFlushAll.
  rewrite Hs, Hw, Hc, Hf. cbv zeta.
  assert (Ht : V5.get_timestamp x (V5.clear_fields x priv)
               = V5.get_timestamp x priv) by (v5_destruct priv; destruct x; reflexivity).
  rewrite Ht.
  match goal with
  | |- context [V5.pj1203aRecomputePowerAb ?r ?p] =>
      change r with (channel_record x (truthy (V5.pj1203aGetSignedPower options x))
                       s pw (V5.get_timestamp x priv) cu pf)
  end.
  rewrite V5_recompute_record. reflexivity.
Qed.

(** ** The time synchronisation command *)

Lemma seq_after_two_steps (s : Z) :
  0 <= s < 65536 ->
  (s + 256 + 256) mod 65536 = (s + 512) mod 65536 /\
  (s + 512) mod 65536 <> (s + 256) mod 65536 /\
  (s + 512) mod 65536 <> s /\
  (s + 512) mod 65536 <> s + 256.
Proof.
  intros Hs. replace (s + 256 + 256) with (s + 512) by lia.
  split; [reflexivity|].
  destruct (Z_lt_dec (s + 512) 65536) as [H|H].
  - rewrite (Z.mod_small (s + 512)) by lia.
    destruct (Z_lt_dec (s + 256) 65536);
      [rewrite (Z.mod_small (s + 256)) by lia; lia|lia].
  - assert (E : (s + 512) mod 65536 = s + 512 - 65536).
    { symmetry. apply (Z.mod_unique _ _ 1); lia. }
    rewrite E.
    destruct (Z_lt_dec (s + 256) 65536) as [H'|H'].
    + rewrite (Z.mod_small (s + 256)) by lia. lia.
    + assert (E' : (s + 256) mod 65536 = s + 256 - 65536).
      { symmetry. apply (Z.mod_unique _ _ 1); lia. }
      rewrite E'. lia.
Qed.

(** X1.  The device counts a time synchronisation command, which carries no
    sequence number.  From a state whose last sequence number [s] is a
    16-bit number, the data message numbered two increments after [s] is a
    gap when the command was not seen, and is in order after the handler of
    the command has run: the tracker then keeps the buffers and only
    records the new number.  The handler does not reduce [last_seq] modulo
    2^16; the comparison does.  This holds for the v5 converter (with the
    increment 256 of its state), for v3 and for the first converter of
    PJ-1203A.js (under [missing_message_detection]). *)
Theorem time_sync_keeps_order (p : V5.private_state) (q : V1.private_state)
    (options : jsobject) :
  0 <= V5.last_seq p < 65536 ->
  V5.seq_inc p = 256 ->
  0 <= V1.last_seq q < 65536 ->
  truthy (V1.PJ1203A_get_missing_message_detection options) = true ->
  let next := (V5.last_seq p + 512) mod 65536 in
  let next1 := (V1.last_seq q + 512) mod 65536 in
  (V5.gap_detected p next = true /\
   V5.in_order (V5.pj1203aIgnoreTuyaSetTime p) next = true /\
   V5.track_sequence (V5.pj1203aIgnoreTuyaSetTime p) next
   = V5.set_last_seq next p) /\
  (V3.gap_detected p next = true /\
   V3.track_sequence (V3.PJ1203A_ignore_tuya_set_time p) next
   = V5.set_last_seq next p) /\
  (V1.gap_detected q next1 = true /\
   V1.in_order (V1.PJ1203A_ignore_tuya_set_time q) next1 = true /\
   V1.track_sequence (V1.PJ1203A_ignore_tuya_set_time q) options next1
   = V1.set_last_seq next1 q).
Proof.
  intros Hp Hinc Hq Hdet next next1.
  destruct (seq_after_two_steps (V5.last_seq p) Hp) as (E & N1 & N2 & N3).
  destruct (seq_after_two_steps (V1.last_seq q) Hq) as (E1 & M1 & M2 & M3).
  fold next in E, N1, N2, N3. fold next1 in E1, M1, M2, M3.
  split; [|split].
  - assert (Hgap : V5.gap_detected p next = true).
    { unfold V5.gap_detected, V5.in_order, V5.duplicate.
      rewrite V5_expected_seq_mod, Hinc.
      rewrite andb_true_iff, !negb_true_iff, !Z.eqb_neq. auto. }
    assert (Hin : V5.in_order (V5.pj1203aIgnoreTuyaSetTime p) next = true).
    { unfold V5.in_order. rewrite V5_expected_seq_mod. apply Z.eqb_eq.
      unfold V5.pj1203aIgnoreTuyaSetTime. rewrite Hinc.
      v5_destruct p. v5_red. subst si. symmetry. exact E. }
    split; [exact Hgap|split; [exact Hin|]].
    unfold V5.track_sequence, V5.gap_detected. rewrite Hin. cbn [negb andb].
    unfold V5.pj1203aIgnoreTuyaSetTime. v5_destruct p. reflexivity.
  - assert (Hgap : V3.gap_detected p next = true).
    { unfold V3.gap_detected. rewrite V3_expected_seq_mod.
      rewrite andb_true_iff, !negb_true_iff, !Z.eqb_neq. auto. }
    split; [exact Hgap|].
    unfold V3.track_sequence, V3.gap_detected.
    rewrite V3_expected_seq_mod.
    replace (next =? _) with true.
    + cbn [negb andb]. unfold V3.PJ1203A_ignore_tuya_set_time.
      v5_destruct p. reflexivity.
    + symmetry. apply Z.eqb_eq. unfold V3.PJ1203A_ignore_tuya_set_time,
        V3.PJ1203A_SEQ_INCREMENT. v5_destruct p. v5_red. symmetry. exact E.
  - assert (Hgap : V1.gap_detected q next1 = true).
    { unfold V1.gap_detected, V1.in_order, V1.duplicate.
      rewrite V1_expected_seq_mod.
      rewrite andb_true_iff, !negb_true_iff, !Z.eqb_neq. auto. }
    assert (Hin : V1.in_order (V1.PJ1203A_ignore_tuya_set_time q) next1 = true).
    { unfold V1.in_order. rewrite V1_expected_seq_mod. apply Z.eqb_eq.
      unfold V1.PJ1203A_ignore_tuya_set_time, V1.PJ1203A_SEQ_INCREMENT.
      destruct q. cbn. symmetry. exact E1. }
    split; [exact Hgap|split; [exact Hin|]].
    unfold V1.track_sequence, V1.gap_detected. rewrite Hdet, Hin.
    cbn [negb andb].
    unfold V1.PJ1203A_ignore_tuya_set_time. destruct q. reflexivity.
Qed.

Lemma time_sync_keeps_order_witness :
  V5.last_seq (V5.pj1203aIgnoreTuyaSetTime wrapping_state) = 65536 /\
  V5.gap_detected wrapping_state 256 = true /\
  V5.track_sequence (V5.pj1203aIgnoreTuyaSetTime wrapping_state) 256
  = V5.set_last_seq 256 wrapping_state /\
  V1.track_sequence (V1.PJ1203A_ignore_tuya_set_time wrapping_state1)
    detection_options 256
  = V1.set_last_seq 256 wrapping_state1.
Proof.
  pose proof (time_sync_keeps_order wrapping_state wrapping_state1
                detection_options
                ltac:(split; [discriminate|reflexivity]) eq_refl
                ltac:(split; [discriminate|reflexivity]) eq_refl)
    as ((G5 & _ & T5) & _ & (_ & _ & T1)).
  split; [reflexivity|]. split; [exact G5|]. split; [exact T5|exact T1].
Defined.

(** ** Lookups in the record of a channel *)

Lemma js_in_assign (k : string) (result r : jsobject) :
  js_in k (object_assign result r) = js_in k r || js_in k result.
Proof.
  unfold js_in, object_assign.
  destruct (r !! k) as [v|] eqn:E.
  - rewrite (lookup_union_Some_l r result k v E). reflexivity.
  - rewrite (lookup_union_r r result k E).
    destruct (result !! k); reflexivity.
Qed.

Lemma js_get_assign (k : string) (result r : jsobject) :
  js_get (object_assign result r) k
  = if js_in k r then js_get r k else js_get result k.
Proof.
  unfold js_in, js_get, object_assign.
  destruct (r !! k) as [v|] eqn:E.
  - rewrite (lookup_union_Some_l r result k v E). reflexivity.
  - rewrite (lookup_union_r r result k E). reflexivity.
Qed.

Lemma with_total_lookup (p : V5.private_state) (r : jsobject) (k : string) :
  k <> "power_ab" -> with_total p r !! k = r !! k.
Proof.
  intros Hk. unfold with_total.
  destruct (V5.pub_power_a p), (V5.pub_power_b p); try reflexivity.
  apply lookup_insert_ne. congruence.
Qed.

Lemma with_total_in (p : V5.private_state) (r : jsobject) (k : string) :
  k <> "power_ab" -> js_in k (with_total p r) = js_in k r.
Proof. intros Hk. unfold js_in. rewrite with_total_lookup by exact Hk. reflexivity. Qed.

Lemma with_total_get (p : V5.private_state) (r : jsobject) (k : string) :
  k <> "power_ab" -> js_get (with_total p r) k = js_get r k.
Proof. intros Hk. unfold js_get. rewrite with_total_lookup by exact Hk. reflexivity. Qed.

(** The keys of the record of a channel: its own five, none of the other
    channel, and no total. *)
Lemma channel_record_keys x signed s pw ts cu pf :
  let r := channel_record x signed s pw ts cu pf in
  Forall (fun k => js_in k r = true) (channel_keys x) /\
  Forall (fun k => js_in k r = false) (channel_keys (other x)) /\
  js_in "power_ab" r = false.
Proof.
  unfold channel_record, channel_keys.
  destruct x, signed; cbn [other]; (split; [|split]);
    split_forall; vm_compute; reflexivity.
Qed.

Lemma channel_keys_not_total x k :
  In k (channel_keys x) -> k <> "power_ab".
Proof.
  destruct x; cbn; intros H; repeat destruct H as [<-|H]; try discriminate;
    contradiction.
Qed.

(** ** The outcome of every converter *)

Lemma with_total_ext (p q : V5.private_state) (r : jsobject) :
  (forall c, V5.get_pub_power c q = V5.get_pub_power c p) ->
  with_total q r = with_total p r.
Proof.
  intros H. unfold with_total.
  pose proof (H ChA) as Ha. pose proof (H ChB) as Hb.
  cbn [V5.get_pub_power] in Ha, Hb. rewrite Ha, Hb. reflexivity.
Qed.

(** The outcome only depends on the published powers of the states. *)
Lemma flush_outcome_frame x p0 p out q :
  flush_outcome x p0 out ->
  (forall c, V5.get_pub_power c p0 = V5.get_pub_power c p) ->
  (forall c, V5.get_pub_power c q = V5.get_pub_power c out.2) ->
  flush_outcome x p (out.1, q).
Proof.
  intros [[He Hpub]|(signed & s & pw & ts & cu & pf & Hr & Hx & Ho)] H0 Hq.
  - left. split; [exact He|]. intros c. cbn [snd].
    rewrite Hq, Hpub. apply H0.
  - right. exists signed, s, pw, ts, cu, pf. cbn [fst snd].
    rewrite (with_total_ext out.2 q) by exact Hq.
    rewrite !Hq, <- H0. auto.
Qed.

Lemma flush_outcome_idle x p q :
  (forall c, V5.get_pub_power c q = V5.get_pub_power c p) ->
  flush_outcome x p (∅, q).
Proof. intros H. left. split; [reflexivity|exact H]. Qed.

Lemma V5_flush_all_outcome x priv options :
  flush_outcome x priv
    ((V5.pj1203aFlushAll ∅ x priv options).1.2,
     (V5.pj1203aFlushAll ∅ x priv options).2).
Proof.
  destruct (V5.get_sign x priv) as [s|] eqn:Hs;
    [|rewrite V5_flush_all_incomplete by auto;
      apply flush_outcome_idle; intros c; v5_field].
  destruct (V5.get_power x priv) as [pw|] eqn:Hw;
    [|rewrite V5_flush_all_incomplete by auto;
      apply flush_outcome_idle; intros c; v5_field].
  destruct (V5.get_current x priv) as [cu|] eqn:Hc;
    [|rewrite V5_flush_all_incomplete by auto;
      apply flush_outcome_idle; intros c; v5_field].
  destruct (V5.get_power_factor x priv) as [pf|] eqn:Hf;
    [|rewrite V5_flush_all_incomplete by auto;
      apply flush_outcome_idle; intros c; v5_field].
  rewrite (V5_flush_all_complete x priv options s pw cu pf Hs Hw Hc Hf).
  cbv zeta. cbn [fst snd]. right.
  exists (truthy (V5.pj1203aGetSignedPower options x)), s, pw,
    (V5.get_timestamp x priv), cu, pf.
  split; [reflexivity|]. cbn [snd]. split; v5_field.
Qed.

Ltac v5_flush_outcome :=
  match goal with
  | |- context [V5.pj1203aFlushAll ∅ ?x ?p ?o] =>
      let H := fresh "Hout" in
      pose proof (V5_flush_all_outcome x p o) as H;
      destruct (V5.pj1203aFlushAll ∅ x p o) as [[? ?] ?];
      cbn [fst snd] in H
  end.

Lemma V5_converters_outcome x v priv options now :
  Forall (fun from => flush_outcome x priv (from v priv options now))
    [ V5.valueConverters.energy_flow x; V5.valueConverters.power x;
      V5.valueConverters.current x; V5.valueConverters.power_factor x;
      V3.valueConverters.energy_flow x; V3.valueConverters.power x;
      V3.valueConverters.current x; V3.valueConverters.power_factor x ].
Proof.
  split_forall; v5_unfold_converters; split_ifs;
    try v5_flush_outcome;
    first
      [ apply flush_outcome_idle; intros c; v5_field
      | eapply (flush_outcome_frame x _ priv (_, _)); [exact Hout|..];
        intros c; v5_field ].
Qed.

Lemma V5_table_outcome dp from v priv options now :
  find_dp V5.tuyaDatapoints dp = Some (Merged from) ->
  exists x, flush_outcome x priv (from v priv options now).
Proof.
  intros E.
  pose proof (V5_converters_outcome ChA v priv options now) as HA.
  pose proof (V5_converters_outcome ChB v priv options now) as HB.
  repeat (apply Forall_cons in HA; destruct HA as [? HA]).
  repeat (apply Forall_cons in HB; destruct HB as [? HB]).
  find_dp_cases E;
    first [ exists ChA; assumption | exists ChB; assumption
          | exists ChA; apply flush_outcome_idle; reflexivity ].
Qed.

Lemma V3_table_outcome dp from v priv options now :
  find_dp V3.tuyaDatapoints dp = Some (Merged from) ->
  exists x, flush_outcome x priv (from v priv options now).
Proof.
  intros E.
  pose proof (V5_converters_outcome ChA v priv options now) as HA.
  pose proof (V5_converters_outcome ChB v priv options now) as HB.
  repeat (apply Forall_cons in HA; destruct HA as [? HA]).
  repeat (apply Forall_cons in HB; destruct HB as [? HB]).
  find_dp_cases E;
    first [ exists ChA; assumption | exists ChB; assumption
          | exists ChA; apply flush_outcome_idle; reflexivity ].
Qed.

(** The names of the table are no key of a channel record. *)
Lemma V5_named_not_channel dp name from :
  find_dp V5.tuyaDatapoints dp = Some (Named name from) \/
  find_dp V3.tuyaDatapoints dp = Some (Named name from) ->
  name <> "power_ab" /\
  forall y k, In k (channel_keys y) -> k <> name.
Proof.
  intros [E|E]; find_dp_cases E; (split; [discriminate|]);
    intros [] k Hk; cbn in Hk;
    repeat destruct Hk as [<-|Hk]; try discriminate; contradiction.
Qed.

Lemma js_in_insert_ne (k name : string) (v : jsval) (result : jsobject) :
  k <> name -> js_in k (<[name := v]> result) = js_in k result.
Proof. intros H. unfold js_in. rewrite lookup_insert_ne by congruence. reflexivity. Qed.

Lemma js_get_insert_ne (k name : string) (v : jsval) (result : jsobject) :
  k <> name -> js_get (<[name := v]> result) k = js_get result k.
Proof. intros H. unfold js_get. rewrite lookup_insert_ne by congruence. reflexivity. Qed.

Lemma channel_keys_power x :
  In (key "power_" x) (channel_keys x) /\
  In (key "energy_flow_" x) (channel_keys x).
Proof. cbn. auto. Qed.

Lemma record_consistent_named p0 result p name v :
  (forall y k, In k (channel_keys y) -> k <> name) ->
  record_consistent p0 result p ->
  record_consistent p0 (<[name := v]> result) p.
Proof.
  intros Hn HI y. destruct (HI y) as (H1 & H2 & H3).
  destruct (channel_keys_power y) as [Kp Ke].
  assert (Ep : js_in (key "power_" y) (<[name := v]> result)
               = js_in (key "power_" y) result)
    by (apply js_in_insert_ne, (Hn y), Kp).
  rewrite Ep. split; [|split].
  - rewrite Stdlib.Lists.List.Forall_forall in *. intros k Hk.
    rewrite js_in_insert_ne by exact (Hn y k Hk). auto.
  - intros Hin. rewrite (H2 Hin). unfold V5.published_signed_power.
    rewrite (js_get_insert_ne _ _ _ _ (Hn y _ Kp)),
      (js_get_insert_ne _ _ _ _ (Hn y _ Ke)). reflexivity.
  - exact H3.
Qed.

Lemma record_consistent_merge p0 result p x out :
  record_consistent p0 result p ->
  flush_outcome x p out ->
  record_consistent p0 (object_assign result out.1) out.2.
Proof.
  intros HI [[He Hpub]|(signed & s & pw & ts & cu & pf & Hr & Hx & Ho)].
  - rewrite He. unfold object_assign. rewrite (left_id_L ∅ (∪)).
    intros y. rewrite Hpub. apply HI.
  - rewrite Hr. set (R := channel_record x signed s pw ts cu pf).
    destruct (channel_record_keys x signed s pw ts cu pf)
      as (Kx & Ko & _). fold R in Kx, Ko.
    rewrite Stdlib.Lists.List.Forall_forall in Kx, Ko.
    intros y. destruct (channel_keys_power y) as [Kp Ke].
    destruct (channel_cases x y) as [-> | ->].
    + assert (Ep : js_in (key "power_" x)
                     (object_assign result (with_total out.2 R)) = true).
      { rewrite js_in_assign, with_total_in, (Kx _ Kp);
          [reflexivity|eapply channel_keys_not_total; eauto]. }
      rewrite Ep. split; [|split].
      * rewrite Stdlib.Lists.List.Forall_forall. intros k Hk.
        rewrite js_in_assign, with_total_in, (Kx _ Hk);
          [reflexivity|eapply channel_keys_not_total; eauto].
      * intros _. rewrite Hx. f_equal.
        unfold V5.published_signed_power.
        rewrite !js_get_assign, !with_total_in, !with_total_get,
          (Kx _ Kp), (Kx _ Ke)
          by (eapply channel_keys_not_total; eauto).
        symmetry. apply (channel_record_power_keys x signed s pw ts cu pf).
      * discriminate.
    + destruct (HI (other x)) as (H1 & H2 & H3).
      assert (Ep : js_in (key "power_" (other x))
                     (object_assign result (with_total out.2 R))
                   = js_in (key "power_" (other x)) result).
      { rewrite js_in_assign, with_total_in, (Ko _ Kp);
          [reflexivity|eapply channel_keys_not_total; eauto]. }
      rewrite Ep, Ho. split; [|split].
      * rewrite Stdlib.Lists.List.Forall_forall in *. intros k Hk.
        rewrite js_in_assign, with_total_in, (Ko _ Hk);
          [cbn [orb]; auto|eapply channel_keys_not_total; eauto].
      * intros Hin. rewrite (H2 Hin). f_equal.
        unfold V5.published_signed_power.
        rewrite !js_get_assign, !with_total_in, (Ko _ Kp), (Ko _ Ke)
          by (eapply channel_keys_not_total; eauto).
        reflexivity.
      * exact H3.
Qed.

Lemma with_total_total (p : V5.private_state) (r : jsobject) :
  js_in "power_ab" r = false ->
  (js_in "power_ab" (with_total p r) = true <->
   is_Some (V5.pub_power_a p) /\ is_Some (V5.pub_power_b p)).
Proof.
  intros Hr. unfold with_total.
  destruct (V5.pub_power_a p), (V5.pub_power_b p);
    try (rewrite Hr; split; [discriminate|intros [[? H] [? H']]; discriminate]).
  unfold js_in. rewrite lookup_insert_eq. split; [eauto|reflexivity].
Qed.

Lemma total_present_named result p name v :
  name <> "power_ab" ->
  (forall y k, In k (channel_keys y) -> k <> name) ->
  total_present result p ->
  total_present (<[name := v]> result) p.
Proof.
  intros Hn Hk H. unfold total_present in *.
  rewrite js_in_insert_ne by congruence.
  rewrite (js_in_insert_ne "power_a") by (apply (Hk ChA); cbn; auto).
  rewrite (js_in_insert_ne "power_b") by (apply (Hk ChB); cbn; auto).
  exact H.
Qed.

Lemma total_present_merge result p x out :
  total_present result p ->
  flush_outcome x p out ->
  total_present (object_assign result out.1) out.2.
Proof.
  intros HI [[He Hpub]|(signed & s & pw & ts & cu & pf & Hr & Hx & Ho)].
  - rewrite He. unfold object_assign. rewrite (left_id_L ∅ (∪)).
    unfold total_present in *.
    pose proof (Hpub ChA) as Ha. pose proof (Hpub ChB) as Hb.
    cbn [V5.get_pub_power] in Ha, Hb. rewrite Ha, Hb. exact HI.
  - rewrite Hr. set (R := channel_record x signed s pw ts cu pf).
    destruct (channel_record_keys x signed s pw ts cu pf)
      as (Kx & _ & Kab). fold R in Kx, Kab.
    rewrite Stdlib.Lists.List.Forall_forall in Kx.
    pose proof (with_total_total out.2 R Kab) as Ht.
    assert (Hin : js_in "power_a" (object_assign result (with_total out.2 R)) = true
               \/ js_in "power_b" (object_assign result (with_total out.2 R)) = true).
    { assert (Hx' : js_in (key "power_" x)
                      (object_assign result (with_total out.2 R)) = true).
      { rewrite js_in_assign, with_total_in, (Kx _ (proj1 (channel_keys_power x)));
          [reflexivity|destruct x; discriminate]. }
      destruct x; [left|right]; exact Hx'. }
    unfold total_present in *. rewrite js_in_assign, orb_true_iff, Ht.
    split; [|tauto].
    intros [H|H]; [tauto|]. split; [exact Hin|].
    apply HI in H. destruct H as (_ & Ha & Hb).
    destruct x; cbn [other V5.get_pub_power] in Hx, Ho;
      rewrite Hx, Ho; split; eauto.
Qed.

(** The tracker keeps the published powers. *)
Lemma V5_track_sequence_pub priv seq c :
  V5.get_pub_power c (V5.track_sequence priv seq) = V5.get_pub_power c priv /\
  V5.get_pub_power c (V3.track_sequence priv seq) = V5.get_pub_power c priv.
Proof.
  unfold V5.track_sequence, V3.track_sequence.
  split; match goal with |- context [if ?b then _ else _] => destruct b end;
    v5_field.
Qed.

Lemma record_consistent_start p0 p :
  (forall c, V5.get_pub_power c p = V5.get_pub_power c p0) ->
  record_consistent p0 ∅ p /\ total_present ∅ p.
Proof.
  intros H. split.
  - intros x. split; [|split].
    + unfold channel_keys. split_forall; reflexivity.
    + discriminate.
    + intros _. apply H.
  - unfold total_present. split; [discriminate|].
    intros [[H1|H1] _]; discriminate.
Qed.

(** The two invariants through the dispatcher. *)
Lemma V5_dispatch_consistent dps options now p0 priv :
  (forall c, V5.get_pub_power c priv = V5.get_pub_power c p0) ->
  let out := datapoints_convert V5.tuyaDatapoints dps options now ∅ priv in
  record_consistent p0 out.1 out.2 /\ total_present out.1 out.2.
Proof.
  intros H.
  apply (datapoints_convert_invariant
           (fun r p => record_consistent p0 r p /\ total_present r p)).
  - intros dp name from v result p E [H1 H2].
    destruct (V5_named_not_channel dp name from (or_introl E)) as [Hn Hk].
    split; [apply record_consistent_named|apply total_present_named]; auto.
  - intros dp from v result p E [H1 H2].
    destruct (V5_table_outcome dp from v p options now E) as [x Hx].
    split; [eapply record_consistent_merge|eapply total_present_merge]; eauto.
  - apply record_consistent_start. exact H.
Qed.

Lemma V3_dispatch_consistent dps options now p0 priv :
  (forall c, V5.get_pub_power c priv = V5.get_pub_power c p0) ->
  let out := datapoints_convert V3.tuyaDatapoints dps options now ∅ priv in
  record_consistent p0 out.1 out.2 /\ total_present out.1 out.2.
Proof.
  intros H.
  apply (datapoints_convert_invariant
           (fun r p => record_consistent p0 r p /\ total_present r p)).
  - intros dp name from v result p E [H1 H2].
    destruct (V5_named_not_channel dp name from (or_intror E)) as [Hn Hk].
    split; [apply record_consistent_named|apply total_present_named]; auto.
  - intros dp from v result p E [H1 H2].
    destruct (V3_table_outcome dp from v p options now E) as [x Hx].
    split; [eapply record_consistent_merge|eapply total_present_merge]; eauto.
  - apply record_consistent_start. exact H.
Qed.

Lemma V5_convert_unfold store msg options now :
  V5.convert store msg options now =
  datapoints_convert V5.tuyaDatapoints (dpValues msg) options now ∅
    (V5.track_sequence (V5.pj1203aGetPrivateState store) (seq msg)).
Proof.
  unfold V5.convert.
  destruct (datapoints_convert _ _ _ _ _ _) as [converted p'].
  unfold object_assign. rewrite (right_id_L ∅ (∪)). reflexivity.
Qed.

Lemma V3_convert_unfold store msg options now :
  V3.convert store msg options now =
  datapoints_convert V3.tuyaDatapoints (dpValues msg) options now ∅
    (V3.track_sequence (V5.pj1203aGetPrivateState store) (seq msg)).
Proof.
  unfold V3.convert, V3.PJ1203A_getPrivateState.
  destruct (datapoints_convert _ _ _ _ _ _) as [converted p'].
  unfold object_assign. rewrite (right_id_L ∅ (∪)). reflexivity.
Qed.

(** X2.  In every record that the v5 and v3 converters emit for a message,
    the five attributes of a channel ([power_x], [energy_flow_x],
    [timestamp_x], [current_x], [power_factor_x]) are all present or all
    absent; when they are present the published power of the state after
    the message is the signed power read off the record
    ([power_x * (energy_flow_x === "producing" ? -1 : 1)]), and when they
    are absent it is the published power from before the message. *)
Theorem channel_attributes_published_together
    (store : option V5.private_state) (msg : message)
    (options : jsobject) (now : string) :
  let p0 := V5.pj1203aGetPrivateState store in
  let out5 := V5.convert store msg options now in
  let out3 := V3.convert store msg options now in
  record_consistent p0 out5.1 out5.2 /\
  record_consistent p0 out3.1 out3.2.
Proof.
  cbv zeta. rewrite V5_convert_unfold, V3_convert_unfold.
  split.
  - apply V5_dispatch_consistent. intros c. apply V5_track_sequence_pub.
  - apply V3_dispatch_consistent. intros c. apply V5_track_sequence_pub.
Qed.

(** X3.  A record of the v5 and v3 converters holds [power_ab] exactly when
    it holds [power_a] or [power_b] and, after the message, both channels
    have a published power: the total is republished with every channel
    record once both channels have reported, and never on its own. *)
Theorem total_published_with_power
    (store : option V5.private_state) (msg : message)
    (options : jsobject) (now : string) :
  let out5 := V5.convert store msg options now in
  let out3 := V3.convert store msg options now in
  total_present out5.1 out5.2 /\ total_present out3.1 out3.2.
Proof.
  cbv zeta. rewrite V5_convert_unfold, V3_convert_unfold.
  split.
  - apply (V5_dispatch_consistent _ _ _ (V5.pj1203aGetPrivateState store)).
    intros c. apply V5_track_sequence_pub.
  - apply (V3_dispatch_consistent _ _ _ (V5.pj1203aGetPrivateState store)).
    intros c. apply V5_track_sequence_pub.
Qed.

(** ** The two channels are independent *)

Lemma same_channel_trans y p q r :
  same_channel y p q -> same_channel y q r -> same_channel y p r.
Proof.
  unfold same_channel. intros H1 H2.
  repeat match goal with H : _ /\ _ |- _ => destruct H end.
  repeat split; congruence.
Qed.

Ltac same_channel_fields := unfold same_channel; repeat split; v5_field.

Lemma V5_flush_all_other x priv options :
  let out := V5.pj1203aFlushAll ∅ x priv options in
  same_channel (other x) out.2 priv /\
  Forall (fun k => js_in k out.1.2 = false) (channel_keys (other x)).
Proof.
  cbv zeta.
  assert (Hclear : same_channel (other x) (V5.clear_fields x priv) priv)
    by same_channel_fields.
  assert (Hempty : Forall (fun k => js_in k (∅ : jsobject) = false)
                     (channel_keys (other x)))
    by (unfold channel_keys; split_forall; reflexivity).
  destruct (V5.get_sign x priv) as [s|] eqn:Hs;
    [|rewrite V5_flush_all_incomplete by auto; auto].
  destruct (V5.get_power x priv) as [pw|] eqn:Hw;
    [|rewrite V5_flush_all_incomplete by auto; auto].
  destruct (V5.get_current x priv) as [cu|] eqn:Hc;
    [|rewrite V5_flush_all_incomplete by auto; auto].
  destruct (V5.get_power_factor x priv) as [pf|] eqn:Hf;
    [|rewrite V5_flush_all_incomplete by auto; auto].
  rewrite (V5_flush_all_complete x priv options s pw cu pf Hs Hw Hc Hf).
  cbv zeta. cbn [fst snd]. split.
  - eapply same_channel_trans; [|exact Hclear]. same_channel_fields.
  - destruct (channel_record_keys x (truthy (V5.pj1203aGetSignedPower options x))
                s pw (V5.get_timestamp x priv) cu pf) as (_ & Ko & _).
    rewrite Stdlib.Lists.List.Forall_forall in *. intros k Hk.
    rewrite with_total_in by (eapply channel_keys_not_total; eauto).
    auto.
Qed.

Ltac v5_flush_other :=
  match goal with
  | |- context [V5.pj1203aFlushAll ∅ ?x ?p ?o] =>
      let Hs := fresh "Hother" in
      let Hk := fresh "Hkeys" in
      let q := fresh "q" in
      pose proof (V5_flush_all_other x p o) as [Hs Hk];
      destruct (V5.pj1203aFlushAll ∅ x p o) as [[? ?] q];
      cbn [fst snd] in Hs, Hk |- *;
      split; [|exact Hk];
      eapply (same_channel_trans _ _ q);
        [|eapply same_channel_trans; [exact Hs|]]
  end.

(** X4.  A datapoint of channel [x] leaves the other channel alone: every
    converter of channel [x] (v5 and v3) keeps the buffered sign, power,
    current and power factor, the timestamp, the zero flags and the
    published power of the other channel, and emits none of the five
    attributes of the other channel. *)
Theorem channels_are_independent (x : channel) (v : float)
    (priv : V5.private_state) (options : jsobject) (now : string) :
  Forall (fun from =>
            let out := from v priv options now in
            same_channel (other x) out.2 priv /\
            Forall (fun k => js_in k out.1 = false) (channel_keys (other x)))
    [ V5.valueConverters.energy_flow x; V5.valueConverters.power x;
      V5.valueConverters.current x; V5.valueConverters.power_factor x;
      V3.valueConverters.energy_flow x; V3.valueConverters.power x;
      V3.valueConverters.current x; V3.valueConverters.power_factor x ].
Proof.
  split_forall; cbv zeta; v5_unfold_converters; split_ifs;
    first
      [ v5_flush_other; same_channel_fields
      | split; [same_channel_fields
               |unfold channel_keys; split_forall; reflexivity] ].
Qed.

(** ** Whole cycles of a channel *)

Lemma channel_record_publishes x signed s pw ts cu pf p :
  publishes x (with_total p (channel_record x signed s pw (Some ts) cu pf))
    (shown_power signed s pw) (shown_flow signed s) ts cu pf.
Proof.
  unfold publishes.
  rewrite !with_total_lookup by (destruct x; discriminate).
  unfold channel_record, shown_power, shown_flow.
  destruct x, signed; repeat split; vm_compute; reflexivity.
Qed.

(** A complete flush, by what it publishes. *)
Lemma V5_flush_all_publishes x priv options s pw ts cu pf :
  V5.get_sign x priv = Some s ->
  V5.get_power x priv = Some pw ->
  V5.get_timestamp x priv = Some ts ->
  V5.get_current x priv = Some cu ->
  V5.get_power_factor x priv = Some pf ->
  let signed := truthy (V5.pj1203aGetSignedPower options x) in
  let out := V5.pj1203aFlushAll ∅ x priv options in
  publishes x out.1.2 (shown_power signed s pw) (shown_flow signed s) ts cu pf /\
  V5_buffer_empty x out.2 /\
  V5.get_pub_power x out.2 = Some (signed_reading signed s pw).
Proof.
  intros Hs Hw Ht Hc Hf. cbv zeta.
  rewrite (V5_flush_all_complete x priv options s pw cu pf Hs Hw Hc Hf).
  cbv zeta. cbn [fst snd]. rewrite Ht.
  split; [apply channel_record_publishes|].
  split; [|v5_field].
  unfold V5_buffer_empty. repeat split; v5_field.
Qed.

(** The last step of a cycle in the default mode. *)
Lemma default_cycle_steps (x : channel) (c i w f : float)
    (priv : V5.private_state) (options : jsobject) (t0 t1 t2 t3 : string) :
  truthy (V5.pj1203aGetLateEnergyFlow options x) = false ->
  truthy (V3.PJ1203A_get_energy_flow_qwirk options x) = false ->
  (i =? 0)%float = false ->
  (w =? 0)%float = false ->
  let signed := truthy (V5.pj1203aGetSignedPower options x) in
  let s := sign_of_code c in
  let o1 := V5.valueConverters.energy_flow x c priv options t0 in
  let o2 := V5.valueConverters.current x i o1.2 options t1 in
  let o3 := V5.valueConverters.power x w o2.2 options t2 in
  let o4 := V5.valueConverters.power_factor x f o3.2 options t3 in
  let o1' := V3.valueConverters.energy_flow x c priv options t0 in
  let o2' := V3.valueConverters.current x i o1'.2 options t1 in
  let o3' := V3.valueConverters.power x w o2'.2 options t2 in
  let o4' := V3.valueConverters.power_factor x f o3'.2 options t3 in
  (publishes x o4.1 (shown_power signed s (w / 10)) (shown_flow signed s)
     t2 (i / 1000)%float f /\
   V5_buffer_empty x o4.2 /\
   V5.get_pub_power x o4.2 = Some (signed_reading signed s (w / 10))) /\
  (publishes x o4'.1 (shown_power signed s (w / 10)) (shown_flow signed s)
     t2 (i / 1000)%float f /\
   V5_buffer_empty x o4'.2 /\
   V5.get_pub_power x o4'.2 = Some (signed_reading signed s (w / 10))).
Proof.
  intros Hlate Hqwirk Hi Hw. cbv zeta.
  unfold V5.valueConverters.energy_flow, V5.valueConverters.current,
    V5.valueConverters.power, V5.valueConverters.power_factor,
    V3.valueConverters.energy_flow, V3.valueConverters.current,
    V3.valueConverters.power, V3.valueConverters.power_factor.
  rewrite Hlate, Hqwirk, Hi, Hw. cbn [negb fst snd].
  split.
  - match goal with
    | |- context [V5.pj1203aFlushAll ∅ x ?p options] =>
        pose proof (V5_flush_all_publishes x p options (sign_of_code c)
                      (w / 10) t2 (i / 1000) f) as H;
        destruct (V5.pj1203aFlushAll ∅ x p options) as [[ok r] q]
    end.
    cbn [fst snd] in *. apply H; v5_field.
  - match goal with
    | |- context [V3.PJ1203A_flush_all ∅ x ?p options] =>
        pose proof (V5_flush_all_publishes x p options (sign_of_code c)
                      (w / 10) t2 (i / 1000) f) as H;
        unfold V3.PJ1203A_flush_all;
        destruct (V5.pj1203aFlushAll ∅ x p options) as [[ok r] q]
    end.
    cbn [fst snd] in *. apply H; v5_field.
Qed.

(** X5.  One cycle of a channel in the default mode.  From any state, with
    [late_energy_flow_X] not set (v5; [energy_flow_qwirk_X] for v3), the
    datapoints of a cycle in the order of the device (direction code [c],
    nonzero raw current [i], nonzero raw power [w], power factor [f]) emit
    nothing for the first three and, at the power factor, the record of the
    channel: power [w / 10] (times the sign under [signed_power_X]), the
    label of the direction, current [i / 1000], power factor [f] and, as
    timestamp, the time of reception of the power datapoint, not the time
    of the flush.  Whatever the buffer held before is overwritten; the
    buffer is empty afterwards. *)
Theorem default_cycle_publishes_once (x : channel) (c i w f : float)
    (priv : V5.private_state) (options : jsobject) (t0 t1 t2 t3 : string) :
  truthy (V5.pj1203aGetLateEnergyFlow options x) = false ->
  truthy (V3.PJ1203A_get_energy_flow_qwirk options x) = false ->
  (i =? 0)%float = false ->
  (w =? 0)%float = false ->
  let signed := truthy (V5.pj1203aGetSignedPower options x) in
  let s := sign_of_code c in
  let o1 := V5.valueConverters.energy_flow x c priv options t0 in
  let o2 := V5.valueConverters.current x i o1.2 options t1 in
  let o3 := V5.valueConverters.power x w o2.2 options t2 in
  let o4 := V5.valueConverters.power_factor x f o3.2 options t3 in
  let o1' := V3.valueConverters.energy_flow x c priv options t0 in
  let o2' := V3.valueConverters.current x i o1'.2 options t1 in
  let o3' := V3.valueConverters.power x w o2'.2 options t2 in
  let o4' := V3.valueConverters.power_factor x f o3'.2 options t3 in
  (o1.1 = ∅ /\ o2.1 = ∅ /\ o3.1 = ∅ /\
   publishes x o4.1 (shown_power signed s (w / 10)) (shown_flow signed s)
     t2 (i / 1000)%float f /\
   V5_buffer_empty x o4.2 /\
   V5.get_pub_power x o4.2 = Some (signed_reading signed s (w / 10))) /\
  (o1'.1 = ∅ /\ o2'.1 = ∅ /\ o3'.1 = ∅ /\
   publishes x o4'.1 (shown_power signed s (w / 10)) (shown_flow signed s)
     t2 (i / 1000)%float f /\
   V5_buffer_empty x o4'.2 /\
   V5.get_pub_power x o4'.2 = Some (signed_reading signed s (w / 10))).
Proof.
  intros Hlate Hqwirk Hi Hw. cbv zeta.
  pose proof (default_cycle_steps x c i w f priv options t0 t1 t2 t3
                Hlate Hqwirk Hi Hw) as [H5 H3].
  cbv zeta in H5, H3.
  split; (split; [|split; [|split; [|assumption]]]);
    unfold V5.valueConverters.energy_flow, V5.valueConverters.current,
      V5.valueConverters.power, V3.valueConverters.energy_flow,
      V3.valueConverters.current, V3.valueConverters.power;
    rewrite ?Hlate, ?Hqwirk, ?Hi, ?Hw; reflexivity.
Qed.

Lemma default_cycle_publishes_once_witness :
  publishes ChA
    (V5_cycle ChA 1 1500 250 95 midcycle_state no_options sample_time).1
    25 "producing" sample_time 1.5 95 /\
  V5.get_pub_power ChA
    (V5_cycle ChA 1 1500 250 95 midcycle_state no_options sample_time).2
  = Some (-25)%float.
Proof.
  pose proof (default_cycle_publishes_once ChA 1 1500 250 95 midcycle_state
                no_options sample_time sample_time sample_time sample_time
                eq_refl eq_refl eq_refl eq_refl)
    as ((_ & _ & _ & Hp & _ & Hu) & _).
  split; [exact Hp|exact Hu].
Defined.

(** X6.  One cycle of a channel with [late_energy_flow_X] set (v5;
    [energy_flow_qwirk_X] for v3).  From any state, a nonzero raw current
    [i], a nonzero raw power [w] and a power factor [f] emit nothing, also
    at the power factor; the next direction code [c] emits the record of
    the channel, with the power, the current and the power factor of the
    cycle before, the direction of [c] and the time of reception of the
    power datapoint.  A direction buffered before the cycle is not used. *)
Theorem late_cycle_uses_next_direction (x : channel) (c i w f : float)
    (priv : V5.private_state) (options : jsobject) (t1 t2 t3 t4 : string) :
  truthy (V5.pj1203aGetLateEnergyFlow options x) = true ->
  truthy (V3.PJ1203A_get_energy_flow_qwirk options x) = true ->
  (i =? 0)%float = false ->
  (w =? 0)%float = false ->
  let signed := truthy (V5.pj1203aGetSignedPower options x) in
  let s := sign_of_code c in
  let o1 := V5.valueConverters.current x i priv options t1 in
  let o2 := V5.valueConverters.power x w o1.2 options t2 in
  let o3 := V5.valueConverters.power_factor x f o2.2 options t3 in
  let o4 := V5.valueConverters.energy_flow x c o3.2 options t4 in
  let o1' := V3.valueConverters.current x i priv options t1 in
  let o2' := V3.valueConverters.power x w o1'.2 options t2 in
  let o3' := V3.valueConverters.power_factor x f o2'.2 options t3 in
  let o4' := V3.valueConverters.energy_flow x c o3'.2 options t4 in
  (o1.1 = ∅ /\ o2.1 = ∅ /\ o3.1 = ∅ /\
   publishes x o4.1 (shown_power signed s (w / 10)) (shown_flow signed s)
     t2 (i / 1000)%float f /\
   V5_buffer_empty x o4.2 /\
   V5.get_pub_power x o4.2 = Some (signed_reading signed s (w / 10))) /\
  (o1'.1 = ∅ /\ o2'.1 = ∅ /\ o3'.1 = ∅ /\
   publishes x o4'.1 (shown_power signed s (w / 10)) (shown_flow signed s)
     t2 (i / 1000)%float f /\
   V5_buffer_empty x o4'.2 /\
   V5.get_pub_power x o4'.2 = Some (signed_reading signed s (w / 10))).
Proof.
  intros Hlate Hqwirk Hi Hw. cbv zeta.
  unfold V5.valueConverters.energy_flow, V5.valueConverters.current,
    V5.valueConverters.power, V5.valueConverters.power_factor,
    V3.valueConverters.energy_flow, V3.valueConverters.current,
    V3.valueConverters.power, V3.valueConverters.power_factor.
  rewrite Hlate, Hqwirk, Hi, Hw. cbn [negb fst snd].
  split; (split; [reflexivity|split; [reflexivity|split; [reflexivity|]]]).
  - match goal with
    | |- context [V5.pj1203aFlushAll ∅ x ?p options] =>
        pose proof (V5_flush_all_publishes x p options (sign_of_code c)
                      (w / 10) t2 (i / 1000) f) as H;
        destruct (V5.pj1203aFlushAll ∅ x p options) as [[ok r] q]
    end.
    cbn [fst snd] in *. apply H; v5_field.
  - match goal with
    | |- context [V3.PJ1203A_flush_all ∅ x ?p options] =>
        pose proof (V5_flush_all_publishes x p options (sign_of_code c)
                      (w / 10) t2 (i / 1000) f) as H;
        unfold V3.PJ1203A_flush_all;
        destruct (V5.pj1203aFlushAll ∅ x p options) as [[ok r] q]
    end.
    cbn [fst snd] in *. apply H; v5_field.
Qed.

Lemma late_cycle_uses_next_direction_witness :
  let now := sample_time in
  let o1 := V5.valueConverters.current ChA 1500 midcycle_state late_options now in
  let o2 := V5.valueConverters.power ChA 250 o1.2 late_options now in
  let o3 := V5.valueConverters.power_factor ChA 95 o2.2 late_options now in
  let o4 := V5.valueConverters.energy_flow ChA 0 o3.2 late_options now in
  V5.get_sign ChA midcycle_state = Some (-1)%float /\
  o3.1 = ∅ /\
  publishes ChA o4.1 25 "consuming" now 1.5 95.
Proof.
  pose proof (late_cycle_uses_next_direction ChA 0 1500 250 95 midcycle_state
                late_options sample_time sample_time sample_time sample_time
                eq_refl eq_refl eq_refl eq_refl)
    as ((_ & _ & H3 & Hp & _) & _).
  split; [reflexivity|]. split; [exact H3|exact Hp].
Defined.

(** ** After a gap *)

(** The table entries with the identifier of each. *)
Ltac find_dp_cases_id E :=
  unfold find_dp in E; cbn [List.find fst snd V5.tuyaDatapoints
    V3.tuyaDatapoints V1.tuyaDatapoints] in E;
  repeat match type of E with
  | context [if ?c then _ else _] => destruct c eqn:?
  end;
  cbn [fmap option_fmap option_map snd] in E; simplify_eq;
  repeat match goal with
  | H : (_ =? _) = true |- _ => apply Z.eqb_eq in H
  | H : (_ =? _) = false |- _ => clear H
  end.

Lemma V5_track_sequence_gap p sq :
  (V5.gap_detected p sq = true ->
   V5.track_sequence p sq = V5.set_last_seq sq (V5.clear_pending p)) /\
  (V3.gap_detected p sq = true ->
   V3.track_sequence p sq = V5.set_last_seq sq (V3.clear_pending p)).
Proof.
  unfold V5.track_sequence, V3.track_sequence.
  split; intros ->; reflexivity.
Qed.

Lemma single_datapoint_record {state : Type}
    (table : list (Z * dp_entry state)) dp from v options now priv :
  find_dp table dp = Some (Merged from) ->
  (from v priv options now).1 = ∅ ->
  (datapoints_convert table [(dp, v)] options now ∅ priv).1 = ∅.
Proof.
  intros E H. cbn [datapoints_convert]. rewrite E.
  destruct (from v priv options now) as [r q]. cbn [fst] in *. subst r.
  unfold object_assign. apply (left_id_L ∅ (∪)).
Qed.

(** X7.  Nothing stale is published across a gap.  When a message is
    detected as a gap and carries one datapoint of a channel (a direction
    code, a power factor, a nonzero power or a nonzero current) or the
    device total, the emitted record is empty, whatever was buffered
    before and under any options: a record of the channel needs the four
    fields to arrive again. *)
Theorem gap_discards_partial_cycle (p : V5.private_state) (sq dp : Z)
    (v : float) (options : jsobject) (now : string) from5 from3 :
  V5.gap_detected p sq = true ->
  V3.gap_detected p sq = true ->
  find_dp V5.tuyaDatapoints dp = Some (Merged from5) ->
  find_dp V3.tuyaDatapoints dp = Some (Merged from3) ->
  ((v =? 0)%float = true -> dp <> 101 /\ dp <> 105 /\ dp <> 113 /\ dp <> 114) ->
  (V5.convert (Some p) (mkMessage sq [(dp, v)]) options now).1 = ∅ /\
  (V3.convert (Some p) (mkMessage sq [(dp, v)]) options now).1 = ∅.
Proof.
  intros G5 G3 E5 E3 Hz.
  rewrite V5_convert_unfold, V3_convert_unfold. cbn [seq dpValues].
  cbn [V5.pj1203aGetPrivateState].
  rewrite (proj1 (V5_track_sequence_gap p sq) G5),
    (proj2 (V5_track_sequence_gap p sq) G3).
  assert (Hnz : (dp = 101 \/ dp = 105 \/ dp = 113 \/ dp = 114) ->
                (v =? 0)%float = false).
  { intros Hdp. destruct (v =? 0)%float; [|reflexivity].
    destruct (Hz eq_refl) as (? & ? & ? & ?). lia. }
  split.
  - apply (single_datapoint_record _ _ _ _ _ _ _ E5).
    find_dp_cases_id E5; v5_unfold_converters;
      rewrite ?Hnz by auto; split_ifs; try reflexivity;
      rewrite V5_flush_all_incomplete; try reflexivity;
      first [ right; left; v5_field | left; v5_field ].
  - apply (single_datapoint_record _ _ _ _ _ _ _ E3).
    find_dp_cases_id E3; v5_unfold_converters;
      rewrite ?Hnz by auto; split_ifs; try reflexivity;
      rewrite V5_flush_all_incomplete; try reflexivity;
      first [ right; left; v5_field | left; v5_field ].
Qed.

Lemma gap_discards_partial_cycle_witness :
  V5.gap_detected midcycle_state 1024 = true /\
  V5.current_a midcycle_state = Some 1.5%float /\
  (V5.convert (Some midcycle_state) (mkMessage 1024 [(110, 95%float)])
     no_options sample_time).1 = ∅ /\
  (V3.convert (Some midcycle_state) (mkMessage 1024 [(110, 95%float)])
     no_options sample_time).1 = ∅.
Proof.
  pose proof (gap_discards_partial_cycle midcycle_state 1024 110 95
                no_options sample_time
                (V5.valueConverters.power_factor ChA)
                (V3.valueConverters.power_factor ChA)
                eq_refl eq_refl eq_refl eq_refl
                (fun H => ltac:(discriminate H))) as [H5 H3].
  split; [reflexivity|]. split; [reflexivity|]. split; [exact H5|exact H3].
Defined.

(** X8.  A gap rearms the suppression of single zeros (v5).  With
    [single_zero_remove] set, a message detected as a gap that carries a
    zero power or a zero current emits an empty record and raises the zero
    flag of that field, also when the flag was raised before the gap (when
    a zero without gap would have emitted the zero snapshot): the gap
    branch resets the four flags with the buffers. *)
Theorem gap_rearms_zero_suppression (p : V5.private_state) (sq : Z)
    (x : channel) (v : float) (options : jsobject) (now : string) :
  V5.gap_detected p sq = true ->
  truthy (V5.pj1203aGetSingleZeroRemove options) = true ->
  (v =? 0)%float = true ->
  let dp_power := match x with ChA => 101 | ChB => 105 end in
  let dp_current := match x with ChA => 113 | ChB => 114 end in
  let out_power :=
    V5.convert (Some p) (mkMessage sq [(dp_power, v)]) options now in
  let out_current :=
    V5.convert (Some p) (mkMessage sq [(dp_current, v)]) options now in
  out_power.1 = ∅ /\
  V5.get_zero_power x out_power.2 = Some true /\
  V5_buffer_empty x out_power.2 /\
  out_current.1 = ∅ /\
  V5.get_zero_current x out_current.2 = Some true /\
  V5_buffer_empty x out_current.2.
Proof.
  intros G Hs Hv. cbv zeta.
  rewrite !V5_convert_unfold. cbn [seq dpValues V5.pj1203aGetPrivateState].
  rewrite (proj1 (V5_track_sequence_gap p sq) G).
  set (q := V5.set_last_seq sq (V5.clear_pending p)).
  assert (Hp : V5.valueConverters.power x v q options now
               = (∅, V5.set_zero_power x (Some true)
                       (V5.clear_fields x
                          (V5.set_timestamp x (Some now) (V5.clear_fields x
                             (V5.set_timestamp x (Some now)
                                (V5.set_power x (Some (v / 10)%float) q))))))).
  { unfold V5.valueConverters.power. rewrite Hv, Hs.
    replace (V5.flag_unset _) with true by (subst q; v5_field).
    cbn [andb]. unfold V5.pj1203aFlushNull.
    rewrite V5_flush_all_incomplete by (left; v5_field). reflexivity. }
  assert (Hc : V5.valueConverters.current x v q options now
               = (∅, V5.set_zero_current x (Some true)
                       (V5.clear_fields x
                          (V5.set_timestamp x (Some now) (V5.clear_fields x
                             (V5.set_current x (Some (v / 1000)%float) q)))))).
  { unfold V5.valueConverters.current. rewrite Hv, Hs.
    replace (V5.flag_unset _) with true by (subst q; v5_field).
    cbn [andb]. unfold V5.pj1203aFlushNull.
    rewrite V5_flush_all_incomplete by (left; v5_field). reflexivity. }
  destruct x; cbn [datapoints_convert]; unfold find_dp;
    cbn [List.find V5.tuyaDatapoints fst snd Z.eqb Pos.eqb fmap option_fmap
           option_map];
    rewrite Hp, Hc; unfold object_assign; rewrite (left_id_L ∅ (∪));
    cbn [fst snd]; unfold V5_buffer_empty; repeat split; v5_field.
Qed.

Lemma gap_rearms_zero_suppression_witness :
  V5.get_zero_power ChA zero_flagged_state = Some true /\
  V5.gap_detected zero_flagged_state 1024 = true /\
  (V5.convert (Some zero_flagged_state) (mkMessage 1024 [(101, 0%float)])
     suppress_options sample_time).1 = ∅.
Proof.
  pose proof (gap_rearms_zero_suppression zero_flagged_state 1024 ChA 0
                suppress_options sample_time eq_refl eq_refl eq_refl)
    as (H & _).
  split; [reflexivity|]. split; [reflexivity|exact H].
Defined.

(** ** The presentation of the direction *)

(** The signed power read off a record is the same in the two modes: the
    number at 0.1 resolution with the sign of the direction. *)
Lemma signed_reading_tenths (signed : bool) (s : float) (n : Z) :
  (s = 1%float /\ 0 <= n < 2 ^ 52) \/ (s = (-1)%float /\ 0 < n < 2 ^ 52) ->
  signed_reading signed s (tenths n) = tenths (signed_tenths s n).
Proof.
  unfold signed_reading, signed_tenths.
  intros [[-> Hn]|[-> Hn]].
  - destruct (tenths_mul_sign n ltac:(lia)) as (H1 & H2 & _).
    change (0 <? 1)%float with true.
    destruct signed; [rewrite H1|]; exact H2.
  - destruct (tenths_mul_sign n ltac:(lia)) as (_ & _ & H).
    destruct (H ltac:(lia)) as [H3 H4].
    change (0 <? -1)%float with false.
    destruct signed; [|exact H4].
    rewrite H3. apply (tenths_mul_sign (- n)). lia.
Qed.

Lemma V5_flush_ready_reading x p s pw (b1 b2 : bool) :
  V5_flush_ready x p ->
  V5.get_sign x p = Some s -> V5.get_power x p = Some pw ->
  signed_reading b1 s pw = signed_reading b2 s pw.
Proof.
  intros (_ & _ & H) Hs Hw.
  destruct (H s pw Hs Hw) as (n & -> & Hn).
  rewrite !signed_reading_tenths by exact Hn. reflexivity.
Qed.

Lemma channel_record_mode x (b1 b2 : bool) s pw ts cu pf (k : string) :
  ~ In k presentation_keys ->
  channel_record x b1 s pw ts cu pf !! k
  = channel_record x b2 s pw ts cu pf !! k.
Proof.
  intros Hk. unfold channel_record.
  destruct x, b1, b2; rewrite !lookup_insert; repeat case_decide;
    subst; try reflexivity; exfalso; apply Hk; cbn; auto.
Qed.

Lemma with_total_mode (p : V5.private_state) (r1 r2 : jsobject) :
  same_but_presentation r1 r2 ->
  same_but_presentation (with_total p r1) (with_total p r2).
Proof.
  intros H k Hk. unfold with_total.
  destruct (V5.pub_power_a p), (V5.pub_power_b p); auto.
  rewrite !lookup_insert. case_decide; auto.
Qed.

(** A flush in the two modes: the same state, the same record but for the
    presentation of the direction. *)
Lemma V5_flush_all_mode x p o1 o2 :
  (forall s pw, V5.get_sign x p = Some s -> V5.get_power x p = Some pw ->
     signed_reading (truthy (V5.pj1203aGetSignedPower o1 x)) s pw
     = signed_reading (truthy (V5.pj1203aGetSignedPower o2 x)) s pw) ->
  (V5.pj1203aFlushAll ∅ x p o1).2 = (V5.pj1203aFlushAll ∅ x p o2).2 /\
  same_but_presentation (V5.pj1203aFlushAll ∅ x p o1).1.2
    (V5.pj1203aFlushAll ∅ x p o2).1.2.
Proof.
  intros H.
  destruct (V5.get_sign x p) as [s|] eqn:Hs;
    [|rewrite !V5_flush_all_incomplete by auto; split; [reflexivity|intros k _; reflexivity]].
  destruct (V5.get_power x p) as [pw|] eqn:Hw;
    [|rewrite !V5_flush_all_incomplete by auto; split; [reflexivity|intros k _; reflexivity]].
  destruct (V5.get_current x p) as [cu|] eqn:Hc;
    [|rewrite !V5_flush_all_incomplete by auto; split; [reflexivity|intros k _; reflexivity]].
  destruct (V5.get_power_factor x p) as [pf|] eqn:Hf;
    [|rewrite !V5_flush_all_incomplete by auto; split; [reflexivity|intros k _; reflexivity]].
  rewrite (V5_flush_all_complete x p o1 s pw cu pf Hs Hw Hc Hf),
    (V5_flush_all_complete x p o2 s pw cu pf Hs Hw Hc Hf).
  cbv zeta. cbn [fst snd]. rewrite (H s pw eq_refl eq_refl).
  split; [reflexivity|].
  apply with_total_mode. intros k Hk. apply channel_record_mode. exact Hk.
Qed.

(** The other options are read the same. *)
Lemma same_but_signed_power_getters o1 o2 x :
  same_but_signed_power o1 o2 ->
  V5.pj1203aGetLateEnergyFlow o1 x = V5.pj1203aGetLateEnergyFlow o2 x /\
  V5.pj1203aGetSingleZeroRemove o1 = V5.pj1203aGetSingleZeroRemove o2 /\
  V3.PJ1203A_get_energy_flow_qwirk o1 x = V3.PJ1203A_get_energy_flow_qwirk o2 x.
Proof.
  intros H.
  unfold V5.pj1203aGetLateEnergyFlow, V5.pj1203aGetSingleZeroRemove,
    V3.PJ1203A_get_energy_flow_qwirk, js_in, js_get.
  destruct x; cbn [chan_upper]; rewrite !(H _) by discriminate; auto.
Qed.

Lemma V5_flush_null_mode x p o1 o2 now :
  V5.pj1203aFlushNull ∅ x p o1 now = V5.pj1203aFlushNull ∅ x p o2 now.
Proof.
  unfold V5.pj1203aFlushNull.
  rewrite !V5_flush_all_incomplete by (left; v5_field). reflexivity.
Qed.

Lemma signed_reading_zero (b1 b2 : bool) :
  signed_reading b1 1 0 = signed_reading b2 1 0.
Proof. destruct b1, b2; reflexivity. Qed.

Lemma V5_flush_zero_mode x p o1 o2 now :
  (V5.pj1203aFlushZero ∅ x p o1 now).2 = (V5.pj1203aFlushZero ∅ x p o2 now).2 /\
  same_but_presentation (V5.pj1203aFlushZero ∅ x p o1 now).1
    (V5.pj1203aFlushZero ∅ x p o2 now).1.
Proof.
  unfold V5.pj1203aFlushZero.
  match goal with
  | |- context [V5.pj1203aFlushAll ∅ x ?q o1] =>
      pose proof (V5_flush_all_mode x q o1 o2) as H;
      destruct (V5.pj1203aFlushAll ∅ x q o1) as [[? ?] ?],
               (V5.pj1203aFlushAll ∅ x q o2) as [[? ?] ?]
  end.
  cbn [fst snd] in *. apply H.
  intros s pw Hs Hw.
  assert (s = 1%float /\ pw = 0%float) as [-> ->]
    by (revert Hs Hw; clear; v5_destruct_all; intros [= <-] [= <-]; auto).
  apply signed_reading_zero.
Qed.

(** A converter in the two modes. *)
Ltac v5_mode_flush Hready :=
  match goal with
  | |- context [V5.pj1203aFlushAll ∅ ?x ?q ?o1] =>
      match goal with
      | |- context [V5.pj1203aFlushAll ∅ x q ?o2] =>
          assert_fails (constr_eq o1 o2);
          let H := fresh "Hmode" in
          pose proof (V5_flush_all_mode x q o1 o2) as H;
          destruct (V5.pj1203aFlushAll ∅ x q o1) as [[? ?] ?],
                   (V5.pj1203aFlushAll ∅ x q o2) as [[? ?] ?];
          cbn [fst snd] in *; apply H;
          intros; eapply V5_flush_ready_reading; [apply Hready|eassumption..]
      end
  end.

Lemma V5_converters_mode x v p o1 o2 now :
  V5_resolution_state p ->
  same_but_signed_power o1 o2 ->
  Forall (fun from =>
            (from v p o1 now).2 = (from v p o2 now).2 /\
            same_but_presentation (from v p o1 now).1 (from v p o2 now).1)
    [ V5.valueConverters.energy_flow x; V5.valueConverters.power x;
      V5.valueConverters.current x; V5.valueConverters.power_factor x;
      V3.valueConverters.energy_flow x; V3.valueConverters.power x;
      V3.valueConverters.current x; V3.valueConverters.power_factor x ].
Proof.
  intros Hp Ho.
  destruct (same_but_signed_power_getters o1 o2 x Ho) as (E1 & E2 & E3).
  pose proof (proj2 (V5_set_sign_resolution x v p Hp)) as Hsign.
  assert (Hpf : V5_flush_ready x (V5.set_power_factor x (Some v) p)).
  { apply V5_resolution_ready.
    apply (V5_resolution_frame p); [intros c; repeat split; v5_field|exact Hp]. }
  cbv zeta in Hsign.
  split_forall;
    unfold V5.valueConverters.energy_flow, V5.valueConverters.power,
      V5.valueConverters.current, V5.valueConverters.power_factor,
      V3.valueConverters.energy_flow, V3.valueConverters.power,
      V3.valueConverters.current, V3.valueConverters.power_factor,
      V3.PJ1203A_flush_all, V3.PJ1203A_flush_zero;
    rewrite ?E1, ?E2, ?E3.
  - destruct (truthy _); [v5_mode_flush Hsign|split; [reflexivity|intros k _; reflexivity]].
  - destruct (v =? 0)%float; [|split; [reflexivity|intros k _; reflexivity]].
    destruct (truthy _ && _).
    + rewrite (V5_flush_null_mode _ _ o1 o2). split; [reflexivity|intros k _; reflexivity].
    + match goal with
      | |- context [V5.pj1203aFlushZero ∅ x ?q o1 now] =>
          pose proof (V5_flush_zero_mode x q o1 o2 now) as [H1 H2];
          destruct (V5.pj1203aFlushZero ∅ x q o1 now),
                   (V5.pj1203aFlushZero ∅ x q o2 now)
      end.
      cbn [fst snd] in *. subst. split; [reflexivity|exact H2].
  - destruct (v =? 0)%float; [|split; [reflexivity|intros k _; reflexivity]].
    destruct (truthy _ && _).
    + rewrite (V5_flush_null_mode _ _ o1 o2). split; [reflexivity|intros k _; reflexivity].
    + match goal with
      | |- context [V5.pj1203aFlushZero ∅ x ?q o1 now] =>
          pose proof (V5_flush_zero_mode x q o1 o2 now) as [H1 H2];
          destruct (V5.pj1203aFlushZero ∅ x q o1 now),
                   (V5.pj1203aFlushZero ∅ x q o2 now)
      end.
      cbn [fst snd] in *. subst. split; [reflexivity|exact H2].
  - destruct (negb _); [v5_mode_flush Hpf|split; [reflexivity|intros k _; reflexivity]].
  - destruct (truthy _); [v5_mode_flush Hsign|split; [reflexivity|intros k _; reflexivity]].
  - destruct (v =? 0)%float; [|split; [reflexivity|intros k _; reflexivity]].
    apply V5_flush_zero_mode.
  - destruct (v =? 0)%float; [|split; [reflexivity|intros k _; reflexivity]].
    apply V5_flush_zero_mode.
  - destruct (negb _); [v5_mode_flush Hpf|split; [reflexivity|intros k _; reflexivity]].
Qed.

Section DispatchRelation.

Context {state : Type}.

(** Two runs of the dispatcher on the same message and state under two
    option objects: a relation of the results and a property of the state
    that every table entry maintains are maintained by a whole message,
    and the runs end in the same state. *)
Lemma datapoints_convert_related (P : Z -> float -> Prop)
    (I : state -> Prop) (R : jsobject -> jsobject -> Prop)
    (table : list (Z * dp_entry state)) (o1 o2 : jsobject) (now : string) :
  (forall name v r1 r2, R r1 r2 -> R (<[name := v]> r1) (<[name := v]> r2)) ->
  (forall dp from v priv,
      find_dp table dp = Some (Merged from) -> P dp v -> I priv ->
      (from v priv o1 now).2 = (from v priv o2 now).2 /\
      I (from v priv o1 now).2 /\
      forall r1 r2, R r1 r2 ->
        R (object_assign r1 (from v priv o1 now).1)
          (object_assign r2 (from v priv o2 now).1)) ->
  forall dps r1 r2 priv,
    Forall (fun d => P d.1 d.2) dps -> I priv -> R r1 r2 ->
    (datapoints_convert table dps o1 now r1 priv).2
    = (datapoints_convert table dps o2 now r2 priv).2 /\
    I (datapoints_convert table dps o1 now r1 priv).2 /\
    R (datapoints_convert table dps o1 now r1 priv).1
      (datapoints_convert table dps o2 now r2 priv).1.
Proof.
  intros Hnamed Hmerged dps.
  induction dps as [|[dp v] rest IH]; intros r1 r2 priv HP HI HR;
    [cbn; auto|].
  apply Forall_cons in HP. destruct HP as [HP Hrest].
  cbn [datapoints_convert].
  destruct (find_dp table dp) as [[name from|from]|] eqn:E.
  - apply IH; auto.
  - destruct (Hmerged dp from v priv E HP HI) as (Hst & HI' & HR').
    specialize (HR' r1 r2 HR).
    destruct (from v priv o1 now) as [c1 p1], (from v priv o2 now) as [c2 p2].
    cbn [fst snd] in *. subst p2. apply IH; auto.
  - apply IH; auto.
Qed.

End DispatchRelation.

Lemma same_but_presentation_assign r1 r2 c1 c2 :
  same_but_presentation r1 r2 ->
  same_but_presentation c1 c2 ->
  same_but_presentation (object_assign r1 c1) (object_assign r2 c2).
Proof.
  intros Hr Hc k Hk. unfold object_assign.
  rewrite !lookup_union, (Hr k Hk), (Hc k Hk). reflexivity.
Qed.

Lemma same_but_presentation_insert r1 r2 (name : string) (v : jsval) :
  same_but_presentation r1 r2 ->
  same_but_presentation (<[name := v]> r1) (<[name := v]> r2).
Proof.
  intros Hr k Hk. rewrite !lookup_insert. case_decide; auto.
Qed.

Lemma V5_table_mode dp from v p o1 o2 now :
  find_dp V5.tuyaDatapoints dp = Some (Merged from) ->
  V5_resolution_state p ->
  same_but_signed_power o1 o2 ->
  (from v p o1 now).2 = (from v p o2 now).2 /\
  same_but_presentation (from v p o1 now).1 (from v p o2 now).1.
Proof.
  intros E Hp Ho.
  pose proof (V5_converters_mode ChA v p o1 o2 now Hp Ho) as HA.
  pose proof (V5_converters_mode ChB v p o1 o2 now Hp Ho) as HB.
  repeat (apply Forall_cons in HA; destruct HA as [? HA]).
  repeat (apply Forall_cons in HB; destruct HB as [? HB]).
  find_dp_cases E; first [assumption|split; [reflexivity|intros k _; reflexivity]].
Qed.

Lemma V3_table_mode dp from v p o1 o2 now :
  find_dp V3.tuyaDatapoints dp = Some (Merged from) ->
  V5_resolution_state p ->
  same_but_signed_power o1 o2 ->
  (from v p o1 now).2 = (from v p o2 now).2 /\
  same_but_presentation (from v p o1 now).1 (from v p o2 now).1.
Proof.
  intros E Hp Ho.
  pose proof (V5_converters_mode ChA v p o1 o2 now Hp Ho) as HA.
  pose proof (V5_converters_mode ChB v p o1 o2 now Hp Ho) as HB.
  repeat (apply Forall_cons in HA; destruct HA as [? HA]).
  repeat (apply Forall_cons in HB; destruct HB as [? HB]).
  find_dp_cases E; first [assumption|split; [reflexivity|intros k _; reflexivity]].
Qed.

Lemma V5_convert_mode store msg o1 o2 now :
  (forall p, store = Some p -> V5_resolution_state p) ->
  integral_message msg ->
  same_but_signed_power o1 o2 ->
  ((V5.convert store msg o1 now).2 = (V5.convert store msg o2 now).2 /\
   V5_resolution_state (V5.convert store msg o1 now).2 /\
   same_but_presentation (V5.convert store msg o1 now).1
     (V5.convert store msg o2 now).1) /\
  ((V3.convert store msg o1 now).2 = (V3.convert store msg o2 now).2 /\
   V5_resolution_state (V3.convert store msg o1 now).2 /\
   same_but_presentation (V3.convert store msg o1 now).1
     (V3.convert store msg o2 now).1).
Proof.
  intros Hstore Hmsg Ho.
  rewrite !V5_convert_unfold, !V3_convert_unfold.
  assert (H0 : V5_resolution_state (V5.pj1203aGetPrivateState store))
    by (destruct store; [auto|apply V5_initial_resolution]).
  destruct (V5_track_sequence_resolution _ (seq msg) H0) as [H5 H3].
  split.
  - apply (datapoints_convert_related integral_dp V5_resolution_state
             same_but_presentation); auto.
    + intros. apply same_but_presentation_insert. assumption.
    + intros dp from v p E HP HI.
      destruct (V5_table_mode dp from v p o1 o2 now E HI Ho) as [Hs Hr].
      split; [exact Hs|]. split.
      * eapply V5_converters_resolution; eauto.
      * intros. apply same_but_presentation_assign; assumption.
    + intros k _. reflexivity.
  - apply (datapoints_convert_related integral_dp V5_resolution_state
             same_but_presentation); auto.
    + intros. apply same_but_presentation_insert. assumption.
    + intros dp from v p E HP HI.
      destruct (V3_table_mode dp from v p o1 o2 now E HI Ho) as [Hs Hr].
      split; [exact Hs|]. split.
      * eapply V3_converters_resolution; eauto.
      * intros. apply same_but_presentation_assign; assumption.
    + intros k _. reflexivity.
Qed.

Lemma V5_process_mode msgs o1 o2 : forall store,
  (forall p, store = Some p -> V5_resolution_state p) ->
  Forall (fun m => integral_message m.1) msgs ->
  same_but_signed_power o1 o2 ->
  Forall2 (fun out1 out2 =>
             out1.2 = out2.2 /\ same_but_presentation out1.1 out2.1)
    (V5_process store msgs o1) (V5_process store msgs o2) /\
  Forall2 (fun out1 out2 =>
             out1.2 = out2.2 /\ same_but_presentation out1.1 out2.1)
    (V3_process store msgs o1) (V3_process store msgs o2).
Proof.
  induction msgs as [|[msg now] rest IH]; intros store Hstore Hmsgs Ho;
    [split; constructor|].
  apply Forall_cons in Hmsgs. destruct Hmsgs as [Hmsg Hrest].
  destruct (V5_convert_mode store msg o1 o2 now Hstore Hmsg Ho)
    as [(E5 & I5 & R5) (E3 & I3 & R3)].
  cbn [V5_process V3_process]. split.
  - constructor; [auto|]. rewrite <- E5. apply IH; auto.
    intros p [= <-]. exact I5.
  - constructor; [auto|]. rewrite <- E3. apply IH; auto.
    intros p [= <-]. exact I3.
Qed.

(** X9.  The options [signed_power_A] and [signed_power_B] only change how
    the direction is presented.  For a device seen for the first time and
    any sequence of messages whose power datapoints carry whole numbers of
    tenths of a watt, two option objects that differ at most in these two
    options give, message by message, the same private state (so the same
    published signed powers) and records that agree on every key other
    than [power_x] and [energy_flow_x]: the same total [power_ab], the same
    currents, power factors and timestamps (v5 and v3). *)
Theorem signed_power_is_presentation_only (msgs : list (message * string))
    (o1 o2 : jsobject) :
  Forall (fun m => integral_message m.1) msgs ->
  same_but_signed_power o1 o2 ->
  Forall2 (fun out1 out2 =>
             out1.2 = out2.2 /\ same_but_presentation out1.1 out2.1)
    (V5_process None msgs o1) (V5_process None msgs o2) /\
  Forall2 (fun out1 out2 =>
             out1.2 = out2.2 /\ same_but_presentation out1.1 out2.1)
    (V3_process None msgs o1) (V3_process None msgs o2).
Proof.
  intros Hmsgs Ho. apply V5_process_mode; [discriminate|assumption..].
Qed.

Lemma two_channel_messages_integral :
  Forall (fun m => integral_message m.1) two_channel_messages.
Proof.
  repeat constructor; cbn; intros [H|H]; try discriminate H.
  - exists 798. split; [lia|reflexivity].
  - exists 371. split; [lia|reflexivity].
Qed.

Lemma signed_options_same_but_signed_power :
  same_but_signed_power no_options signed_options.
Proof.
  intros k Ha Hb. unfold signed_options, no_options.
  rewrite lookup_insert_ne by congruence. reflexivity.
Qed.

Lemma signed_power_is_presentation_only_witness :
  Forall2 (fun out1 out2 =>
             out1.2 = out2.2 /\ same_but_presentation out1.1 out2.1)
    (V5_process None two_channel_messages no_options)
    (V5_process None two_channel_messages signed_options) /\
  (List.last (V5_process None two_channel_messages no_options)
     (∅, V5.initial_state)).2.(V5.pub_power_a) = Some 79.8%float.
Proof.
  split; [|reflexivity].
  exact (proj1 (signed_power_is_presentation_only two_channel_messages
                  no_options signed_options two_channel_messages_integral
                  signed_options_same_but_signed_power)).
Defined.

(** ** The sign of the published power *)

Lemma tenths_ltb_zero (n : Z) :
  Z.abs n < 2 ^ 52 -> (tenths n <? 0)%float = (n <? 0).
Proof.
  intros Hn. destruct (Z.eq_dec n 0) as [->|Hn0]; [reflexivity|].
  destruct (tenths_finite n Hn0 Hn) as (q & E & _ & _ & Hx & _).
  rewrite ltb_spec, Hx. change (Prim2SF 0%float) with (S754_zero false).
  unfold SFltb, SFcompare. destruct (n <? 0); reflexivity.
Qed.

Lemma shown_power_tenths (s : float) (n : Z) :
  (s = 1%float /\ 0 <= n < 2 ^ 52) \/ (s = (-1)%float /\ 0 < n < 2 ^ 52) ->
  shown_power true s (tenths n) = tenths (signed_tenths s n).
Proof.
  unfold shown_power, signed_tenths. intros [[-> Hn]|[-> Hn]].
  - change (0 <? 1)%float with true. apply (tenths_mul_sign n). lia.
  - change (0 <? -1)%float with false.
    destruct (tenths_mul_sign n ltac:(lia)) as (_ & _ & H).
    apply H. lia.
Qed.

Lemma sign_of_code_cases (c : float) (n : Z) :
  0 < n < 2 ^ 52 ->
  ((sign_of_code c = 1%float /\ 0 <= n < 2 ^ 52) \/
   (sign_of_code c = (-1)%float /\ 0 < n < 2 ^ 52)) /\
  signed_tenths (sign_of_code c) n = (if (c =? 1)%float then - n else n) /\
  shown_flow false (sign_of_code c)
  = (if (c =? 1)%float then "producing" else "consuming").
Proof.
  intros Hn. unfold sign_of_code, signed_tenths, shown_flow.
  destruct (c =? 1)%float.
  - change (0 <? -1)%float with false. split; [right; split; [reflexivity|lia]|auto].
  - change (0 <? 1)%float with true. split; [left; split; [reflexivity|lia]|auto].
Qed.

(** X10.  The sign of the published power is the direction.  In the
    default mode, a cycle of channel [x] with direction code [c], a nonzero
    current and a raw power of [n] tenths of a watt ([0 < n < 2^52])
    records as published power the number at 0.1 resolution of [-n] tenths
    when [c] is 1 (producing) and of [n] tenths otherwise, in signed and in
    unsigned mode alike; it is negative exactly when [c] is 1.  Under
    [signed_power_X] the record shows this number with the label ["sign"];
    without it the record shows [n / 10] with the label ["producing"] or
    ["consuming"] (v5 and v3). *)
Theorem published_power_has_direction_sign (x : channel) (c i f : float)
    (n : Z) (priv : V5.private_state) (options : jsobject) (now : string) :
  truthy (V5.pj1203aGetLateEnergyFlow options x) = false ->
  truthy (V3.PJ1203A_get_energy_flow_qwirk options x) = false ->
  (i =? 0)%float = false ->
  0 < n < 2 ^ 52 ->
  let signed := truthy (V5.pj1203aGetSignedPower options x) in
  let m := if (c =? 1)%float then - n else n in
  Forall (fun out : jsobject * V5.private_state =>
            V5.get_pub_power x out.2 = Some (tenths m) /\
            (tenths m <? 0)%float = (c =? 1)%float /\
            out.1 !! key "power_" x
            = Some (JNum (if signed then tenths m else tenths n)) /\
            out.1 !! key "energy_flow_" x
            = Some (JStr (if signed then "sign"
                          else if (c =? 1)%float then "producing"
                          else "consuming")))
    [ V5_cycle x c i (float_of_Z n) f priv options now;
      V3_cycle x c i (float_of_Z n) f priv options now ].
Proof.
  intros Hlate Hqwirk Hi Hn signed m.
  assert (Hw : (float_of_Z n =? 0)%float = false).
  { rewrite float_of_Z_eqb_zero by lia. apply Z.eqb_neq. lia. }
  destruct (sign_of_code_cases c n Hn) as (Hcase & Hm & Hflow).
  fold m in Hm.
  assert (Hneg : (tenths m <? 0)%float = (c =? 1)%float).
  { rewrite tenths_ltb_zero by (subst m; destruct (c =? 1)%float; lia).
    subst m. destruct (c =? 1)%float; [apply Z.ltb_lt|apply Z.ltb_ge]; lia. }
  pose proof (default_cycle_steps x c i (float_of_Z n) f priv options
                now now now now Hlate Hqwirk Hi Hw) as [H5 H3].
  unfold V5_cycle, V3_cycle.
  split_forall.
  - destruct H5 as ((Hp & He & _) & _ & Hpub).
    fold (tenths n) in Hp, Hpub.
    rewrite signed_reading_tenths, Hm in Hpub by exact Hcase.
    split; [exact Hpub|]. split; [exact Hneg|].
    rewrite Hp, He. subst signed. unfold shown_flow at 1.
    destruct (truthy (V5.pj1203aGetSignedPower options x));
      [rewrite shown_power_tenths, Hm by exact Hcase; auto|].
    fold (shown_flow false (sign_of_code c)). rewrite Hflow. auto.
  - destruct H3 as ((Hp & He & _) & _ & Hpub).
    fold (tenths n) in Hp, Hpub.
    rewrite signed_reading_tenths, Hm in Hpub by exact Hcase.
    split; [exact Hpub|]. split; [exact Hneg|].
    rewrite Hp, He. subst signed. unfold shown_flow at 1.
    destruct (truthy (V5.pj1203aGetSignedPower options x));
      [rewrite shown_power_tenths, Hm by exact Hcase; auto|].
    fold (shown_flow false (sign_of_code c)). rewrite Hflow. auto.
Qed.

Lemma published_power_has_direction_sign_witness :
  V5.get_pub_power ChB
    (V5_cycle ChB 1 154 (float_of_Z 371) 100 midcycle_state no_options
       sample_time).2
  = Some (tenths (-371)) /\
  (tenths (-371) <? 0)%float = true /\
  (V5_cycle ChB 1 154 (float_of_Z 371) 100 midcycle_state no_options
     sample_time).1 !! "energy_flow_b" = Some (JStr "producing").
Proof.
  pose proof (published_power_has_direction_sign ChB 1 154 100 371
                midcycle_state no_options sample_time
                eq_refl eq_refl eq_refl
                ltac:(split; reflexivity)) as H.
  cbv zeta in H. apply Forall_inv in H.
  destruct H as (Hu & Hn & _ & He).
  split; [exact Hu|]. split; [exact Hn|exact He].
Defined.

(** ** The counters of the first converter *)

Lemma V1_next_seq_spec result priv x :
  V1.PJ1203A_next_seq result priv x
  = (<[key "counter_" x := JNum (float_of_Z (V1_next_counter x priv))]> result,
     V1.set_counter x (V1_next_counter x priv) priv).
Proof.
  unfold V1.PJ1203A_next_seq, V1_next_counter.
  rewrite bit_and_0xffff. reflexivity.
Qed.

(** A flush of the first converter always ends in the counter step, on a
    record that holds value keys of the channel only. *)
Lemma V1_flush_all_shape x priv options clear :
  exists R,
    V1.PJ1203A_flush_all ∅ x priv options clear
    = V1.PJ1203A_next_seq R
        (if clear then V1.clear_fields x priv else priv) x /\
    forall k : string, ~ In k (V1_value_keys x) -> R !! k = None.
Proof.
  unfold V1.PJ1203A_flush_all.
  destruct (V1.get_energy_flow x priv), (V1.get_power x priv),
    (V1.get_current x priv), (V1.get_power_factor x priv);
    cbn [of_num of_str V1.put_if_present]; split_ifs;
    (eexists; split; [reflexivity|]);
    intros k Hk; rewrite ?lookup_insert; repeat case_decide; subst;
    try apply lookup_empty;
    exfalso; apply Hk; cbn; auto.
Qed.

Lemma V1_counter_key_fresh x y :
  ~ In (key "counter_" y) (V1_value_keys x).
Proof.
  destruct x, y; cbn; intros H;
    repeat destruct H as [H|H]; try discriminate; contradiction.
Qed.

Lemma V1_counts_next_seq x priv R q :
  V1.get_counter x q = V1.get_counter x priv ->
  V1.get_counter (other x) q = V1.get_counter (other x) priv ->
  R !! key "counter_" (other x) = None ->
  let out := V1.PJ1203A_next_seq R q x in
  V1_counts x priv out /\
  V1.get_counter (other x) out.2 = V1.get_counter (other x) priv /\
  out.1 !! key "counter_" (other x) = None.
Proof.
  intros Hx Ho HR. cbv zeta. rewrite V1_next_seq_spec. cbn [fst snd].
  unfold V1_counts, V1_next_counter. cbn [fst snd]. rewrite Hx.
  split; [split|split].
  - apply lookup_insert_eq.
  - clear. v1_destruct_all; reflexivity.
  - rewrite <- Ho. clear. v1_destruct_all; reflexivity.
  - rewrite lookup_insert_ne by (destruct x; discriminate). exact HR.
Qed.

Lemma V1_counts_flush_all x priv q options clear :
  V1.get_counter x q = V1.get_counter x priv ->
  V1.get_counter (other x) q = V1.get_counter (other x) priv ->
  let out := V1.PJ1203A_flush_all ∅ x q options clear in
  V1_counts x priv out /\
  V1.get_counter (other x) out.2 = V1.get_counter (other x) priv /\
  out.1 !! key "counter_" (other x) = None.
Proof.
  intros Hx Ho.
  destruct (V1_flush_all_shape x q options clear) as (R & -> & HR).
  apply V1_counts_next_seq.
  - rewrite <- Hx. destruct clear; clear; v1_destruct_all; reflexivity.
  - rewrite <- Ho. destruct clear; clear; v1_destruct_all; reflexivity.
  - apply HR, V1_counter_key_fresh.
Qed.

(** X11.  The counters of the first converter of PJ-1203A.js.  Every
    datapoint converter of channel [x] either emits nothing and keeps the
    counter of the channel, or publishes [counter_x] with the value
    [(counter_x + 1) mod 65536], which the state records: the counter
    steps exactly when something is published for the channel, and wraps
    from 65535 to 0.  The counter of the other channel is neither changed
    nor published. *)
Theorem counter_steps_with_every_record (x : channel) (v : float)
    (priv : V1.private_state) (options : jsobject) (now : string) :
  Forall (fun from =>
            let out := from v priv options now in
            ((out.1 = ∅ /\ V1.get_counter x out.2 = V1.get_counter x priv) \/
             V1_counts x priv out) /\
            V1.get_counter (other x) out.2 = V1.get_counter (other x) priv /\
            out.1 !! key "counter_" (other x) = None)
    [ V1.valueConverters.energy_flow x; V1.valueConverters.power x;
      V1.valueConverters.current x; V1.valueConverters.power_factor x ] /\
  0 <= V1_next_counter x priv < 65536 /\
  (V1.get_counter x priv = 65535 -> V1_next_counter x priv = 0).
Proof.
  split; [|split;
    [apply Z.mod_pos_bound; lia
    |intros H; unfold V1_next_counter; rewrite H; reflexivity]].
  split_forall; cbv zeta;
    unfold V1.valueConverters.energy_flow, V1.valueConverters.power,
      V1.valueConverters.current, V1.valueConverters.power_factor,
      V1.PJ1203A_flush_zero;
    split_ifs;
    first
      [ split; [left; split; [reflexivity|clear; v1_destruct_all; reflexivity]|];
        split; [clear; v1_destruct_all; reflexivity|apply lookup_empty]
      | match goal with
        | |- context [V1.PJ1203A_flush_all ∅ x ?q options ?cl] =>
            destruct (V1_counts_flush_all x priv q options cl) as (H1 & H2 & H3);
              [clear; v1_destruct_all; reflexivity..|];
            split; [right; exact H1|split; [exact H2|exact H3]]
        end
      | match goal with
        | |- context [V1.PJ1203A_next_seq ?R ?q x] =>
            destruct (V1_counts_next_seq x priv R q) as (H1 & H2 & H3);
              [clear; v1_destruct_all; reflexivity..
              |rewrite lookup_insert_ne by (destruct x; discriminate);
               apply lookup_empty|];
            split; [right; exact H1|split; [exact H2|exact H3]]
        end ].
Qed.

(** ** The publishing modes of the first converter *)

(** X12.  The default publishing mode of the first converter of
    PJ-1203A.js keeps no history.  In mode ['immediate'] (the default when
    the option is absent) the record that a datapoint converter of channel
    [x] emits depends on the datapoint and on the counter of the channel
    only: two states with the same counter give the same record, whatever
    they buffer.  This includes the zero shortcut, which publishes the
    whole zero snapshot. *)
Theorem immediate_mode_is_stateless (x : channel) (v : float)
    (p q : V1.private_state) (options : jsobject) (now : string) :
  str_eq (V1.PJ1203A_get_publishing_mode options) "immediate" = true ->
  V1.get_counter x p = V1.get_counter x q ->
  Forall (fun from => (from v p options now).1 = (from v q options now).1)
    [ V1.valueConverters.energy_flow x; V1.valueConverters.power x;
      V1.valueConverters.current x; V1.valueConverters.power_factor x ].
Proof.
  intros Himm Hc.
  split_forall;
    unfold V1.valueConverters.energy_flow, V1.valueConverters.power,
      V1.valueConverters.current, V1.valueConverters.power_factor,
      V1.PJ1203A_flush_zero, V1.PJ1203A_flush_all;
    rewrite ?Himm; split_ifs;
    destruct p, q, x; v1_red; rewrite ?V1_next_seq_spec;
    unfold V1_next_counter; v1_red; subst; reflexivity.
Qed.

Lemma immediate_mode_is_stateless_witness :
  V1.get_power ChB midcycle_state1 = Some 15%float /\
  V1.get_power ChB (V1.clear_pending midcycle_state1) = None /\
  (V1.valueConverters.current ChB 154 midcycle_state1 no_options
     sample_time).1
  = (V1.valueConverters.current ChB 154 (V1.clear_pending midcycle_state1)
       no_options sample_time).1.
Proof.
  pose proof (immediate_mode_is_stateless ChB 154 midcycle_state1
                (V1.clear_pending midcycle_state1) no_options sample_time
                eq_refl eq_refl) as H.
  split; [reflexivity|]. split; [reflexivity|].
  exact (Forall_inv (Forall_inv_tail (Forall_inv_tail H))).
Defined.

(** A complete flush of the first converter. *)
Lemma V1_flush_all_complete x priv options ef pw cu pf :
  V1.get_energy_flow x priv = Some ef ->
  V1.get_power x priv = Some pw ->
  V1.get_current x priv = Some cu ->
  V1.get_power_factor x priv = Some pf ->
  let out := V1.PJ1203A_flush_all ∅ x priv options true in
  V1_publishes x out.1 ef pw cu pf /\
  V1_counts x priv out /\
  V1_buffer_empty x out.2.
Proof.
  intros He Hw Hc Hf. cbv zeta. unfold V1.PJ1203A_flush_all.
  rewrite He, Hw, Hc, Hf, V1_next_seq_spec. cbn [fst snd].
  unfold V1_publishes, V1_counts, V1_next_counter, V1_buffer_empty.
  cbn [fst snd].
  split; [|split].
  - destruct x; repeat split; vm_compute; reflexivity.
  - assert (Hcq : V1.get_counter x (V1.clear_fields x priv)
                  = V1.get_counter x priv)
      by (clear; v1_destruct_all; reflexivity).
    rewrite Hcq. split; [apply lookup_insert_eq|].
    clear. v1_destruct_all; reflexivity.
  - clear. v1_destruct_all; repeat split.
Qed.

(** X13.  The two delayed publishing modes of the first converter of
    PJ-1203A.js.  In mode ['at_power_factor'], from any state, the
    datapoints of a cycle (direction code [c], nonzero raw current [i],
    nonzero raw power [w]) emit nothing and the power factor [f] emits the
    four values together: the label of [c], [w / 10], [i / 1000] and [f],
    with the next value of the counter.  In mode ['at_energy_flow'] the
    current, the power and the power factor emit nothing and the next
    direction code emits the four values, with the label of this code.  In
    both modes the flush empties the buffer. *)
Theorem delayed_modes_publish_whole_cycles (x : channel) (c i w f : float)
    (priv : V1.private_state) (opf oef : jsobject) (now : string) :
  V1.PJ1203A_get_publishing_mode opf = JStr "at_power_factor" ->
  V1.PJ1203A_get_publishing_mode oef = JStr "at_energy_flow" ->
  (i =? 0)%float = false ->
  (w =? 0)%float = false ->
  let o1 := V1.valueConverters.energy_flow x c priv opf now in
  let o2 := V1.valueConverters.current x i o1.2 opf now in
  let o3 := V1.valueConverters.power x w o2.2 opf now in
  let o4 := V1.valueConverters.power_factor x f o3.2 opf now in
  let e1 := V1.valueConverters.current x i priv oef now in
  let e2 := V1.valueConverters.power x w e1.2 oef now in
  let e3 := V1.valueConverters.power_factor x f e2.2 oef now in
  let e4 := V1.valueConverters.energy_flow x c e3.2 oef now in
  (o1.1 = ∅ /\ o2.1 = ∅ /\ o3.1 = ∅ /\
   V1_publishes x o4.1 (V1_flow_of_code c) (w / 10) (i / 1000) f /\
   V1_counts x priv o4 /\ V1_buffer_empty x o4.2) /\
  (e1.1 = ∅ /\ e2.1 = ∅ /\ e3.1 = ∅ /\
   V1_publishes x e4.1 (V1_flow_of_code c) (w / 10) (i / 1000) f /\
   V1_counts x priv e4 /\ V1_buffer_empty x e4.2).
Proof.
  intros Hpf Hef Hi Hw. cbv zeta.
  unfold V1.valueConverters.energy_flow, V1.valueConverters.current,
    V1.valueConverters.power, V1.valueConverters.power_factor.
  rewrite Hpf, Hef, Hi, Hw.
  cbn [str_eq String.eqb Ascii.eqb Bool.eqb fst snd].
  split; (split; [reflexivity|split; [reflexivity|split; [reflexivity|]]]).
  - match goal with
    | |- context [V1.PJ1203A_flush_all ∅ x ?q opf true] =>
        pose proof (V1_flush_all_complete x q opf (V1_flow_of_code c)
                      (w / 10) (i / 1000) f) as H;
        assert (Hcq : V1.get_counter x q = V1.get_counter x priv)
          by (clear; v1_destruct_all; reflexivity)
    end.
    cbv zeta in H.
    destruct H as (H1 & H2 & H4);
      [clear; v1_destruct_all; reflexivity..|].
    split; [exact H1|split; [|exact H4]].
    unfold V1_counts, V1_next_counter in *. rewrite <- Hcq. exact H2.
  - match goal with
    | |- context [V1.PJ1203A_flush_all ∅ x ?q oef true] =>
        pose proof (V1_flush_all_complete x q oef (V1_flow_of_code c)
                      (w / 10) (i / 1000) f) as H;
        assert (Hcq : V1.get_counter x q = V1.get_counter x priv)
          by (clear; v1_destruct_all; reflexivity)
    end.
    cbv zeta in H.
    destruct H as (H1 & H2 & H4);
      [clear; v1_destruct_all; reflexivity..|].
    split; [exact H1|split; [|exact H4]].
    unfold V1_counts, V1_next_counter in *. rewrite <- Hcq. exact H2.
Qed.

Lemma delayed_modes_publish_whole_cycles_witness :
  let now := sample_time in
  let o1 := V1.valueConverters.energy_flow ChA 1 midcycle_state1
              at_power_factor_options now in
  let o2 := V1.valueConverters.current ChA 1500 o1.2 at_power_factor_options now in
  let o3 := V1.valueConverters.power ChA 250 o2.2 at_power_factor_options now in
  let o4 := V1.valueConverters.power_factor ChA 95 o3.2 at_power_factor_options now in
  o3.1 = ∅ /\
  V1_publishes ChA o4.1 "producing" 25 1.5 95 /\
  o4.1 !! "counter_a" = Some (JNum 8%float).
Proof.
  pose proof (delayed_modes_publish_whole_cycles ChA 1 1500 250 95
                midcycle_state1 at_power_factor_options
                at_energy_flow_options sample_time
                eq_refl eq_refl eq_refl eq_refl)
    as ((_ & _ & H3 & Hp & [Hc _] & _) & _).
  split; [exact H3|]. split; [exact Hp|exact Hc].
Defined.

(** ** Timestamps *)

Ltac v5_timestamped H :=
  let y := fresh "y" in
  revert H; clear; intros H y; specialize (H y); revert H;
  v5_destruct_all; v5_red;
  first [ exact (fun H => H) | solve [intros _ _; eauto]
        | intros _ [? ?]; discriminate ].

Lemma channel_record_timestamp x signed s pw ts cu pf :
  channel_record x signed s pw ts cu pf !! key "timestamp_" x
  = Some (of_str ts) /\
  channel_record x signed s pw ts cu pf !! key "timestamp_" (other x) = None.
Proof.
  unfold channel_record.
  destruct x, signed; split; vm_compute; reflexivity.
Qed.

Lemma V5_flush_all_timestamped x p options :
  V5_timestamped p ->
  V5_timestamped (V5.pj1203aFlushAll ∅ x p options).2 /\
  timestamps_are_strings (V5.pj1203aFlushAll ∅ x p options).1.2.
Proof.
  intros Hp. split.
  - pose proof (V5_flush_all_consumes ∅ x p options) as (_ & Hw & _).
    pose proof (proj1 (V5_flush_all_other x p options)) as Ho.
    cbv zeta in Ho. destruct Ho as (_ & Ew & _ & _ & Et & _).
    intros y. destruct (channel_cases x y) as [-> | ->].
    + rewrite Hw. intros [? ?]; discriminate.
    + rewrite Ew, Et. apply Hp.
  - assert (Hempty : timestamps_are_strings ∅) by (intros y v Hv; discriminate).
    destruct (V5.get_sign x p) as [s|] eqn:Hs;
      [|rewrite V5_flush_all_incomplete by auto; exact Hempty].
    destruct (V5.get_power x p) as [pw|] eqn:Hw;
      [|rewrite V5_flush_all_incomplete by auto; exact Hempty].
    destruct (V5.get_current x p) as [cu|] eqn:Hc;
      [|rewrite V5_flush_all_incomplete by auto; exact Hempty].
    destruct (V5.get_power_factor x p) as [pf|] eqn:Hf;
      [|rewrite V5_flush_all_incomplete by auto; exact Hempty].
    rewrite (V5_flush_all_complete x p options s pw cu pf Hs Hw Hc Hf).
    cbv zeta. cbn [fst snd].
    destruct (Hp x) as [t Ht]; [rewrite Hw; eauto|]. rewrite Ht.
    intros y v. rewrite with_total_lookup by (destruct y; discriminate).
    destruct (channel_record_timestamp x
                (truthy (V5.pj1203aGetSignedPower options x)) s pw (Some t) cu pf)
      as [Kx Ko].
    destruct (channel_cases x y) as [-> | ->].
    + rewrite Kx. intros [= <-]. eauto.
    + rewrite Ko. discriminate.
Qed.

Ltac v5_flush_timestamped :=
  match goal with
  | |- context [V5.pj1203aFlushAll ∅ ?x ?q ?o] =>
      let H := fresh "Hts" in
      pose proof (V5_flush_all_timestamped x q o) as H;
      destruct (V5.pj1203aFlushAll ∅ x q o) as [[? ?] ?];
      cbn [fst snd] in H |- *
  end.

Lemma V5_converters_timestamped x v p options now :
  V5_timestamped p ->
  Forall (fun from =>
            V5_timestamped (from v p options now).2 /\
            timestamps_are_strings (from v p options now).1)
    [ V5.valueConverters.energy_flow x; V5.valueConverters.power x;
      V5.valueConverters.current x; V5.valueConverters.power_factor x;
      V3.valueConverters.energy_flow x; V3.valueConverters.power x;
      V3.valueConverters.current x; V3.valueConverters.power_factor x ].
Proof.
  intros Hp.
  assert (Hempty : timestamps_are_strings ∅) by (intros y w Hw; discriminate).
  split_forall; v5_unfold_converters; split_ifs;
    try v5_flush_timestamped;
    first
      [ split; [v5_timestamped Hp|exact Hempty]
      | destruct Hts as [Hq Hr]; [v5_timestamped Hp|];
        split; [v5_timestamped Hq|exact Hr] ].
Qed.

Lemma timestamps_are_strings_assign result r :
  timestamps_are_strings result -> timestamps_are_strings r ->
  timestamps_are_strings (object_assign result r).
Proof.
  intros H1 H2 y v. unfold object_assign.
  rewrite lookup_union_Some_raw. intros [H|[_ H]]; eauto.
Qed.

Lemma V5_table_timestamped dp from v p options now :
  find_dp V5.tuyaDatapoints dp = Some (Merged from) \/
  find_dp V3.tuyaDatapoints dp = Some (Merged from) ->
  V5_timestamped p ->
  V5_timestamped (from v p options now).2 /\
  timestamps_are_strings (from v p options now).1.
Proof.
  intros E Hp.
  pose proof (V5_converters_timestamped ChA v p options now Hp) as HA.
  pose proof (V5_converters_timestamped ChB v p options now Hp) as HB.
  repeat (apply Forall_cons in HA; destruct HA as [? HA]).
  repeat (apply Forall_cons in HB; destruct HB as [? HB]).
  destruct E as [E|E]; find_dp_cases E;
    first [assumption|split; [exact Hp|intros y w Hw; discriminate]].
Qed.

Lemma V5_track_sequence_timestamped p sq :
  V5_timestamped p ->
  V5_timestamped (V5.track_sequence p sq) /\
  V5_timestamped (V3.track_sequence p sq).
Proof.
  intros Hp. unfold V5.track_sequence, V3.track_sequence.
  split; match goal with |- context [if ?b then _ else _] => destruct b end;
    v5_timestamped Hp.
Qed.

Lemma V5_convert_timestamped store msg options now :
  (forall p, store = Some p -> V5_timestamped p) ->
  (V5_timestamped (V5.convert store msg options now).2 /\
   timestamps_are_strings (V5.convert store msg options now).1) /\
  (V5_timestamped (V3.convert store msg options now).2 /\
   timestamps_are_strings (V3.convert store msg options now).1).
Proof.
  intros Hstore.
  rewrite V5_convert_unfold, V3_convert_unfold.
  assert (H0 : V5_timestamped (V5.pj1203aGetPrivateState store)).
  { destruct store; [auto|]. intros [] [? ?]; discriminate. }
  destruct (V5_track_sequence_timestamped _ (seq msg) H0) as [H5 H3].
  split.
  - apply (datapoints_convert_invariant
             (fun r p => V5_timestamped p /\ timestamps_are_strings r)).
    + intros dp name from v result p E [Hp Hr]. split; [exact Hp|].
      destruct (V5_named_not_channel dp name from (or_introl E)) as [_ Hk].
      intros y w. rewrite lookup_insert_ne; [apply Hr|].
      intros ->. apply (Hk y (key "timestamp_" y)); [cbn; auto|reflexivity].
    + intros dp from v result p E [Hp Hr].
      destruct (V5_table_timestamped dp from v p options now (or_introl E) Hp).
      split; [assumption|apply timestamps_are_strings_assign; assumption].
    + split; [exact H5|intros y w Hw; discriminate].
  - apply (datapoints_convert_invariant
             (fun r p => V5_timestamped p /\ timestamps_are_strings r)).
    + intros dp name from v result p E [Hp Hr]. split; [exact Hp|].
      destruct (V5_named_not_channel dp name from (or_intror E)) as [_ Hk].
      intros y w. rewrite lookup_insert_ne; [apply Hr|].
      intros ->. apply (Hk y (key "timestamp_" y)); [cbn; auto|reflexivity].
    + intros dp from v result p E [Hp Hr].
      destruct (V5_table_timestamped dp from v p options now (or_intror E) Hp).
      split; [assumption|apply timestamps_are_strings_assign; assumption].
    + split; [exact H3|intros y w Hw; discriminate].
Qed.

Lemma V5_process_timestamped msgs options : forall store,
  (forall p, store = Some p -> V5_timestamped p) ->
  Forall (fun out => timestamps_are_strings out.1)
    (V5_process store msgs options) /\
  Forall (fun out => timestamps_are_strings out.1)
    (V3_process store msgs options).
Proof.
  induction msgs as [|[msg now] rest IH]; intros store Hstore;
    [split; constructor|].
  destruct (V5_convert_timestamped store msg options now Hstore)
    as [[S5 R5] [S3 R3]].
  cbn [V5_process V3_process]. split.
  - constructor; [exact R5|]. apply IH. intros p [= <-]. exact S5.
  - constructor; [exact R3|]. apply IH. intros p [= <-]. exact S3.
Qed.

(** X14.  A published timestamp is never [null].  For a device seen for
    the first time, any sequence of messages and any options, every
    [timestamp_a] or [timestamp_b] of every emitted record is a string:
    the time of reception of a power datapoint, or of the zero that took
    the shortcut.  The state keeps a timestamp for every buffered power,
    across flushes and gaps (v5 and v3). *)
Theorem published_timestamps_are_set (msgs : list (message * string))
    (options : jsobject) :
  Forall (fun out => timestamps_are_strings out.1)
    (V5_process None msgs options) /\
  Forall (fun out => timestamps_are_strings out.1)
    (V3_process None msgs options).
Proof. apply V5_process_timestamped. discriminate. Qed.

(** ** The sequence number only feeds the tracker *)

Lemma V5_recompute_last_seq result p s :
  V5.pj1203aRecomputePowerAb result (V5.set_last_seq s p)
  = ((V5.pj1203aRecomputePowerAb result p).1,
     V5.set_last_seq s (V5.pj1203aRecomputePowerAb result p).2).
Proof.
  rewrite !V5_recompute_spec. cbv zeta.
  destruct (js_in "power_a" result), (js_in "power_b" result);
    cbn [orb fst snd]; f_equal;
    try (apply with_total_ext; intros c); v5_field.
Qed.

Lemma V5_flush_all_last_seq result x p options s :
  V5.pj1203aFlushAll result x (V5.set_last_seq s p) options
  = ((V5.pj1203aFlushAll result x p options).1,
     V5.set_last_seq s (V5.pj1203aFlushAll result x p options).2).
Proof.
  unfold V5.pj1203aFlushAll.
  replace (V5.get_sign x (V5.set_last_seq s p)) with (V5.get_sign x p) by v5_field.
  replace (V5.get_power x (V5.set_last_seq s p)) with (V5.get_power x p) by v5_field.
  replace (V5.get_current x (V5.set_last_seq s p)) with (V5.get_current x p) by v5_field.
  replace (V5.get_power_factor x (V5.set_last_seq s p))
    with (V5.get_power_factor x p) by v5_field.
  replace (V5.get_timestamp x (V5.clear_fields x (V5.set_last_seq s p)))
    with (V5.get_timestamp x (V5.clear_fields x p)) by v5_field.
  replace (V5.clear_fields x (V5.set_last_seq s p))
    with (V5.set_last_seq s (V5.clear_fields x p)) by v5_field.
  destruct (V5.get_sign x p), (V5.get_power x p), (V5.get_current x p),
    (V5.get_power_factor x p); try reflexivity.
  rewrite V5_recompute_last_seq.
  destruct (V5.pj1203aRecomputePowerAb _ _). reflexivity.
Qed.

(** Moves the assignment of [last_seq] out of the flushes of the goal. *)
Ltac v5_commute_last_seq s p :=
  repeat match goal with
  | |- context [V5.pj1203aFlushAll ∅ ?x ?Q ?o] =>
      match Q with context [V5.set_last_seq s p] => idtac end;
      match eval pattern (V5.set_last_seq s p) in Q with
      | ?f _ =>
          let Q' := eval cbv beta in (f p) in
          replace Q with (V5.set_last_seq s Q') by v5_field;
          rewrite (V5_flush_all_last_seq ∅ x Q' o s)
      end
  | |- context [V5.flag_unset (?g ?x ?Q)] =>
      match Q with context [V5.set_last_seq s p] => idtac end;
      match eval pattern (V5.set_last_seq s p) in Q with
      | ?f _ =>
          let Q' := eval cbv beta in (f p) in
          replace (g x Q) with (g x Q') by v5_field
      end
  end.

Lemma V5_converters_last_seq x v p options now s :
  Forall (fun from =>
            from v (V5.set_last_seq s p) options now
            = ((from v p options now).1,
               V5.set_last_seq s (from v p options now).2))
    [ V5.valueConverters.energy_flow x; V5.valueConverters.power x;
      V5.valueConverters.current x; V5.valueConverters.power_factor x;
      V3.valueConverters.energy_flow x; V3.valueConverters.power x;
      V3.valueConverters.current x; V3.valueConverters.power_factor x ].
Proof.
  split_forall; v5_unfold_converters; v5_commute_last_seq s p;
    repeat match goal with
    | |- context [V5.pj1203aFlushAll ∅ ?x ?Q ?o] =>
        destruct (V5.pj1203aFlushAll ∅ x Q o) as [[? ?] ?]
    end;
    cbn [fst snd]; split_ifs; cbn [fst snd]; f_equal; v5_field.
Qed.

Lemma datapoints_convert_last_seq (table : list (Z * dp_entry V5.private_state))
    options now s :
  (forall dp from v p,
      find_dp table dp = Some (Merged from) ->
      from v (V5.set_last_seq s p) options now
      = ((from v p options now).1,
         V5.set_last_seq s (from v p options now).2)) ->
  forall dps result p,
    datapoints_convert table dps options now result (V5.set_last_seq s p)
    = ((datapoints_convert table dps options now result p).1,
       V5.set_last_seq s (datapoints_convert table dps options now result p).2).
Proof.
  intros H dps. induction dps as [|[dp v] rest IH]; intros result p;
    [reflexivity|].
  cbn [datapoints_convert].
  destruct (find_dp table dp) as [[name from|from]|] eqn:E; try apply IH.
  rewrite (H dp from v p E).
  destruct (from v p options now) as [c q]. cbn [fst snd]. apply IH.
Qed.

Lemma V5_table_last_seq dp from v p options now s :
  find_dp V5.tuyaDatapoints dp = Some (Merged from) \/
  find_dp V3.tuyaDatapoints dp = Some (Merged from) ->
  from v (V5.set_last_seq s p) options now
  = ((from v p options now).1, V5.set_last_seq s (from v p options now).2).
Proof.
  intros E.
  pose proof (V5_converters_last_seq ChA v p options now s) as HA.
  pose proof (V5_converters_last_seq ChB v p options now s) as HB.
  repeat (apply Forall_cons in HA; destruct HA as [? HA]).
  repeat (apply Forall_cons in HB; destruct HB as [? HB]).
  destruct E as [E|E]; find_dp_cases E; first [assumption|reflexivity].
Qed.

Lemma V5_track_sequence_no_gap p sq :
  (V5.gap_detected p sq = false ->
   V5.track_sequence p sq = V5.set_last_seq sq p) /\
  (V3.gap_detected p sq = false ->
   V3.track_sequence p sq = V5.set_last_seq sq p).
Proof.
  unfold V5.track_sequence, V3.track_sequence.
  split; intros ->; reflexivity.
Qed.

(** X15.  The sequence number only feeds the tracker, and duplicates are
    not filtered.  No converter reads [last_seq]: when no gap is detected,
    the record of a message and the state after it, [last_seq] apart, do
    not depend on the sequence number.  A message that repeats the last
    number is therefore converted once more, exactly as the message with
    the expected number would be (v5 and v3). *)
Theorem duplicates_are_converted_again (p : V5.private_state)
    (s1 s2 : Z) (dps : list (Z * float)) (options : jsobject) (now : string) :
  V5.gap_detected p s1 = false -> V5.gap_detected p s2 = false ->
  V3.gap_detected p s1 = false -> V3.gap_detected p s2 = false ->
  let out1 := V5.convert (Some p) (mkMessage s1 dps) options now in
  let out2 := V5.convert (Some p) (mkMessage s2 dps) options now in
  let out1' := V3.convert (Some p) (mkMessage s1 dps) options now in
  let out2' := V3.convert (Some p) (mkMessage s2 dps) options now in
  (out1.1 = out2.1 /\ V5.set_last_seq s2 out1.2 = out2.2) /\
  (out1'.1 = out2'.1 /\ V5.set_last_seq s2 out1'.2 = out2'.2).
Proof.
  intros G1 G2 G1' G2'. cbv zeta.
  rewrite !V5_convert_unfold, !V3_convert_unfold.
  cbn [seq dpValues V5.pj1203aGetPrivateState].
  rewrite (proj1 (V5_track_sequence_no_gap p s1) G1),
    (proj1 (V5_track_sequence_no_gap p s2) G2),
    (proj2 (V5_track_sequence_no_gap p s1) G1'),
    (proj2 (V5_track_sequence_no_gap p s2) G2').
  rewrite !(datapoints_convert_last_seq V5.tuyaDatapoints)
    by (intros dp from v q E; apply (V5_table_last_seq dp); auto).
  rewrite !(datapoints_convert_last_seq V3.tuyaDatapoints)
    by (intros dp from v q E; apply (V5_table_last_seq dp); auto).
  cbn [fst snd].
  split; (split; [reflexivity|]);
    match goal with
    | |- context [datapoints_convert ?t ?d ?o ?n ?r ?p0] =>
        destruct (datapoints_convert t d o n r p0) as [? q]
    end;
    cbn [snd]; destruct q; reflexivity.
Qed.

Lemma duplicates_are_converted_again_witness :
  V5.duplicate midcycle_state 256 = true /\
  V5.in_order midcycle_state 512 = true /\
  (V5.convert (Some midcycle_state) (mkMessage 256 [(101, 250%float)])
     no_options sample_time).1
  = (V5.convert (Some midcycle_state) (mkMessage 512 [(101, 250%float)])
       no_options sample_time).1.
Proof.
  pose proof (duplicates_are_converted_again midcycle_state 256 512
                [(101, 250%float)] no_options sample_time
                eq_refl eq_refl eq_refl eq_refl) as ([H _] & _).
  split; [reflexivity|]. split; [reflexivity|exact H].
Defined.

(** ** The zero shortcut of the first converter *)

(** X16.  The zero shortcut of the first converter of PJ-1203A.js.  A
    power or current datapoint of value zero publishes at once, from any
    state and in every publishing mode, the whole zero snapshot of the
    channel (label ["consuming"], power 0, current 0, power factor 100)
    with the next value of the counter; the snapshot stays buffered. *)
Theorem zero_shortcut_of_first_converter (x : channel) (v : float)
    (priv : V1.private_state) (options : jsobject) (now : string) :
  (v =? 0)%float = true ->
  Forall (fun from =>
            let out := from v priv options now in
            V1_publishes x out.1 "consuming" 0 0 100 /\
            V1_counts x priv out /\
            V1.get_energy_flow x out.2 = Some "consuming" /\
            V1.get_power x out.2 = Some 0%float /\
            V1.get_current x out.2 = Some 0%float /\
            V1.get_power_factor x out.2 = Some 100%float)
    [ V1.valueConverters.power x; V1.valueConverters.current x ].
Proof.
  intros Hv.
  split_forall; cbv zeta;
    unfold V1.valueConverters.power, V1.valueConverters.current,
      V1.PJ1203A_flush_zero, V1.PJ1203A_flush_all;
    rewrite Hv; destruct priv, x; v1_red;
    rewrite V1_next_seq_spec;
    unfold V1_publishes, V1_counts, V1_next_counter; cbn [fst snd]; v1_red;
    (split; [repeat split; vm_compute; reflexivity|]);
    (split; [split; [apply lookup_insert_eq|reflexivity]|]);
    repeat split.
Qed.

Lemma zero_shortcut_of_first_converter_witness :
  V1.get_counter ChB midcycle_state1 = 65535 /\
  V1_publishes ChB
    (V1.valueConverters.current ChB 0 midcycle_state1
       at_power_factor_options sample_time).1
    "consuming" 0 0 100 /\
  (V1.valueConverters.current ChB 0 midcycle_state1
     at_power_factor_options sample_time).1 !! "counter_b"
  = Some (JNum 0%float).
Proof.
  pose proof (zero_shortcut_of_first_converter ChB 0 midcycle_state1
                at_power_factor_options sample_time eq_refl) as H.
  apply Forall_inv_tail, Forall_inv in H. cbv zeta in H.
  destruct H as (Hp & [Hc _] & _).
  split; [reflexivity|]. split; [exact Hp|exact Hc].
Defined.

(** ** The records of the first converter *)

(** A converter of channel [x] of the first converter only writes the four
    value keys and the counter of its channel. *)
Lemma V1_converters_keys x v priv options now (k : string) :
  ~ In k (V1_value_keys x) -> k <> key "counter_" x ->
  Forall (fun from => (from v priv options now).1 !! k = None)
    [ V1.valueConverters.energy_flow x; V1.valueConverters.power x;
      V1.valueConverters.current x; V1.valueConverters.power_factor x ].
Proof.
  intros Hk Hc.
  assert (Hflush : forall q clear,
             (V1.PJ1203A_flush_all ∅ x q options clear).1 !! k = None).
  { intros q clear.
    destruct (V1_flush_all_shape x q options clear) as (R & -> & HR).
    rewrite V1_next_seq_spec. cbn [fst].
    rewrite lookup_insert_ne by congruence. auto. }
  split_forall;
    unfold V1.valueConverters.energy_flow, V1.valueConverters.power,
      V1.valueConverters.current, V1.valueConverters.power_factor,
      V1.PJ1203A_flush_zero;
    split_ifs; rewrite ?V1_next_seq_spec; cbn [fst];
    try apply Hflush; try apply lookup_empty;
    rewrite lookup_insert_ne by congruence;
    (rewrite lookup_insert_ne;
       [apply lookup_empty|intros <-; apply Hk; cbn; auto]).
Qed.

Lemma V1_table_keys dp from v priv options now (k : string) :
  find_dp V1.tuyaDatapoints dp = Some (Merged from) ->
  (forall y, ~ In k (V1_value_keys y) /\ k <> key "counter_" y) ->
  (from v priv options now).1 !! k = None.
Proof.
  intros E Hk.
  pose proof (V1_converters_keys ChA v priv options now k
                (proj1 (Hk ChA)) (proj2 (Hk ChA))) as HA.
  pose proof (V1_converters_keys ChB v priv options now k
                (proj1 (Hk ChB)) (proj2 (Hk ChB))) as HB.
  repeat (apply Forall_cons in HA; destruct HA as [? HA]).
  repeat (apply Forall_cons in HB; destruct HB as [? HB]).
  find_dp_cases E; assumption.
Qed.

(** X17.  The first converter of PJ-1203A.js publishes the received
    message in every record: the line meant for debugging, which stores
    the message object under the key [msg], is active, and no datapoint of
    the message, mapped or not, overwrites that key. *)
Theorem first_converter_publishes_the_message
    (store : option V1.private_state) (msg : message)
    (options : jsobject) (now : string) :
  (V1.convert store msg options now).1 !! "msg" = Some (JMessage msg).
Proof.
  unfold V1.convert.
  assert (Hk : forall y, ~ In "msg" (V1_value_keys y) /\ "msg" <> key "counter_" y).
  { intros []; split; try discriminate; cbn; intros Hin;
      repeat destruct Hin as [Hin|Hin]; try discriminate; contradiction. }
  assert (H : (datapoints_convert V1.tuyaDatapoints (dpValues msg) options now ∅
                 (V1.track_sequence (V1.PJ1203A_providePrivateState store)
                    options (seq msg))).1 !! "msg" = None).
  { apply (datapoints_convert_invariant
             (fun (r : jsobject) (_ : V1.private_state) => r !! "msg" = None)).
    - intros dp name from v result p E Hr.
      rewrite lookup_insert_ne; [exact Hr|].
      find_dp_cases E; discriminate.
    - intros dp from v result p E Hr. unfold object_assign.
      apply lookup_union_None. split; [|exact Hr].
      apply (V1_table_keys dp from v p options now "msg" E Hk).
    - apply lookup_empty. }
  destruct (datapoints_convert _ _ _ _ _ _) as [converted p'].
  cbn [fst snd] in *. unfold object_assign.
  rewrite (lookup_union_r _ _ _ H). apply lookup_insert_eq.
Qed.
